(** * Ticker Data Aggregator (stocks.py): a shallow embedding and its properties

    The development follows [src/stocks.py].  Python values are embedded as
    follows.

    - [str] is [string]; the model covers ASCII text (code points below 128),
      on which [strip], [upper], [lower], [isdigit] and the comparison of
      strings are the byte-wise operations written out in [PyStr].
    - [int] is [Z]; finite [float] values and [int] values are embedded in [Q]:
      a number of a dictionary is an [int] or a binary64 [float], and a
      rational that is neither stands for no Python value.  Comparisons of
      such numbers are exact in Python and in [Q].  The quotients and
      products that are formatted for a sheet ([fetch_statistics], the market
      capitalisation, the statement values of the library) and the generated
      fallback values are rounded to binary64 by [PyNum.fl], and [repr] and
      [round] are those of a float.  In the estimate of a missing ESG
      component, in the placeholders of the summary and in the adjustment of
      the historical scores the exact rational stands for the float.
    - a [dict] is a [gmap] with string keys; the JSON objects of the provider
      are records of optional fields.
    - an operation that can raise returns an [outcome]; the spreadsheet writer
      is threaded explicitly through the category operations. *)

From Stdlib Require Import ZArith QArith Qround Qabs String Ascii List Lia Bool
  DecimalString DecimalZ DecimalPos Sorting.Sorted Sorting.Permutation.
From stdpp Require Import gmap strings list.

Open Scope string_scope.

(** ** Python [str] methods on ASCII strings *)

Module PyStr.

(** [str.isspace] on one ASCII character: TAB..CR, FS..US and the space. *)
Definition is_space (a : ascii) : bool :=
  let n := nat_of_ascii a in
  ((9 <=? n)%nat && (n <=? 13)%nat) || ((28 <=? n)%nat && (n <=? 32)%nat).

Definition is_lower (a : ascii) : bool :=
  let n := nat_of_ascii a in (97 <=? n)%nat && (n <=? 122)%nat.

Definition is_upper (a : ascii) : bool :=
  let n := nat_of_ascii a in (65 <=? n)%nat && (n <=? 90)%nat.

Definition is_digit (a : ascii) : bool :=
  let n := nat_of_ascii a in (48 <=? n)%nat && (n <=? 57)%nat.

Definition upper_char (a : ascii) : ascii :=
  if is_lower a then ascii_of_nat (nat_of_ascii a - 32) else a.

Definition lower_char (a : ascii) : ascii :=
  if is_upper a then ascii_of_nat (nat_of_ascii a + 32) else a.

Fixpoint map_chars (f : ascii -> ascii) (s : string) : string :=
  match s with
  | EmptyString => EmptyString
  | String c s' => String (f c) (map_chars f s')
  end.

(** [s.upper()] and [s.lower()]. *)
Definition upper (s : string) : string := map_chars upper_char s.
Definition lower (s : string) : string := map_chars lower_char s.

Fixpoint all_chars (p : ascii -> bool) (s : string) : bool :=
  match s with
  | EmptyString => true
  | String c s' => p c && all_chars p s'
  end.

(** [s.lstrip()], [s.rstrip()], [s.strip()]. *)
Fixpoint lstrip (s : string) : string :=
  match s with
  | EmptyString => EmptyString
  | String c s' => if is_space c then lstrip s' else s
  end.

Fixpoint rstrip (s : string) : string :=
  match s with
  | EmptyString => EmptyString
  | String c s' =>
      match rstrip s' with
      | EmptyString => if is_space c then EmptyString else String c EmptyString
      | r => String c r
      end
  end.

Definition strip (s : string) : string := lstrip (rstrip s).

(** [bool(s)]: a string is truthy when it is not empty. *)
Definition truthy (s : string) : bool :=
  match s with EmptyString => false | _ => true end.

(** [s.isascii()]: every code point is below 128. *)
Definition is_ascii (s : string) : bool :=
  all_chars (fun a => (nat_of_ascii a <? 128)%nat) s.

(** [s.isdigit()]: non-empty and made of decimal digits. *)
Definition isdigit (s : string) : bool := truthy s && all_chars is_digit s.

(** [s.startswith(p)] and [s.endswith(p)]. *)
Definition startswith (s p : string) : bool := String.prefix p s.

Fixpoint rev_string (s : string) : string :=
  match s with
  | EmptyString => EmptyString
  | String c s' => rev_string s' ++ String c EmptyString
  end.

Definition endswith (s p : string) : bool :=
  String.prefix (rev_string p) (rev_string s).

(** [p in s] for strings. *)
Fixpoint contains (s p : string) : bool :=
  String.prefix p s ||
  match s with
  | EmptyString => false
  | String _ s' => contains s' p
  end.

(** [s.split(sep)] for a non-empty separator: the pieces between the
    non-overlapping occurrences of [sep], scanned from the left.  [cur] holds
    the characters of the current piece in reverse. *)
Fixpoint drop (n : nat) (s : string) : string :=
  match n, s with
  | O, _ => s
  | S n', String _ s' => drop n' s'
  | S _, EmptyString => EmptyString
  end.

Fixpoint split_go (fuel : nat) (sep : string) (cur : string) (s : string)
  : list string :=
  match fuel with
  | O => [rev_string cur ++ s]
  | S fuel' =>
      match s with
      | EmptyString => [rev_string cur]
      | String c s' =>
          if String.prefix sep s
          then rev_string cur :: split_go fuel' sep EmptyString
                 (drop (String.length sep) s)
          else split_go fuel' sep (String c cur) s'
      end
  end.

Definition split (s sep : string) : list string :=
  split_go (S (String.length s)) sep EmptyString s.

(** Zero padding to width two, as the format [:02d] does for a natural
    number, and the decimal numeral of an integer, as [str(n)] gives it. *)
Definition of_Z (z : Z) : string := NilZero.string_of_int (Z.to_int z).

Definition pad2 (z : Z) : string :=
  if ((0 <=? z) && (z <? 10))%Z then "0" ++ of_Z z else of_Z z.

End PyStr.

(** ** Numbers and their formats *)

Module PyNum.

(** Rounding of a rational to the nearest integer, ties to the even one: the
    rounding of [round] and of the [f] format. *)
Definition round_half_even (x : Q) : Z :=
  let n := Qnum x in
  let d := Zpos (Qden x) in
  let f := (n / d)%Z in
  let r2 := (2 * (n mod d))%Z in
  if (r2 <? d)%Z then f
  else if (d <? r2)%Z then (f + 1)%Z
  else if Z.even f then f else (f + 1)%Z.

Definition is_neg (x : Q) : bool := (Qnum x <? 0)%Z.

Definition sign_of (x : Q) : string := if is_neg x then "-" else "".

(** [|x|] scaled by [10^k] and rounded. *)
Definition scaled (k : Z) (x : Q) : Z :=
  round_half_even (Qabs x * inject_Z (10 ^ k)).

Definition pad3 (z : Z) : string :=
  if (z <? 10)%Z then "00" ++ PyStr.of_Z z
  else if (z <? 100)%Z then "0" ++ PyStr.of_Z z
  else PyStr.of_Z z.

(** Grouping of a non-negative integer by thousands, as the [,] option of
    the format language does. *)
Fixpoint group_go (fuel : nat) (n : Z) : string :=
  match fuel with
  | O => PyStr.of_Z n
  | S fuel' =>
      if (n <? 1000)%Z then PyStr.of_Z n
      else group_go fuel' (n / 1000)%Z ++ "," ++ pad3 (n mod 1000)%Z
  end.

Definition group (n : Z) : string := group_go (S (Z.to_nat (Z.log2 n))) n.

(** [f"{x:.2f}"] *)
Definition fmt_2f (x : Q) : string :=
  let c := scaled 2 x in
  sign_of x ++ PyStr.of_Z (c / 100)%Z ++ "." ++ PyStr.pad2 (c mod 100)%Z.

(** [f"{x:,.2f}"] *)
Definition fmt_comma_2f (x : Q) : string :=
  let c := scaled 2 x in
  sign_of x ++ group (c / 100)%Z ++ "." ++ PyStr.pad2 (c mod 100)%Z.

(** [int(x)]: truncation towards zero. *)
Definition to_int (x : Q) : Z :=
  if is_neg x then (- Qfloor (- x))%Z else Qfloor x.

(** [f"{n:,}"] for an integer. *)
Definition fmt_comma_int (n : Z) : string :=
  (if (n <? 0)%Z then "-" else "") ++ group (Z.abs n).

(** [round(x, k)] as a number, in lowest terms. *)
Definition round_to (k : Z) (x : Q) : Q :=
  let c := scaled k x in
  Qred (Qmake (if is_neg x then - c else c) (Z.to_pos (10 ^ k))).

(** *** Binary floating point

    A Python [float] is a binary64 number.  A float operation gives the
    binary64 number nearest to its exact result, ties going to the even
    significand; [fl] is that rounding on the exact rational.  The exponent
    is bounded below (subnormal numbers) and not above: [finite] tells
    whether the rounded number is below [2^1024], beyond which an operation
    on floats gives an infinity and the conversion of an [int] raises. *)

Definition pow2 (e : Z) : Q :=
  if (0 <=? e)%Z then inject_Z (2 ^ e) else 1 # Z.to_pos (2 ^ (- e)).

(** The exponent [b] with [2^b <= |x| < 2^(b+1)], for [x] other than 0. *)
Definition binade (x : Q) : Z :=
  let n := Z.abs (Qnum x) in
  let d := Zpos (Qden x) in
  let k := (Z.log2 n - Z.log2 d)%Z in
  if (n * 2 ^ Z.max 0 (- k) <? d * 2 ^ Z.max 0 k)%Z then (k - 1)%Z else k.

(** The exponent of the last place of the binary64 numbers next to [x]: 52
    places below the leading one, and the last place of the subnormal
    numbers at least. *)
Definition ulp_exp (x : Q) : Z := Z.max (binade x - 52) (- 1074).

Definition fl (x : Q) : Q :=
  if (Qnum x =? 0)%Z then 0
  else
    let e := ulp_exp x in
    let m := round_half_even (Qabs x / pow2 e) in
    Qred (inject_Z (if is_neg x then - m else m) * pow2 e).

Definition finite (x : Q) : bool := negb (Qle_bool (pow2 1024) (Qabs (fl x))).

(** [float(x)] for a number: the float itself, or the float nearest to an
    [int]; [None] stands for the [OverflowError] of an [int] that is too
    large. *)
Definition to_float (x : Q) : option Q :=
  if finite x then Some (fl x) else None.

(** *** [repr] of a float

    [repr] prints the shortest decimal that reads back as the same float,
    the nearest to it when there are several, in positional notation when
    the decimal point falls within the first sixteen digits or at most
    three zeros before them, and with an exponent otherwise. *)

Definition pow10 (e : Z) : Q :=
  if (0 <=? e)%Z then inject_Z (10 ^ e) else 1 # Z.to_pos (10 ^ (- e)).

Fixpoint decade_below (fuel : nat) (x : Q) (k : Z) : Z :=
  match fuel with
  | O => k
  | S fuel' =>
      if Qle_bool 1 x then k else decade_below fuel' (x * 10)%Q (k - 1)%Z
  end.

(** The exponent [k] with [10^k <= x < 10^(k+1)], for a positive [x]. *)
Definition decade (x : Q) : Z :=
  if Qle_bool 1 x
  then (Z.of_nat (String.length (PyStr.of_Z (Qfloor x))) - 1)%Z
  else decade_below 400 x 0%Z.

(** The shortest decimal for a positive float [x]: with [n] digits, the
    two decimals next to [x] are tried, from [n] digits on. *)
Fixpoint shortest_go (fuel : nat) (n : Z) (x : Q) (k : Z) : Z * Z :=
  let s := pow10 (k - n + 1)%Z in
  let q := (x / s)%Q in
  let lo := Qfloor q in
  let hi := (lo + 1)%Z in
  let ok_lo := Qeq_bool (fl (inject_Z lo * s)%Q) x in
  let ok_hi := Qeq_bool (fl (inject_Z hi * s)%Q) x in
  let pick :=
    if ok_lo && ok_hi
    then Some (if Qle_bool (q - inject_Z lo)%Q (inject_Z hi - q)%Q then lo else hi)
    else if ok_lo then Some lo
    else if ok_hi then Some hi
    else None in
  match pick, fuel with
  | Some digits, _ => (digits, (k - n + 1)%Z)
  | None, S fuel' => shortest_go fuel' (n + 1)%Z x k
  | None, O => (lo, (k - n + 1)%Z)
  end.

Fixpoint strip_zeros (fuel : nat) (digits e : Z) : Z * Z :=
  match fuel with
  | O => (digits, e)
  | S fuel' =>
      if (digits mod 10 =? 0)%Z
      then strip_zeros fuel' (digits / 10)%Z (e + 1)%Z
      else (digits, e)
  end.

Definition shortest (x : Q) : Z * Z :=
  let '(digits, e) := shortest_go 16 1%Z x (decade x) in
  strip_zeros 17 digits e.

Fixpoint zeros (n : nat) : string :=
  match n with
  | O => ""
  | S n' => "0" ++ zeros n'
  end.

Definition repr (x : Q) : string :=
  if (Qnum x =? 0)%Z then "0.0"
  else
    let '(digits, e) := shortest (Qabs x) in
    let ds := PyStr.of_Z digits in
    let nd := Z.of_nat (String.length ds) in
    let decpt := (nd + e)%Z in
    sign_of x ++
    (if ((decpt <=? -4) || (16 <? decpt))%Z
     then
       String.substring 0 1 ds
       ++ (if (1 <? nd)%Z
           then "." ++ String.substring 1 (String.length ds - 1) ds
           else "")
       ++ "e" ++ (if (decpt - 1 <? 0)%Z then "-" else "+")
       ++ PyStr.pad2 (Z.abs (decpt - 1))
     else if (decpt <=? 0)%Z
     then "0." ++ zeros (Z.to_nat (- decpt)) ++ ds
     else if (decpt <? nd)%Z
     then String.substring 0 (Z.to_nat decpt) ds ++ "."
          ++ String.substring (Z.to_nat decpt) (Z.to_nat (nd - decpt)) ds
     else ds ++ zeros (Z.to_nat (decpt - nd)) ++ ".0").

(** [round(x, k)] of a float: the decimal with [k] places nearest to [x],
    ties to the even one, read back as a float. *)
Definition round_float (k : Z) (x : Q) : Q := fl (round_to k x).

(** Exact decimal constants of the source. *)
Definition e6 : Q := inject_Z (10 ^ 6).
Definition e9 : Q := inject_Z (10 ^ 9).
Definition e12 : Q := inject_Z (10 ^ 12).

End PyNum.

(** ** Calendar dates *)

Module Calendar.

Record date := mkDate { year : Z; month : Z; day : Z }.

(** The proleptic Gregorian date of a day number counted from 1970-01-01,
    which is what [datetime] and [pandas] compute from an instant. *)
Definition civil_of_doe (doe : Z) : Z * Z * Z :=
  let yoe := ((doe - doe / 1460 + doe / 36524 - doe / 146096) / 365)%Z in
  let doy := (doe - (365 * yoe + yoe / 4 - yoe / 100))%Z in
  let mp := ((5 * doy + 2) / 153)%Z in
  let d := (doy - (153 * mp + 2) / 5 + 1)%Z in
  let m := if (mp <? 10)%Z then (mp + 3)%Z else (mp - 9)%Z in
  (yoe, m, d).

Definition civil_from_days (days : Z) : date :=
  let z := (days + 719468)%Z in
  let era := (z / 146097)%Z in
  let '(yoe, m, d) := civil_of_doe (z mod 146097)%Z in
  let y := (yoe + era * 400)%Z in
  mkDate (if (m <=? 2)%Z then (y + 1)%Z else y) m d.

Definition day_of_instant (seconds : Z) : Z := (seconds / 86400)%Z.

Definition date_of_instant (seconds : Z) : date :=
  civil_from_days (day_of_instant seconds).

(** [strftime('%d-%m-%Y')] and [strftime('%Y-%m-%d')]; the C library prints
    a year below 1000 without padding. *)
Definition strftime_dmy (dt : date) : string :=
  PyStr.pad2 (day dt) ++ "-" ++ PyStr.pad2 (month dt) ++ "-" ++ PyStr.of_Z (year dt).

Definition strftime_ymd (dt : date) : string :=
  PyStr.of_Z (year dt) ++ "-" ++ PyStr.pad2 (month dt) ++ "-" ++ PyStr.pad2 (day dt).

(** The years of [datetime]: [MINYEAR] to [MAXYEAR]. *)
Definition supported (dt : date) : bool :=
  ((1 <=? year dt) && (year dt <=? 9999))%Z.

(** The search for a repeated hour of the local zone converts the instant
    that lies this many seconds earlier as well. *)
Definition max_fold_seconds : Z := 86400.

(** [datetime.datetime.fromtimestamp(ts)] for whole seconds [ts], in a zone
    that is [tz] seconds east of UTC; [None] stands for the exception raised
    when the date, or the date of the earlier instant, is outside the
    supported years. *)
Definition fromtimestamp (tz : Z) (ts : Z) : option date :=
  let dt := date_of_instant (ts + tz) in
  if supported dt && supported (date_of_instant (ts - max_fold_seconds + tz))
  then Some dt
  else None.

(** The text of that exception: the seconds do not fit the 64-bit [time_t];
    or the C library cannot hold the year in an [int]; or the year of the
    date, or else of the earlier date, is outside those of [datetime]. *)
Definition fromtimestamp_error (tz : Z) (ts : Z) : string :=
  if negb ((- 2 ^ 63 <=? ts) && (ts <? 2 ^ 63))%Z
  then "timestamp out of range for platform time_t"
  else
    let dt := date_of_instant (ts + tz) in
    if ((- 2 ^ 31 <=? year dt - 1900) && (year dt - 1900 <? 2 ^ 31))%Z
    then
      "year "
      ++ PyStr.of_Z
           (if supported dt
            then year (date_of_instant (ts - max_fold_seconds + tz))
            else year dt)
      ++ " is out of range"
    else "[Errno 75] Value too large for defined data type".

(** The whole seconds that [fromtimestamp] takes from a number: the part
    before the point, moved by one second when the rest, multiplied by
    [1e6] as a float and rounded to whole microseconds (ties to the even
    one), reaches a second or falls below 0. *)
Definition timestamp_seconds (v : Q) : Z :=
  let intpart := PyNum.to_int v in
  let floatpart :=
    PyNum.round_half_even
      (PyNum.fl ((v - inject_Z intpart) * inject_Z (10 ^ 6))) in
  if (10 ^ 6 <=? floatpart)%Z then (intpart + 1)%Z
  else if (floatpart <? 0)%Z then (intpart - 1)%Z
  else intpart.

End Calendar.

(** ** Python values, exceptions and the spreadsheet writer *)

(** The values that occur in the provider's dictionaries and in spreadsheet
    cells: [None], a number, a string. *)
Inductive pyval : Type :=
| PyNone
| PyNum (x : Q)
| PyStr (s : string).

(** [d.get(key)] on a dictionary of such values. *)
Definition dict_get (d : gmap string pyval) (key : string) : pyval :=
  default PyNone (d !! key).

(** [x is not None] *)
Definition is_not_none (v : pyval) : bool :=
  match v with PyNone => false | _ => true end.

Definition Qlt_bool (x y : Q) : bool := negb (Qle_bool y x).

Definition mem (k : string) (l : list string) : bool := existsb (String.eqb k) l.

(** The result of running code that may raise: the returned value, or the
    text of the exception, [str(e)]. *)
Inductive outcome (A : Type) : Type :=
| Returned (a : A)
| Raised (e : string).
Arguments Returned {A} a.
Arguments Raised {A} e.

Module Excel.

(** A worksheet is a finite map from (row, column) to the cell written
    there; the writer maps sheet names to worksheets. *)
Abbreviation sheet := (gmap (nat * nat) pyval).
Abbreviation writer := (gmap string (gmap (nat * nat) pyval)).

(** A data frame as [to_excel] sees it. *)
Record frame := mkFrame {
  index_name : option string;
  index : list pyval;
  columns : list string;
  data : list (list pyval)
}.

Fixpoint row_cells (r : nat) (c : nat) (vs : list pyval)
  : list ((nat * nat) * pyval) :=
  match vs with
  | [] => []
  | v :: vs' => ((r, c), v) :: row_cells r (S c) vs'
  end.

Fixpoint body_cells (with_index : bool) (r : nat) (idx : list pyval)
  (rows : list (list pyval)) : list ((nat * nat) * pyval) :=
  match rows with
  | [] => []
  | row :: rows' =>
      (if with_index
       then match idx with i :: _ => [((r, 0%nat), i)] | [] => [] end
       else [])
      ++ row_cells r (if with_index then 1%nat else 0%nat) row
      ++ body_cells with_index (S r) (tail idx) rows'
  end.

(** The cells [df.to_excel(writer, sheet_name, index=with_index)] writes:
    the header in row 0, then one row per record. *)
Definition frame_cells (fr : frame) (with_index : bool)
  : list ((nat * nat) * pyval) :=
  (if with_index
   then match index_name fr with
        | Some n => [((0%nat, 0%nat), PyStr n)]
        | None => []
        end
   else [])
  ++ row_cells 0 (if with_index then 1%nat else 0%nat) (map PyStr (columns fr))
  ++ body_cells with_index 1 (index fr) (data fr).

Definition write_cells (sh : sheet) (cells : list ((nat * nat) * pyval)) : sheet :=
  fold_left (fun acc pc => <[fst pc := snd pc]> acc) cells sh.

(** The worksheet of that name is created when it does not exist yet and is
    reused when it does; cells are overwritten one by one. *)
Definition to_excel (fr : frame) (sheet_name : string) (with_index : bool)
  (w : writer) : writer :=
  <[sheet_name := write_cells (default ∅ (w !! sheet_name)) (frame_cells fr with_index)]> w.

(** [pd.DataFrame({column: [message]})] *)
Definition marker_frame (column message : string) : frame :=
  mkFrame None [PyNum 0] [column] [[PyStr message]].

(** Computations over the writer that may raise.  What was written before an
    exception stays written. *)
Definition M (A : Type) : Type := writer -> outcome A * writer.

Definition ret {A} (a : A) : M A := fun w => (Returned a, w).


Definition bind {A B} (m : M A) (k : A -> M B) : M B :=
  fun w =>
    match m w with
    | (Returned a, w') => k a w'
    | (Raised e, w') => (Raised e, w')
    end.

Definition lift {A} (o : outcome A) : M A := fun w => (o, w).

Definition write (fr : frame) (sheet_name : string) (with_index : bool) : M unit :=
  fun w => (Returned tt, to_excel fr sheet_name with_index w).

(** [try: body  except Exception as e: handler(e)] *)
Definition try_except {A} (body : M A) (handler : string -> M A) : M A :=
  fun w =>
    match body w with
    | (Returned a, w') => (Returned a, w')
    | (Raised e, w') => handler e w'
    end.

End Excel.

Notation "'let!' x ':=' m 'in' k" := (Excel.bind m (fun x => k))
  (at level 10, x name, m at level 100, k at level 200).
Notation "'run!' m 'in' k" := (Excel.bind m (fun _ => k))
  (at level 10, m at level 100, k at level 200).

(** ** [fetch_statistics]: the key statistics sheet *)

Module Statistics.

Definition money_keys : list string :=
  ["marketCap"; "enterpriseValue"; "totalRevenue"; "grossProfits"; "ebitda";
   "totalCash"; "totalDebt"; "operatingCashflow"; "freeCashflow"].

Definition percent_keys : list string :=
  ["dividendYield"; "profitMargins"; "operatingMargins"; "returnOnAssets";
   "returnOnEquity"; "revenueGrowth"; "earningsGrowth"; "payoutRatio"].

Definition ratio_keys : list string :=
  ["trailingPE"; "forwardPE"; "pegRatio"; "priceToSalesTrailing12Months";
   "priceToBook"; "beta"].

Definition date_keys : list string := ["exDividendDate"; "lastSplitDate"].

(** [f"{x:.2f}"] for a number [x]: the format takes the float of an
    [int]. *)
Definition format_2f (x : Q) : outcome string :=
  match PyNum.to_float x with
  | Some f => Returned (PyNum.fmt_2f f)
  | None => Raised "int too large to convert to float"
  end.

(** Large numbers as billions or millions, with the dollar sign.  The
    divisors are [int] literals, so the quotient is the float nearest to the
    exact quotient, also for an [int] value; it is too large for a float
    only for an [int]. *)
Definition format_money (value : Q) : outcome string :=
  if Qle_bool PyNum.e9 (Qabs value)
  then
    if PyNum.finite (value / PyNum.e9)
    then Returned ("$" ++ PyNum.fmt_2f (PyNum.fl (value / PyNum.e9)) ++ "B")
    else Raised "integer division result too large for a float"
  else if Qle_bool PyNum.e6 (Qabs value)
  then Returned ("$" ++ PyNum.fmt_2f (PyNum.fl (value / PyNum.e6)) ++ "M")
  else Returned ("$" ++ PyNum.fmt_comma_2f (PyNum.fl value)).

(** Percentages: some values come as decimals (0.05) and some as
    percentages (5).  A number below 1 in absolute value is a float or the
    [int] 0, and its product by 100 is a float or 0. *)
Definition format_percent (key : string) (value : Q) : outcome string :=
  if Qlt_bool (Qabs value) 1 && negb (String.eqb key "payoutRatio")
  then Returned (PyNum.fmt_2f (PyNum.fl (value * 100)) ++ "%")
  else
    match format_2f value with
    | Returned text => Returned (text ++ "%")
    | Raised e => Raised e
    end.

Definition returned_text (o : outcome string) : outcome pyval :=
  match o with
  | Returned text => Returned (PyStr text)
  | Raised e => Raised e
  end.

(** The chain of [if]/[elif] on the key that formats one value of
    [all_data]; [tz] is the offset of the local zone used for the dates. *)
Definition format_value (tz : Z) (key : string) (value : pyval) : outcome pyval :=
  match value with
  | PyNone => Returned (PyStr "N/A")
  | _ =>
      if mem key money_keys then
        match value with
        | PyNum v => returned_text (format_money v)
        | _ => Raised "bad operand type for abs(): 'str'"
        end
      else if mem key percent_keys then
        match value with
        | PyNum v => returned_text (format_percent key v)
        | _ => Returned value
        end
      else if mem key ratio_keys then
        match value with
        | PyNum v => returned_text (format_2f v)
        | _ => Raised "Unknown format code 'f' for object of type 'str'"
        end
      else if mem key ["lastSplitFactor"] then Returned value
      else if mem key date_keys then
        match value with
        | PyNum v =>
            let ts := Calendar.timestamp_seconds v in
            match Calendar.fromtimestamp tz ts with
            | Some dt => Returned (PyStr (Calendar.strftime_ymd dt))
            | None => Raised (Calendar.fromtimestamp_error tz ts)
            end
        | _ => Returned value
        end
      else Returned value
  end.

Definition categories : list (string * list (string * string)) :=
  [ ("Valuation Measures",
     [ ("Market Cap", "marketCap"); ("Enterprise Value", "enterpriseValue");
       ("Trailing P/E", "trailingPE"); ("Forward P/E", "forwardPE");
       ("PEG Ratio", "pegRatio");
       ("Price/Sales (ttm)", "priceToSalesTrailing12Months");
       ("Price/Book", "priceToBook");
       ("Enterprise Value/Revenue", "enterpriseToRevenue");
       ("Enterprise Value/EBITDA", "enterpriseToEbitda") ]);
    ("Financial Highlights",
     [ ("Profit Margin", "profitMargins");
       ("Operating Margin (ttm)", "operatingMargins");
       ("Return on Assets", "returnOnAssets");
       ("Return on Equity", "returnOnEquity");
       ("Revenue (ttm)", "totalRevenue");
       ("Revenue Per Share", "revenuePerShare");
       ("Quarterly Revenue Growth", "revenueGrowth");
       ("Gross Profit (ttm)", "grossProfits"); ("EBITDA", "ebitda");
       ("Diluted EPS (ttm)", "trailingEps");
       ("Quarterly Earnings Growth", "earningsGrowth") ]);
    ("Trading Information",
     [ ("Beta (5Y Monthly)", "beta"); ("52-Week High", "fiftyTwoWeekHigh");
       ("52-Week Low", "fiftyTwoWeekLow");
       ("50-Day Moving Average", "fiftyDayAverage");
       ("200-Day Moving Average", "twoHundredDayAverage");
       ("Average Volume (3 Month)", "averageVolume");
       ("Average Volume (10 Day)", "averageVolume10days") ]);
    ("Dividends & Splits",
     [ ("Forward Annual Dividend Rate", "dividendRate");
       ("Forward Annual Dividend Yield", "dividendYield");
       ("Payout Ratio", "payoutRatio"); ("Ex-Dividend Date", "exDividendDate");
       ("Last Split Factor", "lastSplitFactor");
       ("Last Split Date", "lastSplitDate") ]);
    ("Balance Sheet",
     [ ("Total Cash", "totalCash");
       ("Total Cash Per Share", "totalCashPerShare");
       ("Total Debt", "totalDebt"); ("Total Debt/Equity", "debtToEquity");
       ("Current Ratio", "currentRatio");
       ("Book Value Per Share", "bookValue") ]);
    ("Cash Flow",
     [ ("Operating Cash Flow (ttm)", "operatingCashflow");
       ("Levered Free Cash Flow (ttm)", "freeCashflow") ]) ].

(** The rows of one category: its metrics in order; the first value that
    cannot be formatted raises. *)
Fixpoint format_metrics (tz : Z) (all_data : gmap string pyval)
  (metrics : list (string * string)) : outcome (list (string * pyval)) :=
  match metrics with
  | [] => Returned []
  | (label, key) :: rest =>
      match format_value tz key (dict_get all_data key) with
      | Raised e => Raised e
      | Returned v =>
          match format_metrics tz all_data rest with
          | Raised e => Raised e
          | Returned rows => Returned ((label, v) :: rows)
          end
      end
  end.

(** [formatted_data]: for each category its header, its metrics, and an
    empty row after every category but the last. *)
Fixpoint format_categories (tz : Z) (all_data : gmap string pyval)
  (cats : list (string * list (string * string)))
  : outcome (list (string * pyval)) :=
  match cats with
  | [] => Returned []
  | (category, metrics) :: rest =>
      match format_metrics tz all_data metrics with
      | Raised e => Raised e
      | Returned rows =>
          match format_categories tz all_data rest with
          | Raised e => Raised e
          | Returned more =>
              Returned ((category, PyStr "") :: rows
                        ++ (match rest with
                            | [] => []
                            | _ => [("", PyStr "")]
                            end)
                        ++ more)
          end
      end
  end.

Definition statistics_frame (rows : list (string * pyval)) : Excel.frame :=
  Excel.mkFrame None (map (fun i => PyNum (inject_Z (Z.of_nat i))) (seq 0 (length rows)))
    ["Metric"; "Value"]
    (map (fun r => [PyStr (fst r); snd r]) rows).

(** What the provider gives to this category: [self.ticker.info], which may
    raise, and the dictionary that [_scrape_yahoo_finance_alt] returns (it
    catches its own failures and then returns the empty dictionary). *)
Record env := mkEnv {
  ticker_info : outcome (gmap string pyval);
  scraped_data : gmap string pyval
}.

(** The body of the [try] of [fetch_statistics].  In
    [{**scraped_data, **info}] the entries of [info] win. *)
Definition body (tz : Z) (e : env) : Excel.M unit :=
  let! info := Excel.lift (ticker_info e) in
  let all_data := info ∪ scraped_data e in
  let! formatted_data := Excel.lift (format_categories tz all_data categories) in
  Excel.write (statistics_frame formatted_data) "Statistics" false.

End Statistics.

(** ** [fetch_company_summary]: the market capitalisation cell *)

Module Summary.

(** The quotient of the market capitalisation by a float, rounded to three
    decimals and printed as [str] prints a float.  An [int] is converted to
    a float before the division. *)
Definition scaled_cell (market_cap unit : Q) (suffix : string)
  : outcome string :=
  match PyNum.to_float market_cap with
  | Some m =>
      Returned (PyNum.repr (PyNum.round_float 3 (PyNum.fl (m / unit)))
                ++ suffix)
  | None => Raised "int too large to convert to float"
  end.

(** The cell written for a positive [market_cap]. *)
Definition market_cap_cell (market_cap : Q) : outcome string :=
  if Qle_bool PyNum.e12 market_cap
  then scaled_cell market_cap PyNum.e12 "T"
  else if Qle_bool PyNum.e9 market_cap
  then scaled_cell market_cap PyNum.e9 "B"
  else if Qle_bool PyNum.e6 market_cap
  then scaled_cell market_cap PyNum.e6 "M"
  else Returned (PyNum.fmt_comma_int (PyNum.to_int market_cap)).

End Summary.

(** ** Sorting as [sorted(..., reverse=True)] does *)

Module PySort.

(** Insertion of [x] in a list that is in descending order for [lt]: [x] goes
in front of the first element that is not greater, so that elements that
compare equal keep the order they had (the sort is stable). *)
Fixpoint insert_by {A : Type} (lt : A -> A -> bool) (x : A) (l : list A)
  : list A :=
  match l with
  | [] => [x]
  | y :: l' => if lt x y then y :: insert_by lt x l' else x :: l
  end.

Definition sort_by {A : Type} (lt : A -> A -> bool) (l : list A) : list A :=
  fold_right (insert_by lt) [] l.

(** [sorted(l, key=key, reverse=True)] for integer keys, and
[df.sort_values(column, ascending=False)] on a column of instants. *)
Definition sort_desc {A : Type} (key : A -> Z) (l : list A) : list A :=
  sort_by (fun x y => (key x <? key y)%Z) l.

(** The same for string keys, which Python compares code point by code
point. *)
Definition sort_desc_strkey {A : Type} (key : A -> string) (l : list A) : list A :=
  sort_by (fun x y => String.ltb (key x) (key y)) l.

(** [sorted(l, reverse=True)] on a list of strings. *)
Definition sort_desc_str (l : list string) : list string :=
  sort_desc_strkey (fun x => x) l.

End PySort.

(** ** [fetch_esg_data]: the ESG sheet *)

Module Esg.

(** [esg_components] after the three acquisition attempts; each attempt
catches its own failures, so the attempts together always deliver this
dictionary and the series found (empty when none was found). *)
Record components := mkComponents {
  totalEsg : option Q;
  environment : option Q;
  social : option Q;
  governance : option Q;
  controversyLevel : pyval
}.

(** One entry of [symbolSeries]; a missing score is [None]. *)
Record point := mkPoint {
  timestamp : Z;
  esgScore : option Q
}.

(** One record of the data frame [df]. *)
Record row := mkRow {
  r_timestamp : Z;
  r_date : string;
  r_esgScore : option Q;
  E_Score : option Q;
  S_Score : option Q;
  G_Score : option Q;
  Data_Source : string
}.

Definition current_values : string :=
  "Current values (historical components not available)".

Definition partially_estimated : string :=
  "Partially estimated values (some components not available)".

(** The series used: the one found, or one point for today when only a total
score is known, or the exception. *)
Definition series_or_placeholder (now : Z) (c : components) (esg_series : list point)
  : outcome (list point) :=
  match esg_series with
  | [] =>
      match totalEsg c with
      | Some t => Returned [mkPoint now (Some t)]
      | None =>
          Raised "No ESG data available for this ticker after multiple attempts"
      end
  | _ => Returned esg_series
  end.

(** [pd.to_datetime(..., unit="s")] accepts the instants that fit in 64 bits
of nanoseconds. *)
Definition in_bounds (ts : Z) : bool :=
  ((-9223372036 <=? ts) && (ts <=? 9223372036))%Z.

Definition all_components (c : components) : bool :=
  match environment c, social c, governance c with
  | Some _, Some _, Some _ => true
  | _, _, _ => false
  end.

(** [df["esgScore"] * 0.33] on one record. *)
Definition estimate (score : option Q) : option Q :=
  option_map (fun s => (s * 0.33)%Q) score.

Definition component_or_estimate (component : option Q) (score : option Q)
  : option Q :=
  match component with
  | Some x => Some x
  | None => estimate score
  end.

Definition data_source (c : components) : string :=
  if all_components c then current_values else partially_estimated.

Definition make_row (c : components) (p : point) : row :=
  let date := Calendar.strftime_dmy (Calendar.date_of_instant (timestamp p)) in
  if all_components c
  then mkRow (timestamp p) date (esgScore p)
         (environment c) (social c) (governance c) current_values
  else mkRow (timestamp p) date (esgScore p)
         (component_or_estimate (environment c) (esgScore p))
         (component_or_estimate (social c) (esgScore p))
         (component_or_estimate (governance c) (esgScore p))
         partially_estimated.

(** The records of [df]: dated, sorted newest first, with the component
columns and the note on their source. *)
Definition records (now : Z) (c : components) (esg_series : list point)
  : outcome (list row) :=
  match series_or_placeholder now c esg_series with
  | Raised e => Raised e
  | Returned series =>
      if forallb (fun p => in_bounds (timestamp p)) series
      then Returned (map (make_row c) (PySort.sort_desc timestamp series))
      else Raised "Out of bounds nanosecond timestamp"
  end.

Definition num_cell (x : option Q) : pyval :=
  match x with Some q => PyNum q | None => PyNone end.

Definition esg_frame (rows : list row) : Excel.frame :=
  Excel.mkFrame (Some "Date") (map (fun r => PyStr (r_date r)) rows)
    ["ESG Score"; "Environmental"; "Social"; "Governance"]
    (map (fun r => [num_cell (r_esgScore r); num_cell (E_Score r);
                    num_cell (S_Score r); num_cell (G_Score r)]) rows).

(** [worksheet.merge_range] and [worksheet.write] put a value in one cell of
an existing sheet. *)
Definition write_cell (sheet_name : string) (r c : nat) (v : pyval) : Excel.M unit :=
  fun w =>
    (Returned tt,
     <[sheet_name := <[(r, c) := v]> (default ∅ (w !! sheet_name))]> w).

Definition any_component (c : components) : bool :=
  match totalEsg c, environment c, social c, governance c with
  | None, None, None, None => false
  | _, _, _, _ => true
  end.

Definition summary_cells (c : components) : list (string * pyval) :=
  [ ("Total ESG Score", num_cell (totalEsg c));
    ("Environmental Score", num_cell (environment c));
    ("Social Score", num_cell (social c));
    ("Governance Score", num_cell (governance c));
    ("Controversy Level", controversyLevel c) ].

Fixpoint write_summary (r : nat) (cells : list (string * pyval)) : Excel.M unit :=
  match cells with
  | [] => Excel.ret tt
  | (label, v) :: rest =>
      run! write_cell "ESG Scores" r 0 (PyStr label) in
      run! write_cell "ESG Scores" r 1 v in
      write_summary (S r) rest
  end.

Record env := mkEnv {
  now : Z;
  acquired_series : list point;
  acquired_components : components
}.

(** The body of the [try] of [fetch_esg_data], from the point where the
attempts have delivered their result. *)
Definition body (e : env) : Excel.M unit :=
  let c := acquired_components e in
  let! rows := Excel.lift (records (now e) c (acquired_series e)) in
  run! Excel.write (esg_frame rows) "ESG Scores" true in
  let note_row := (length rows + 2)%nat in
  run! write_cell "ESG Scores" note_row 0 (PyStr ("Note: " ++ data_source c)) in
  if any_component c
  then
    run! write_cell "ESG Scores" (note_row + 2) 0 (PyStr "Latest ESG Component Scores") in
    write_summary (note_row + 3) (summary_cells c)
  else Excel.ret tt.

End Esg.

(** ** Financial statements: the tiers that build a statement table *)

Module Statements.

(** A value of the provider's statement history, [{"raw": ..., "fmt": ...}],
with either field possibly absent.  A period is a dictionary of such
values. *)
Record fin_value := mkValue {
  raw : option Z;
  fmt : option string
}.

(** [int(s)] on a string: surrounding whitespace, an optional sign, decimal
digits with single underscores between them. *)
Definition digit_value (c : ascii) : Z := Z.of_nat (nat_of_ascii c - 48).

Fixpoint int_digits (prev_digit : bool) (acc : Z) (s : string) : option Z :=
  match s with
  | EmptyString => if prev_digit then Some acc else None
  | String c s' =>
      if PyStr.is_digit c then int_digits true (acc * 10 + digit_value c)%Z s'
      else if Ascii.eqb c "_"
      then (if prev_digit then int_digits false acc s' else None)
      else None
  end.

Definition py_int (s : string) : option Z :=
  match PyStr.strip s with
  | String "+" r => int_digits false 0 r
  | String "-" r => option_map Z.opp (int_digits false 0 r)
  | r => int_digits false 0 r
  end.

(** *** Tier 1: the statement history of the embedded JSON *)

(** The date appended for one period: none when it has no [endDate]; the
formatted date, or [Unknown Date] when the conversion raises. *)
Definition end_date_label (tz : Z) (period : gmap string fin_value)
  : option string :=
  match period !! "endDate" with
  | None => None
  | Some v =>
      match Calendar.fromtimestamp tz (default 0%Z (raw v)) with
      | Some dt => Some (Calendar.strftime_dmy dt)
      | None => Some "Unknown Date"
      end
  end.

(** [dates = sorted(dates, reverse=True)]: the formatted dates, sorted as
strings. *)
Definition header_dates (tz : Z) (history : list (gmap string fin_value))
  : list string :=
  PySort.sort_desc_str (omap (end_date_label tz) history).

(** [x.get('endDate', {}).get('raw', 0)] *)
Definition period_key (period : gmap string fin_value) : Z :=
  match period !! "endDate" with
  | None => 0%Z
  | Some v => default 0%Z (raw v)
  end.

(** The value of one metric in one period. *)
Definition metric_cell (json_key : string) (period : gmap string fin_value)
  : string :=
  match period !! json_key with
  | Some v => default "N/A" (fmt v)
  | None => ""
  end.

(** [while len(row) < n: row.append("")] *)
Definition pad_to (n : nat) (row : list string) : list string :=
  row ++ replicate (n - length row) "".

(** The row of one metric: the label, then for a section header one empty
cell per date, and otherwise the values of the periods taken newest first,
cut at the number of dates and padded to the width of the header. *)
Definition metric_row (dates : list string) (history : list (gmap string fin_value))
  (metric : string * string) : list string :=
  let '(display_name, json_key) := metric in
  if negb (PyStr.truthy json_key)
  then display_name :: map (fun _ => "") dates
  else
    pad_to (S (length dates))
      (display_name ::
         take (length dates)
           (map (metric_cell json_key) (PySort.sort_desc period_key history))).

Definition process_json_statement (metrics : list (string * string)) (tz : Z)
  (history : list (gmap string fin_value)) : option (list (list string)) :=
  match history with
  | [] => None
  | _ =>
      let dates := header_dates tz history in
      Some (("Breakdown" :: dates) :: map (metric_row dates history) metrics)
  end.

Definition income_metrics : list (string * string) :=
  [ ("Revenue", "totalRevenue"); ("Cost of Revenue", "costOfRevenue");
    ("Gross Profit", "grossProfit"); ("Operating Expenses", "");
    ("Research Development", "researchDevelopment");
    ("Selling General Administrative", "sellingGeneralAdministrative");
    ("Non Recurring", "nonRecurring"); ("Others", "otherOperatingExpenses");
    ("Total Operating Expenses", "totalOperatingExpenses");
    ("Operating Income or Loss", "operatingIncome");
    ("Income from Continuing Operations", "");
    ("Total Other Income/Expenses Net", "totalOtherIncomeExpenseNet");
    ("Earnings Before Interest and Taxes", "ebit");
    ("Interest Expense", "interestExpense");
    ("Income Before Tax", "incomeBeforeTax");
    ("Income Tax Expense", "incomeTaxExpense");
    ("Minority Interest", "minorityInterest");
    ("Net Income From Continuing Ops", "netIncomeFromContinuingOps");
    ("Discontinued Operations", "");
    ("Extraordinary Items", "extraordinaryItems");
    ("Effect Of Accounting Changes", "effectOfAccountingChanges");
    ("Other Items", "otherItems"); ("Net Income", "netIncome");
    ("Net Income Applicable To Common Shares",
     "netIncomeApplicableToCommonShares") ].

Definition balance_metrics : list (string * string) :=
  [ ("Assets", ""); ("Current Assets", "");
    ("Cash And Cash Equivalents", "cash");
    ("Short Term Investments", "shortTermInvestments");
    ("Net Receivables", "netReceivables"); ("Inventory", "inventory");
    ("Other Current Assets", "otherCurrentAssets");
    ("Total Current Assets", "totalCurrentAssets"); ("Long Term Assets", "");
    ("Long Term Investments", "longTermInvestments");
    ("Property Plant Equipment", "propertyPlantEquipment");
    ("Goodwill", "goodwill"); ("Intangible Assets", "intangibleAssets");
    ("Other Assets", "otherAssets"); ("Total Assets", "totalAssets");
    ("Liabilities", ""); ("Current Liabilities", "");
    ("Accounts Payable", "accountsPayable");
    ("Short Term Debt", "shortLongTermDebt");
    ("Other Current Liabilities", "otherCurrentLiabilities");
    ("Total Current Liabilities", "totalCurrentLiabilities");
    ("Long Term Debt", "longTermDebt");
    ("Other Liabilities", "otherLiabilities");
    ("Total Liabilities", "totalLiabilities"); ("Stockholders' Equity", "");
    ("Common Stock", "commonStock"); ("Retained Earnings", "retainedEarnings");
    ("Treasury Stock", "treasuryStock");
    ("Other Stockholder Equity", "otherStockholderEquity");
    ("Total Stockholder Equity", "totalStockholderEquity") ].

Definition cash_flow_metrics : list (string * string) :=
  [ ("Operating Activities", ""); ("Net Income", "netIncome");
    ("Depreciation", "depreciation");
    ("Change in Working Capital", "changeToNetincome");
    ("Change in Accounts Receivable", "changeToAccountReceivables");
    ("Change in Liabilities", "changeToLiabilities");
    ("Change in Inventory", "changeToInventory");
    ("Change in Other Operating Activities", "changeToOperatingActivities");
    ("Total Cash Flow from Operating Activities",
     "totalCashFromOperatingActivities");
    ("Investing Activities", "");
    ("Capital Expenditures", "capitalExpenditures");
    ("Investments", "investments");
    ("Other Cash Flows from Investing Activities",
     "otherCashflowsFromInvestingActivities");
    ("Total Cash Flows from Investing Activities",
     "totalCashflowsFromInvestingActivities");
    ("Financing Activities", ""); ("Dividends Paid", "dividendsPaid");
    ("Stock Sale and Purchase", "netBorrowings");
    ("Other Cash Flows from Financing Activities",
     "otherCashflowsFromFinancingActivities");
    ("Total Cash Flows from Financing Activities",
     "totalCashFromFinancingActivities");
    ("Net Change in Cash", "changeInCash");
    ("Cash at Beginning of Period", "");
    ("Cash at End of Period", "endCashPosition") ].

(** The three functions of the source differ in their list of metrics
only. *)
Definition _process_json_income_data := process_json_statement income_metrics.
Definition _process_json_balance_data := process_json_statement balance_metrics.
Definition _process_json_cash_flow_data :=
  process_json_statement cash_flow_metrics.

(** *** Tier 1b: the [financialsChart] of the embedded JSON *)

(** The [date] of a yearly item is a number or a string. *)
Inductive chart_date : Type :=
| DateInt (y : Z)
| DateStr (s : string).

Record chart_item := mkItem {
  ci_date : option chart_date;
  ci_revenue : option fin_value;
  ci_earnings : option fin_value
}.

(** The date appended for one item: the year end when the date converts to an
integer, the date as it is otherwise; none when the item has no date. *)
Definition chart_date_label (item : chart_item) : option string :=
  match ci_date item with
  | None => None
  | Some (DateInt y) => Some ("31-12-" ++ PyStr.of_Z y)
  | Some (DateStr s) =>
      match py_int s with
      | Some y => Some ("31-12-" ++ PyStr.of_Z y)
      | None => Some s
      end
  end.

(** [sorted(yearly, key=lambda x: x.get('date', ''), reverse=True)]: numbers
are compared with numbers and strings with strings; a list that holds both
makes the comparison raise. *)
Definition is_int_date (item : chart_item) : bool :=
  match ci_date item with Some (DateInt _) => true | _ => false end.

Definition int_key (item : chart_item) : Z :=
  match ci_date item with Some (DateInt y) => y | _ => 0%Z end.

Definition str_key (item : chart_item) : string :=
  match ci_date item with Some (DateStr s) => s | _ => "" end.

Definition sorted_yearly (yearly : list chart_item) : outcome (list chart_item) :=
  if forallb is_int_date yearly
  then Returned (PySort.sort_desc int_key yearly)
  else if forallb (fun i => negb (is_int_date i)) yearly
  then Returned (PySort.sort_desc_strkey str_key yearly)
  else Raised "'<' not supported between instances of 'int' and 'str'".

(** [item.get(name, {}).get('fmt', 'N/A')] *)
Definition chart_cell (v : option fin_value) : string :=
  match v with
  | Some x => default "N/A" (fmt x)
  | None => "N/A"
  end.

Definition _process_financials_chart (yearly : list chart_item)
  : outcome (option (list (list string))) :=
  match yearly with
  | [] => Returned None
  | _ =>
      let dates := PySort.sort_desc_str (omap chart_date_label yearly) in
      let header_row := "Breakdown" :: dates in
      match sorted_yearly yearly with
      | Raised e => Raised e
      | Returned items =>
          let revenue_row :=
            "Revenue" :: map (fun i => chart_cell (ci_revenue i)) items in
          let earnings_row :=
            "Net Income" :: map (fun i => chart_cell (ci_earnings i)) items in
          Returned (Some
            [ header_row;
              pad_to (length header_row) revenue_row;
              (["Operating Expenses"; ""] ++ replicate (length dates - 1) "")%list;
              pad_to (length header_row) earnings_row ])
      end
  end.

(** *** Tier 2: the HTML table *)

(** What the parser reads from the table: the texts of the [th] cells of each
row of [thead], and the texts of the [td] cells of each row of [tbody];
[None] when the element is absent. *)
Record html_table := mkTable {
  thead : option (list (list string));
  tbody : option (list (list string))
}.

(** The dates appended for one header cell: at most one. *)
Definition header_cell_dates (text : string) : list string :=
  let date_text := PyStr.strip text in
  if PyStr.contains date_text "/" then
    match PyStr.split date_text "/" with
    | [a; b; c] =>
        match py_int a, py_int b, py_int c with
        | Some month, Some day, Some year =>
            [PyStr.pad2 day ++ "-" ++ PyStr.pad2 month ++ "-" ++ PyStr.of_Z year]
        | _, _, _ => [date_text]
        end
    | _ => []
    end
  else if PyStr.contains date_text "-" then
    match PyStr.split date_text "-" with
    | [a; b; c] =>
        match py_int a, py_int b, py_int c with
        | Some year, Some month, Some day =>
            [PyStr.pad2 day ++ "-" ++ PyStr.pad2 month ++ "-" ++ PyStr.of_Z year]
        | _, _, _ => [date_text]
        end
    | _ => []
    end
  else [date_text].

Definition parse_statement_table (table : html_table)
  : option (list (list string)) :=
  match thead table with
  | None => None
  | Some header_rows =>
      match last header_rows with
      | None => None
      | Some header_cells =>
          let dates := concat (map header_cell_dates (tail header_cells)) in
          match tbody table with
          | None => None
          | Some rows =>
              Some (("Breakdown" :: dates)
                    :: filter (fun row_data => (1 <? length row_data)%nat = true)
                         (map (map PyStr.strip) rows))
          end
      end
  end.

Definition _parse_income_table := parse_statement_table.
Definition _parse_balance_table := parse_statement_table.
Definition _parse_cash_flow_table := parse_statement_table.

(** *** Tier 3: the data frame of the provider library *)

(** The transposed frame: the instants of its index, the names of its
columns, and the value at each (row, column) position; [None] is a missing
number. *)
Record yf_frame := mkYf {
  yf_index : list Z;
  yf_metrics : list string;
  yf_value : nat -> nat -> option Q
}.

Definition e3 : Q := inject_Z (10 ^ 3).

Definition format_large (value : option Q) : string :=
  match value with
  | None => "nan"
  | Some v =>
      if Qle_bool PyNum.e9 (Qabs v)
      then PyNum.fmt_2f (PyNum.fl (v / PyNum.e9)) ++ "B"
      else if Qle_bool PyNum.e6 (Qabs v)
      then PyNum.fmt_2f (PyNum.fl (v / PyNum.e6)) ++ "M"
      else if Qle_bool e3 (Qabs v)
      then PyNum.fmt_2f (PyNum.fl (v / e3)) ++ "K"
      else PyNum.fmt_2f v
  end.

Definition process_yfinance_statement (df : yf_frame) : list (list string) :=
  let dates :=
    map (fun t => Calendar.strftime_dmy (Calendar.date_of_instant t)) (yf_index df) in
  ("Breakdown" :: dates)
  :: imap (fun j metric =>
             metric :: imap (fun i _ => format_large (yf_value df i j)) (yf_index df))
       (yf_metrics df).

Definition _process_yfinance_income_data := process_yfinance_statement.
Definition _process_yfinance_balance_data := process_yfinance_statement.
Definition _process_yfinance_cash_flow_data := process_yfinance_statement.

(** *** The chain of tiers of one statement *)

(** What the page holds in its embedded JSON, as far as the scraper looks:
the statement history, the chart of the earnings section, nothing of use, or
content on which the extraction raises (the scraper prints the error and goes
on). *)
Inductive embedded : Type :=
| EmbHistory (history : list (gmap string fin_value))
| EmbChart (yearly : list chart_item)
| EmbNothing
| EmbBroken.

Record page := mkPage {
  status_code : nat;
  json_match : option (outcome embedded);
  statement_table : option html_table
}.

Record env := mkEnv {
  response : outcome page;
  library_frame : outcome (option yf_frame)
}.

Inductive kind : Type := Income | Balance | CashFlow.

Definition sheet_of (k : kind) : string :=
  match k with
  | Income => "Income Statement"
  | Balance => "Balance Sheet"
  | CashFlow => "Cash Flow"
  end.

Definition name_of (k : kind) : string :=
  match k with
  | Income => "income statement"
  | Balance => "balance sheet"
  | CashFlow => "cash flow"
  end.

Definition metrics_of (k : kind) : list (string * string) :=
  match k with
  | Income => income_metrics
  | Balance => balance_metrics
  | CashFlow => cash_flow_metrics
  end.

(** [not data]: no table, or an empty one. *)
Definition no_data (t : option (list (list string))) : bool :=
  match t with
  | None | Some [] => true
  | Some _ => false
  end.

(** Method 1.  The chart is looked at for the income statement only. *)
Definition from_json (k : kind) (tz : Z) (e : embedded)
  : option (list (list string)) :=
  match e with
  | EmbHistory history => process_json_statement (metrics_of k) tz history
  | EmbChart yearly =>
      match k with
      | Income =>
          match _process_financials_chart yearly with
          | Returned t => t
          | Raised _ => None
          end
      | _ => None
      end
  | EmbNothing | EmbBroken => None
  end.

(** Method 1 on the page: [json.loads] may raise, which ends the scraper. *)
Definition method1 (k : kind) (tz : Z) (pg : page)
  : outcome (option (list (list string))) :=
  match json_match pg with
  | None => Returned None
  | Some (Raised err) => Raised err
  | Some (Returned emb) => Returned (from_json k tz emb)
  end.

(** Method 2: the HTML table, when method 1 gave no data. *)
Definition method2 (pg : page) (data : option (list (list string)))
  : option (list (list string)) :=
  if no_data data
  then match statement_table pg with
       | Some table => parse_statement_table table
       | None => data
       end
  else data.

(** [frame.empty]: one of the two axes has no label. *)
Definition yf_empty (df : yf_frame) : bool :=
  match yf_index df, yf_metrics df with
  | [], _ | _, [] => true
  | _, _ => false
  end.

(** Method 3: the provider library, when there is still no data; reading
its frame may raise, and a frame that is [None] or empty is passed over. *)
Definition method3 (e : env) (data : option (list (list string)))
  : outcome (option (list (list string))) :=
  if no_data data
  then match library_frame e with
       | Raised err => Raised err
       | Returned (Some df) =>
           if yf_empty df
           then Returned data
           else Returned (Some (process_yfinance_statement df))
       | Returned None => Returned data
       end
  else Returned data.

(** A table of the header row alone is not enough. *)
Definition enough (k : kind) (data : option (list (list string)))
  : outcome (list (list string)) :=
  match data with
  | Some ((_ :: _ :: _) as table) => Returned table
  | _ => Raised ("Could not extract " ++ name_of k ++ " data from any source")
  end.

(** The table of the statement, or the exception that ends the scraper. *)
Definition statement_data (k : kind) (tz : Z) (e : env)
  : outcome (list (list string)) :=
  match response e with
  | Raised err => Raised err
  | Returned pg =>
      if negb (status_code pg =? 200)%nat
      then Raised ("Failed to fetch " ++ name_of k ++ " data (Status Code: "
                   ++ PyStr.of_Z (Z.of_nat (status_code pg)) ++ ")")
      else
        match method1 k tz pg with
        | Raised err => Raised err
        | Returned data1 =>
            match method3 e (method2 pg data1) with
            | Raised err => Raised err
            | Returned data3 => enough k data3
            end
        end
  end.

(** [worksheet.write(row_idx, col_idx, cell_value, ...)] for every cell. *)
Fixpoint table_cells (r : nat) (table : list (list string))
  : list ((nat * nat) * pyval) :=
  match table with
  | [] => []
  | row :: rest => Excel.row_cells r 0 (map PyStr row) ++ table_cells (S r) rest
  end.

Definition write_table (sheet_name : string) (table : list (list string))
  : Excel.M unit :=
  fun w =>
    (Returned tt,
     <[sheet_name :=
         Excel.write_cells (default ∅ (w !! sheet_name)) (table_cells 0 table)]> w).

(** The body of the [try] of [_scrape_income_statement],
[_scrape_balance_sheet] and [_scrape_cash_flow]. *)
Definition scrape_body (k : kind) (tz : Z) (e : env) : Excel.M unit :=
  let! table := Excel.lift (statement_data k tz e) in
  write_table (sheet_of k) table.

End Statements.

(** ** [fetch_historical_data]: the price history sheet *)

Module Historical.

(** The frame that [self.ticker.history] returns: the names of its columns
and, for each record, the instant of its index (in seconds, as a wall-clock
time once the zone is removed) and one value per column. *)
Record dataframe := mkDf {
  columns : list string;
  rows : list (Z * list pyval)
}.

Definition columns_to_drop : list string := ["Dividends"; "Stock Splits"].

(** A column is written unless it is one of the dropped ones or the
temporary column of instants, which is dropped after the sort. *)
Definition kept (col : string) : bool :=
  negb (mem col columns_to_drop) && negb (String.eqb col "temp_date").

(** The values of a record under the columns that are kept. *)
Definition select (cols : list string) (values : list pyval) : list pyval :=
  map snd (List.filter (fun cv => kept (fst cv)) (combine cols values)).

(** The records in the order in which they are written: sorted by the
original instants, newest first. *)
Definition written (df : dataframe) : list (Z * list pyval) :=
  PySort.sort_desc fst
    (map (fun r => (fst r, select (columns df) (snd r))) (rows df)).

(** [strftime('%d-%m-%Y')] of an index entry. *)
Definition date_label (instant : Z) : string :=
  Calendar.strftime_dmy (Calendar.date_of_instant instant).

Definition written_dates (df : dataframe) : list string :=
  map (fun r => date_label (fst r)) (written df).

Definition history_frame (df : dataframe) : Excel.frame :=
  Excel.mkFrame (Some "Date") (map PyStr (written_dates df))
    (List.filter kept (columns df))
    (map snd (written df)).

Record env := mkEnv {
  history : outcome dataframe
}.

(** The body of the [try] of [fetch_historical_data]. *)
Definition body (e : env) : Excel.M unit :=
  let! hist_data := Excel.lift (history e) in
  Excel.write (history_frame hist_data) "Historical Data" true.

End Historical.

(** ** The category operations: each body inside its [try] *)

Module Run.

(** [pd.DataFrame({"Error": [message]}).to_excel(self.writer, sheet_name, index)] *)
Definition error_marker (sheet_name message : string) (with_index : bool)
  : Excel.M unit :=
  Excel.write (Excel.marker_frame "Error" message) sheet_name with_index.

(** The [try] blocks that end in an error marker. *)
Inductive category : Type :=
| HistoricalData
| EsgScores
| CompanySummary
| KeyStatistics
| Financials
| Statement (k : Statements.kind)
| Sustainability
| Peers.

(** The sheet named by the handler. *)
Definition slot (c : category) : string :=
  match c with
  | HistoricalData => "Historical Data"
  | EsgScores => "ESG Scores"
  | CompanySummary => "Company Summary"
  | KeyStatistics => "Statistics"
  | Financials => "Financials"
  | Statement k => Statements.sheet_of k
  | Sustainability => "Sustainability"
  | Peers => "Peers"
  end.

(** The text of the marker for the exception text [err]. *)
Definition error_text (c : category) (err : string) : string :=
  match c with
  | HistoricalData | KeyStatistics | Financials | Sustainability => err
  | EsgScores => "Could not fetch ESG data: " ++ err
  | CompanySummary => "Could not fetch company summary: " ++ err
  | Statement k => "Could not fetch " ++ Statements.name_of k ++ " data: " ++ err
  | Peers => "Could not fetch ESG Risk Score peer data: " ++ err
  end.

(** The handlers of the statement scrapers and of the peers pass
[index=False]. *)
Definition error_index (c : category) : bool :=
  match c with
  | Statement _ | Peers => false
  | _ => true
  end.

(** [try: body  except Exception as e: <marker>] *)
Definition guarded (c : category) (body : Excel.M unit) : Excel.M unit :=
  Excel.try_except body
    (fun err => error_marker (slot c) (error_text c err) (error_index c)).

Definition fetch_historical_data (e : Historical.env) : Excel.M unit :=
  guarded HistoricalData (Historical.body e).

Definition fetch_esg_data (e : Esg.env) : Excel.M unit :=
  guarded EsgScores (Esg.body e).

Definition fetch_statistics (tz : Z) (e : Statistics.env) : Excel.M unit :=
  guarded KeyStatistics (Statistics.body tz e).

Definition scrape_statement (k : Statements.kind) (tz : Z) (e : Statements.env)
  : Excel.M unit :=
  guarded (Statement k) (Statements.scrape_body k tz e).

Definition _scrape_income_statement := scrape_statement Statements.Income.
Definition _scrape_balance_sheet := scrape_statement Statements.Balance.
Definition _scrape_cash_flow := scrape_statement Statements.CashFlow.

(** What the three statement pages and the library give. *)
Record financial_env := mkFinancial {
  income_env : Statements.env;
  balance_env : Statements.env;
  cash_flow_env : Statements.env
}.

Definition fetch_financials (tz : Z) (e : financial_env) : Excel.M unit :=
  guarded Financials
    (run! _scrape_income_statement tz (income_env e) in
     run! _scrape_balance_sheet tz (balance_env e) in
     _scrape_cash_flow tz (cash_flow_env e)).







End Run.

(** ** [fetch_company_summary]: the data gathered before the cells are made *)

Module SummaryInfo.

(** [key not in d or d[key] is None] *)
Definition absent (d : gmap string pyval) (key : string) : bool :=
  negb (is_not_none (dict_get d key)).

Definition missing_keys : list string :=
  ["beta"; "trailingPE"; "trailingEps"; "targetMeanPrice"].

(** [not info or any(key not in info or info[key] is None for key in
missing_keys)] *)
Definition has_missing_data (info : gmap string pyval) : bool :=
  bool_decide (info = ∅) || existsb (absent info) missing_keys.

(** [for key, value in extra.items(): if key not in base or base[key] is
None: base[key] = value] *)
Definition fill_missing (base extra : gmap string pyval) : gmap string pyval :=
  map_fold (fun key value acc => if absent acc key then <[key := value]> acc else acc)
    base extra.

(** What the two scrapers and the generator of fallback values return when
they are called; each catches its own failures and then returns the empty
dictionary. *)
Record sources := mkSources {
  main_scrape : gmap string pyval;
  alt_scrape : gmap string pyval;
  fallback_values : gmap string pyval
}.

(** [self._scraped_data] after the block. *)
Definition scraped_data (info : gmap string pyval) (s : sources)
  : gmap string pyval :=
  if has_missing_data info
  then
    if (size (main_scrape s) <? 3)%nat
    then fill_missing (main_scrape s) (alt_scrape s)
    else main_scrape s
  else ∅.

(** [info] after the block. *)
Definition merged_info (info : gmap string pyval) (s : sources)
  : gmap string pyval :=
  if has_missing_data info
  then
    let info1 := fill_missing info (scraped_data info s) in
    if existsb (absent info1) missing_keys
    then fill_missing info1 (fallback_values s)
    else info1
  else info.

(** [round(value, 2)] on a value of a dictionary; text has no [__round__]. *)
Definition round2 (value : pyval) : outcome pyval :=
  match value with
  | PyNum x => Returned (PyNum (PyNum.round_to 2 x))
  | PyStr _ => Raised "type str doesn't define __round__ method"
  | PyNone => Raised "type NoneType doesn't define __round__ method"
  end.

(** The cell of [Beta (5Y Monthly)] and of [PE Ratio (TTM)]: the value of
[info], else the scraped value, else the rounded [placeholder] drawn at
random. *)
Definition ratio_cell (key : string) (info scraped : gmap string pyval)
  (placeholder : Q) : outcome pyval :=
  if is_not_none (dict_get info key)
  then round2 (dict_get info key)
  else if absent info key
  then
    if is_not_none (dict_get scraped key)
    then round2 (dict_get scraped key)
    else Returned (PyNum (PyNum.round_to 2 placeholder))
  else Returned (PyStr "N/A").

(** [1.0 + (random.random() * 0.5)] and [20.0 + (random.random() * 10)] for
a draw [r]. *)
Definition beta_placeholder (r : Q) : Q := (1 + r * 0.5)%Q.
Definition pe_placeholder (r : Q) : Q := (20 + r * 10)%Q.

Definition beta_cell (info scraped : gmap string pyval) (r : Q) : outcome pyval :=
  ratio_cell "beta" info scraped (beta_placeholder r).

Definition pe_cell (info scraped : gmap string pyval) (r : Q) : outcome pyval :=
  ratio_cell "trailingPE" info scraped (pe_placeholder r).

End SummaryInfo.
(** ** Generated values: [_get_fallback_values] and [_adjust_historical_scores] *)

Module Generated.

(** [min(a, b)] and [max(a, b)] of Python: the first argument is returned
unless the second is strictly smaller (larger). *)
Definition py_min (a b : Q) : Q := if Qlt_bool b a then b else a.
Definition py_max (a b : Q) : Q := if Qlt_bool a b then b else a.

(** [bool(x)] for an attribute that is a number or [None]. *)
Definition truthy_num (x : option Q) : bool :=
  match x with
  | Some v => negb (Qeq_bool v 0)
  | None => false
  end.

(** The beta estimated from the range of the year, when the three prices are
known and not zero; every operation gives a float. *)
Definition estimated_beta (year_low year_high last_price : option Q) : option Q :=
  if truthy_num year_low && truthy_num year_high && truthy_num last_price
  then
    match year_low, year_high, last_price with
    | Some lo, Some hi, Some price =>
        let yearly_range_pct := PyNum.fl (PyNum.fl (hi - lo) / price) in
        let estimated :=
          PyNum.fl
            (1 + PyNum.fl (PyNum.fl (yearly_range_pct - PyNum.fl 0.3) * 2)) in
        Some (py_max 0.5 (py_min 2.5 estimated))
    | _, _, _ => None
    end
  else None.

(** ['T' in ticker_symbol or 'MSFT' in ticker_symbol or 'AAPL' in
ticker_symbol] *)
Definition tech_like (ticker_symbol : string) : bool :=
  PyStr.contains ticker_symbol "T" || PyStr.contains ticker_symbol "MSFT"
  || PyStr.contains ticker_symbol "AAPL".

(** The P/E estimate for a draw [r] of [random.random()], the EPS derived
from it, and the target price for a second draw; the price is a float, and
so is the result of every operation. *)
Definition fallback_pe (ticker_symbol : string) (r : Q) : Q :=
  if tech_like ticker_symbol
  then PyNum.fl (25 + PyNum.fl (r * 10))
  else PyNum.fl (15 + PyNum.fl (r * 10)).

Definition fallback_eps (recent_price trailing_pe : Q) : Q :=
  PyNum.fl (recent_price / trailing_pe).

Definition fallback_target (recent_price r : Q) : Q :=
  PyNum.fl
    (recent_price
     * PyNum.fl (PyNum.fl 1.05 + PyNum.fl (r * PyNum.fl 0.1))).

(** *** [_adjust_historical_scores] *)

(** [current_scores]: the four scores of the dictionary. *)
Record scores := mkScores {
  total_esg : Q;
  environmental : Q;
  social : Q;
  governance : Q
}.

Definition industry_improvement_rates : list (string * Q) :=
  [ ("technology", 0.08%Q); ("renewable", 0.05%Q); ("energy", 0.07%Q);
    ("healthcare", 0.04%Q); ("financial", 0.06%Q); ("retail", 0.05%Q);
    ("manufacturing", 0.07%Q); ("automotive", 0.09%Q); ("mining", 0.08%Q) ].

(** The rate of the first key found in the industry or in the sector, and
0.06 when there is none. *)
Fixpoint rate_of (rates : list (string * Q)) (industry sector : string) : Q :=
  match rates with
  | [] => 0.06%Q
  | (key, rate) :: rest =>
      if PyStr.contains industry key || PyStr.contains sector key then rate
      else rate_of rest industry sector
  end.

Definition improvement_rate (industry sector : string) : Q :=
  rate_of industry_improvement_rates industry sector.

(** [info.get(key, '').lower() if info else '']: only text has [lower]. *)
Definition lowered (info : gmap string pyval) (key : string) : outcome string :=
  if bool_decide (info = ∅) then Returned ""
  else
    match info !! key with
    | None => Returned ""
    | Some (PyStr s) => Returned (PyStr.lower s)
    | Some PyNone => Raised "'NoneType' object has no attribute 'lower'"
    | Some (PyNum _) => Raised "'float' object has no attribute 'lower'"
    end.

(** [max(0, min(100, x))] *)
Definition clamp (x : Q) : Q := py_max 0 (py_min 100 x).

(** The four draws of [random.uniform(-0.5, 0.5)], in the order of the
keys. *)
Record noise := mkNoise {
  n_total : Q;
  n_environmental : Q;
  n_social : Q;
  n_governance : Q
}.

Definition adjusted (score factor noise_value : Q) : Q :=
  PyNum.round_to 2 (clamp (clamp (score * (1 - factor)) + noise_value)).

(** The body of the [try]. *)
Definition adjust_body (ticker_info : outcome (gmap string pyval))
  (current_scores : scores) (years_ago : Q) (n : noise) : outcome scores :=
  match ticker_info with
  | Raised err => Raised err
  | Returned info =>
      match lowered info "industry", lowered info "sector" with
      | Raised err, _ => Raised err
      | _, Raised err => Raised err
      | Returned industry, Returned sector =>
          let rate := improvement_rate industry sector in
          let env_factor := (years_ago * rate * 1.2)%Q in
          let soc_factor := (years_ago * rate * 0.9)%Q in
          let gov_factor := (years_ago * rate * 1)%Q in
          Returned
            (mkScores
               (adjusted (total_esg current_scores) (years_ago * rate) (n_total n))
               (adjusted (environmental current_scores) env_factor
                  (n_environmental n))
               (adjusted (social current_scores) soc_factor (n_social n))
               (adjusted (governance current_scores) gov_factor
                  (n_governance n)))
      end
  end.

Definition reduced (score years_ago : Q) : Q :=
  clamp (score * (1 - years_ago * 0.05)).

Definition _adjust_historical_scores (ticker_info : outcome (gmap string pyval))
  (current_scores : scores) (years_ago : Q) (n : noise) : scores :=
  match adjust_body ticker_info current_scores years_ago n with
  | Returned adjusted_scores => adjusted_scores
  | Raised _ =>
      mkScores (reduced (total_esg current_scores) years_ago)
        (reduced (environmental current_scores) years_ago)
        (reduced (social current_scores) years_ago)
        (reduced (governance current_scores) years_ago)
  end.

End Generated.

(** ** [fetch_peers_esg]: the peers and their sheet *)

Module Peers.

(** One dictionary of [peer_data]. *)
Record entry := mkEntry {
  Ticker : string;
  Company_Name : pyval;
  Total_ESG_Risk_Score : pyval;
  E_Score : pyval;
  S_Score : pyval;
  G_Score : pyval
}.

Definition keywords : list string :=
  ["copyright"; "future"; "index"; "dow jones"; "s&p"; "dax"; "rights reserved"].

(** [any(keyword in company_name.lower() for keyword in [...])] *)
Definition has_keyword (company_name : string) : bool :=
  existsb (fun keyword => PyStr.contains (PyStr.lower company_name) keyword)
    keywords.

(** [company_name and any(...)]: a name that is [None], zero or empty is not
looked at; a number that is not zero has no [lower]. *)
Definition flagged (company_name : pyval) : outcome bool :=
  match company_name with
  | PyNone => Returned false
  | PyStr s => Returned (PyStr.truthy s && has_keyword s)
  | PyNum x =>
      if Qeq_bool x 0 then Returned false
      else Raised "'float' object has no attribute 'lower'"
  end.

(** [ticker.startswith('^') or '=' in ticker or ticker.endswith('^3DF') or
ticker == 'DJT'] *)
Definition index_like (ticker : string) : bool :=
  PyStr.startswith ticker "^" || PyStr.contains ticker "="
  || PyStr.endswith ticker "^3DF" || String.eqb ticker "DJT".

(** *** The anchors of the section of the page *)

(** [href.split('/quote/')[1].split('?')[0].split('/')[0].strip()], when
[/quote/] is in [href]. *)
Definition href_ticker (href : string) : option string :=
  if PyStr.contains href "/quote/"
  then
    let after := nth 1 (PyStr.split href "/quote/") "" in
    let before_query := hd "" (PyStr.split after "?") in
    Some (PyStr.strip (hd "" (PyStr.split before_query "/")))
  else None.

(** What is read around an anchor once its row is found: the texts of the
[span] and [div] elements of the row, and the texts of its [td], [span] and
[div] elements. *)
Record row_view := mkRow {
  name_candidates : list string;
  score_candidates : list string
}.

(** An anchor: its [href], its text, and its row, or the exception raised on
the way up to the row. *)
Record anchor := mkAnchor {
  href : string;
  text : string;
  row : outcome row_view
}.

(** [s.replace('.', '', 1)] *)
Fixpoint remove_first_dot (s : string) : string :=
  match s with
  | EmptyString => EmptyString
  | String c s' => if Ascii.eqb c "." then s' else String c (remove_first_dot s')
  end.

(** The number written as digits around one point: the digits read as an
integer, and the number of digits after the point. *)
Fixpoint decimal_parts (after_point : bool) (acc : Z) (places : nat) (s : string)
  : Z * nat :=
  match s with
  | EmptyString => (acc, places)
  | String c s' =>
      if Ascii.eqb c "." then decimal_parts true acc places s'
      else decimal_parts after_point (acc * 10 + Statements.digit_value c)%Z
             (if after_point then S places else places) s'
  end.

Definition decimal_value (s : string) : Q :=
  let '(digits, places) := decimal_parts false 0 0 s in
  (inject_Z digits / inject_Z (10 ^ Z.of_nat places))%Q.

(** [float(s) <= 100] for such a text: the nearest double of the number is
at most 100 exactly when the number is at most 100 + 2^-47. *)
Definition float_le_100 (s : string) : bool :=
  Qle_bool (decimal_value s) (100 + 1 / inject_Z (2 ^ 47)).

(** The test of the list of score elements, on the stripped text. *)
Definition is_score (s : string) : bool :=
  PyStr.truthy s
  && (PyStr.isdigit s || String.eqb s "--"
      || (PyStr.isdigit (remove_first_dot s) && float_le_100 s)).

(** [score_elements[i].text.strip() if ... != '--' else None], and [None]
when there are fewer elements. *)
Definition score_at (scores : list string) (i : nat) : pyval :=
  match nth_error scores i with
  | Some s => if String.eqb s "--" then PyNone else PyStr s
  | None => PyNone
  end.

Definition company_name_of (ticker : string) (anchor_text : string)
  (r : row_view) : string :=
  let company_name := PyStr.strip anchor_text in
  if String.eqb company_name ticker
  then
    match List.find
            (fun t => PyStr.truthy (PyStr.strip t)
                      && negb (String.eqb (PyStr.strip t) ticker))
            (name_candidates r) with
    | Some t => PyStr.strip t
    | None => company_name
    end
  else company_name.

(** The body of the loop over the anchors: [peer_data] after one anchor. *)
Definition process_anchor (subject : string) (peer_data : list entry)
  (a : anchor) : outcome (list entry) :=
  match href_ticker (href a) with
  | None => Returned peer_data
  | Some ticker =>
      if negb (PyStr.truthy ticker) || String.eqb ticker subject
         || mem ticker (map Ticker peer_data)
      then Returned peer_data
      else if index_like ticker then Returned peer_data
      else
        match row a with
        | Raised err => Raised err
        | Returned r =>
            let company_name := company_name_of ticker (text a) r in
            if PyStr.truthy company_name && has_keyword company_name
            then Returned peer_data
            else
              let scores :=
                List.filter is_score (map PyStr.strip (score_candidates r)) in
              Returned
                (peer_data
                 ++ [mkEntry ticker (PyStr company_name) (score_at scores 0)
                       (score_at scores 1) (score_at scores 2)
                       (score_at scores 3)])%list
        end
  end.

(** The loop: [peer_data] at its end, or at the exception that ends it. *)
Fixpoint process_anchors (subject : string) (peer_data : list entry)
  (anchors : list anchor) : list entry * option string :=
  match anchors with
  | [] => (peer_data, None)
  | a :: rest =>
      match process_anchor subject peer_data a with
      | Raised err => (peer_data, Some err)
      | Returned peer_data' => process_anchors subject peer_data' rest
      end
  end.

(** *** The peers found in the scripts of the page *)

(** An element of a [peers] list: something without a [symbol], or a
dictionary with its [symbol]; a key that is absent is [None] here. *)
Inductive raw_peer : Type :=
| NotAPeer
| RawPeer (symbol : pyval) (name : option pyval)
    (esgScore totalEsg environmentScore envScore socialScore socScore
       governanceScore govScore : option pyval).

(** [peer.get(a, peer.get(b))] *)
Definition get2 (a b : option pyval) : pyval :=
  match a with
  | Some v => v
  | None => default PyNone b
  end.

(** One element of the list: [peer_data] after it, or the exception. *)
Definition process_raw_peer (peer_data : list entry) (p : raw_peer)
  : outcome (list entry) :=
  match p with
  | NotAPeer => Returned peer_data
  | RawPeer symbol name esgScore totalEsg environmentScore envScore
      socialScore socScore governanceScore govScore =>
      match symbol with
      | PyStr ticker =>
          if index_like ticker then Returned peer_data
          else
            let company_name := default (PyStr ticker) name in
            match flagged company_name with
            | Raised err => Raised err
            | Returned true => Returned peer_data
            | Returned false =>
                Returned
                  (peer_data
                   ++ [mkEntry ticker company_name (get2 esgScore totalEsg)
                         (get2 environmentScore envScore)
                         (get2 socialScore socScore)
                         (get2 governanceScore govScore)])%list
            end
      | PyNone => Raised "'NoneType' object has no attribute 'startswith'"
      | PyNum _ => Raised "'float' object has no attribute 'startswith'"
      end
  end.

(** The loop over one list: [peer_data] and whether the end was reached. *)
Fixpoint process_raw_peers (peer_data : list entry) (peers : list raw_peer)
  : list entry * bool :=
  match peers with
  | [] => (peer_data, true)
  | p :: rest =>
      match process_raw_peer peer_data p with
      | Raised _ => (peer_data, false)
      | Returned peer_data' => process_raw_peers peer_data' rest
      end
  end.

(** A match of the pattern in a script: the exception of its conversion, or
its [peers] when it is a dictionary that has them. *)
Definition json_match : Type := outcome (option (list raw_peer)).

(** The loop over the matches of one script: a match that raises is passed
over, the first one that does not raise ends the loop. *)
Fixpoint process_matches (peer_data : list entry) (matches : list json_match)
  : list entry :=
  match matches with
  | [] => peer_data
  | Raised _ :: rest => process_matches peer_data rest
  | Returned None :: _ => peer_data
  | Returned (Some peers) :: rest =>
      let '(peer_data', finished) := process_raw_peers peer_data peers in
      if finished then peer_data' else process_matches peer_data' rest
  end.

Definition process_scripts (scripts : list (list json_match)) : list entry :=
  fold_left process_matches scripts [].

(** *** The filter on what was gathered from the page *)

Definition excluded_tickers : list string :=
  ["DJT"; "SPY"; "ES%3DF"; "YM%3DF"; "NQ%3DF"; "RTY%3DF"; "CL%3DF"; "GC%3DF"].

(** [bool(v)] *)
Definition truthy (v : pyval) : bool :=
  match v with
  | PyNone => false
  | PyNum x => negb (Qeq_bool x 0)
  | PyStr s => PyStr.truthy s
  end.

Definition has_score (e : entry) : bool :=
  truthy (Total_ESG_Risk_Score e) || truthy (E_Score e) || truthy (S_Score e)
  || truthy (G_Score e).

Fixpoint filter_entries (peer_data : list entry) : outcome (list entry) :=
  match peer_data with
  | [] => Returned []
  | e :: rest =>
      let ticker := Ticker e in
      if PyStr.startswith ticker "^" || PyStr.endswith ticker "^3DF"
         || PyStr.contains ticker "=" || mem ticker excluded_tickers
      then filter_entries rest
      else
        match flagged (Company_Name e) with
        | Raised err => Raised err
        | Returned true => filter_entries rest
        | Returned false =>
            match filter_entries rest with
            | Raised err => Raised err
            | Returned kept =>
                Returned (if has_score e then e :: kept else kept)
            end
        end
  end.

(** *** The peers recommended by the provider library *)

(** What [info] of a ticker holds, as far as it is read here; an absent key
is [None]. *)
Record profile := mkProfile {
  shortName : option pyval;
  longName : option pyval;
  esgScore : pyval;
  environmentScore : pyval;
  socialScore : pyval;
  governanceScore : pyval;
  recommendedSymbols : option (list pyval);
  similar : option (list pyval)
}.

Definition recommended (info : profile) : list pyval :=
  match recommendedSymbols info with
  | Some (p :: l) => p :: l
  | _ =>
      match similar info with
      | Some (p :: l) => p :: l
      | _ => []
      end
  end.

(** [[p for p in recommended_peers if not p.startswith('^') and not '=' in p
and not p.endswith('^3DF')]] *)
Fixpoint keep_companies (l : list pyval) : outcome (list string) :=
  match l with
  | [] => Returned []
  | PyStr p :: rest =>
      match keep_companies rest with
      | Raised err => Raised err
      | Returned kept =>
          Returned
            (if negb (PyStr.startswith p "^") && negb (PyStr.contains p "=")
                && negb (PyStr.endswith p "^3DF")
             then p :: kept else kept)
      end
  | PyNone :: _ => Raised "'NoneType' object has no attribute 'startswith'"
  | PyNum _ :: _ => Raised "'float' object has no attribute 'startswith'"
  end.

(** [info.get('shortName', info.get('longName', symbol))] *)
Definition profile_name (info : profile) (symbol : string) : pyval :=
  match shortName info with
  | Some v => v
  | None => default (PyStr symbol) (longName info)
  end.

(** The body of the loop over the recommended peers; [None] when the peer is
passed over. *)
Definition fallback_entry (peer : string) (peer_info : outcome (option profile))
  : option entry :=
  match peer_info with
  | Raised _ | Returned None => None
  | Returned (Some info) =>
      let company_name := profile_name info peer in
      match flagged company_name with
      | Raised _ | Returned true => None
      | Returned false =>
          Some (mkEntry peer company_name (esgScore info)
                  (environmentScore info) (socialScore info)
                  (governanceScore info))
      end
  end.

(** What the page and the provider library give.  The [info] of a ticker
is the same each time it is read; [None] stands for an [info] that is empty
or not a dictionary. *)
Record page := mkPage {
  status_code : nat;
  esg_section : option (list anchor);
  scripts : list (list json_match)
}.

Record env := mkEnv {
  response : outcome page;
  ticker_info : outcome (option profile);
  peer_info : string -> outcome (option profile)
}.

Definition yfinance_fallback (e : env) (peer_data : list entry)
  : outcome (list entry) :=
  match ticker_info e with
  | Raised err => Raised err
  | Returned None => Returned peer_data
  | Returned (Some info) =>
      match keep_companies (recommended info) with
      | Raised err => Raised err
      | Returned peers =>
          Returned
            (peer_data
             ++ omap (fun peer => fallback_entry peer (peer_info e peer))
                  (take 10 peers))%list
      end
  end.

(** The handler of the inner [try]: the fallback on what was gathered so
far, which stays as it is when the fallback raises. *)
Definition after_exception (e : env) (peer_data : list entry) : list entry :=
  match yfinance_fallback e peer_data with
  | Returned peer_data' => peer_data'
  | Raised _ => peer_data
  end.

(** [peer_data] when the inner [try] statement is left. *)
Definition gathered (subject : string) (e : env) : list entry :=
  match response e with
  | Raised _ => after_exception e []
  | Returned pg =>
      let '(from_anchors, failure) :=
        if (status_code pg =? 200)%nat
        then
          match esg_section pg with
          | Some anchors => process_anchors subject [] anchors
          | None => ([], None)
          end
        else ([], None) in
      match failure with
      | Some _ => after_exception e from_anchors
      | None =>
          let peer_data :=
            match from_anchors with
            | [] =>
                if (status_code pg =? 200)%nat
                then process_scripts (scripts pg) else []
            | _ => from_anchors
            end in
          match filter_entries peer_data with
          | Raised _ => after_exception e peer_data
          | Returned [] =>
              match yfinance_fallback e [] with
              | Returned peer_data' => peer_data'
              | Raised _ => after_exception e []
              end
          | Returned filtered => filtered
          end
      end
  end.

(** The row of the ticker itself. *)
Definition current_ticker_data (subject : string) (info : option profile)
  : entry :=
  match info with
  | Some p =>
      mkEntry subject (profile_name p subject) (esgScore p)
        (environmentScore p) (socialScore p) (governanceScore p)
  | None => mkEntry subject (PyStr subject) PyNone PyNone PyNone PyNone
  end.

(** [peer_data] after the attempt to put the ticker itself in front. *)
Definition peer_data (subject : string) (e : env) : list entry :=
  match ticker_info e with
  | Returned info => current_ticker_data subject info :: gathered subject e
  | Raised _ => gathered subject e
  end.

(** *** The sheet *)

Definition columns : list string :=
  ["Ticker"; "Company Name"; "Total ESG Risk Score"; "E Score"; "S Score";
   "G Score"].

Definition cells_of (p : entry) : list pyval :=
  [PyStr (Ticker p); Company_Name p; Total_ESG_Risk_Score p; E_Score p;
   S_Score p; G_Score p].

(** [self.writer.book.add_worksheet(name)]: a name in use is refused. *)
Definition add_worksheet (name : string) : Excel.M unit :=
  fun w =>
    match w !! name with
    | Some _ =>
        (Raised ("Sheetname '" ++ name
                 ++ "', with case ignored, is already in use."), w)
    | None => (Returned tt, <[name := ∅]> w)
    end.

(** [worksheet.write(row, col, value, ...)] for the cells of one row. *)
Fixpoint write_row (r c : nat) (values : list pyval) : Excel.M unit :=
  match values with
  | [] => Excel.ret tt
  | v :: rest =>
      run! Esg.write_cell "Peers" r c v in
      write_row r (S c) rest
  end.

(** The rows of a group of peers; the result is the row after the last. *)
Fixpoint write_rows (r : nat) (peers : list entry) : Excel.M nat :=
  match peers with
  | [] => Excel.ret r
  | p :: rest =>
      run! write_row r 0 (cells_of p) in
      write_rows (S r) rest
  end.

(** A range given as [A<n>:F<n>] lies in the row [n - 1] of the sheet. *)
Definition a1_row (n : nat) : nat := (n - 1)%nat.

(** [worksheet.merge_range('A<n>:F<n>', data, ...)]: the data in the first
cell of the range and blank cells in the five others. *)
Definition merge_range (n : nat) (data : string) : Excel.M unit :=
  write_row (a1_row n) 0
    [PyStr data; PyNone; PyNone; PyNone; PyNone; PyNone].

Definition write_sheet (peer_data : list entry) : Excel.M unit :=
  let peers := take 5 peer_data in
  let related_tickers := drop 5 peer_data in
  run! add_worksheet "Peers" in
  run! merge_range 1 "Peers" in
  run! write_row 1 0 (map PyStr columns) in
  let! row := write_rows 2 peers in
  let row := (row + 1)%nat in
  match related_tickers with
  | [] => Excel.ret tt
  | _ =>
      run! merge_range row "Related Tickers" in
      let row := (row + 1)%nat in
      run! write_row row 0 (map PyStr columns) in
      let row := (row + 1)%nat in
      let! _ := write_rows row related_tickers in
      Excel.ret tt
  end.

Definition no_peers_message (subject : string) : string :=
  "No ESG Risk Score peer companies found for " ++ subject
  ++ " in Yahoo Finance Sustainability tab.".

(** The body of the outer [try]. *)
Definition body (subject : string) (e : env) : Excel.M unit :=
  match peer_data subject e with
  | [] =>
      Excel.write (Excel.marker_frame "Message" (no_peers_message subject))
        "Peers" false
  | data => write_sheet data
  end.

Definition fetch_peers_esg (subject : string) (e : env) : Excel.M unit :=
  Run.guarded Run.Peers (body subject e).

End Peers.

(** ** [fetch_company_summary]: the details of the company *)

Module Details.

(** [info.get('fiscalYearEnd')]: nothing, an integer, another number, or
text. *)
Inductive fiscal_value : Type :=
| FiscalNone
| FiscalInt (n : Z)
| FiscalFloat (x : Q)
| FiscalStr (s : string).

Definition month_names : list string :=
  ["January"; "February"; "March"; "April"; "May"; "June"; "July"; "August";
   "September"; "October"; "November"; "December"].

(** [datetime.date(2000, month_num, 1).strftime('%B')] *)
Definition month_name (month_num : Z) : string :=
  nth (Z.to_nat (month_num - 1)) month_names "".

(** ["31" if month_num in [1, 3, 5, 7, 8, 10, 12] else "30"], and ["28"] for
the second month. *)
Definition last_day (month_num : Z) : string :=
  if (month_num =? 2)%Z then "28"
  else if existsb (Z.eqb month_num) [1; 3; 5; 7; 8; 10; 12]%Z then "31"
  else "30".

(** The text set for a month number between 1 and 12; another number leaves
the value as it was. *)
Definition format_month (month_num : Z) (fiscal_year_end : fiscal_value)
  : fiscal_value :=
  if ((1 <=? month_num) && (month_num <=? 12))%Z
  then FiscalStr (month_name month_num ++ " " ++ last_day month_num)
  else fiscal_year_end.

(** The fiscal year end after the formatting of a month number: for an
integer or a text whose [str] is made of digits, [int] of it is the month
number, and the value is [None] when [int] raises. *)
Definition format_fiscal_year_end (fiscal_year_end : fiscal_value)
  : fiscal_value :=
  match fiscal_year_end with
  | FiscalInt n =>
      if PyStr.isdigit (PyStr.of_Z n)
      then format_month n fiscal_year_end
      else fiscal_year_end
  | FiscalStr s =>
      if PyStr.isdigit s
      then
        match Statements.py_int s with
        | Some month_num => format_month month_num fiscal_year_end
        | None => FiscalNone
        end
      else fiscal_year_end
  | _ => fiscal_year_end
  end.

(** [f"{int(full_time_employees):,}"] for a positive number, and [None]
otherwise. *)
Definition format_employees (full_time_employees : pyval) : option string :=
  match full_time_employees with
  | PyNum x =>
      if Qlt_bool 0 x then Some (PyNum.fmt_comma_int (PyNum.to_int x)) else None
  | _ => None
  end.

(** The four details while they are looked for. *)
Record details := mkDetails {
  full_time_employees : option string;
  fiscal_year_end : fiscal_value;
  sector : pyval;
  industry : pyval
}.

(** What [info] holds for the details and the summary. *)
Record info := mkInfo {
  fullTimeEmployees : pyval;
  fiscalYearEnd : fiscal_value;
  info_sector : pyval;
  info_industry : pyval;
  longBusinessSummary : option pyval
}.

Definition from_info (i : info) : details :=
  mkDetails (format_employees (fullTimeEmployees i))
    (format_fiscal_year_end (fiscalYearEnd i)) (info_sector i) (info_industry i).

(** [x is None or x == 'N/A'] *)
Definition open_text (x : pyval) : bool :=
  match x with
  | PyNone => true
  | PyStr s => String.eqb s "N/A"
  | PyNum _ => false
  end.

Definition open_employees (x : option string) : bool :=
  match x with
  | None => true
  | Some s => String.eqb s "N/A"
  end.

Definition open_fiscal (x : fiscal_value) : bool :=
  match x with
  | FiscalNone => true
  | FiscalStr s => String.eqb s "N/A"
  | _ => false
  end.

(** One row of a table of the profile page, with its label and its value. *)
Definition scrape_row (d : details) (r : string * string) : details :=
  let '(label, value) := r in
  if PyStr.contains label "Sector" && open_text (sector d)
  then mkDetails (full_time_employees d) (fiscal_year_end d) (PyStr value)
         (industry d)
  else if PyStr.contains label "Industry" && open_text (industry d)
  then mkDetails (full_time_employees d) (fiscal_year_end d) (sector d)
         (PyStr value)
  else if PyStr.contains label "Full Time Employees"
          && open_employees (full_time_employees d)
  then mkDetails (Some value) (fiscal_year_end d) (sector d) (industry d)
  else if PyStr.contains label "Fiscal Year End" && open_fiscal (fiscal_year_end d)
  then mkDetails (full_time_employees d) (FiscalStr value) (sector d)
         (industry d)
  else d.

(** The profile page: its status and, in the order of the loops over the
tables and their rows, the stripped texts of the first two cells of each row
that has two cells or more. *)
Record profile_page := mkProfilePage {
  status_code : nat;
  table_rows : list (string * string)
}.

(** [not business_summary or business_summary == 'No summary available'] *)
Definition summary_missing (business_summary : pyval) : bool :=
  match business_summary with
  | PyNone => true
  | PyNum x => Qeq_bool x 0
  | PyStr s => negb (PyStr.truthy s) || String.eqb s "No summary available"
  end.

Definition is_none (x : pyval) : bool :=
  match x with PyNone => true | _ => false end.

Definition needs_profile (i : info) (d : details) : bool :=
  match full_time_employees d with None => true | Some _ => false end
  || match fiscal_year_end d with FiscalNone => true | _ => false end
  || is_none (sector d) || is_none (industry d)
  || summary_missing
       (default (PyStr "No summary available") (longBusinessSummary i)).

Definition after_profile (i : info) (profile : outcome profile_page) : details :=
  let d := from_info i in
  if needs_profile i d
  then
    match profile with
    | Returned pg =>
        if (status_code pg =? 200)%nat
        then fold_left scrape_row (table_rows pg) d
        else d
    | Raised _ => d
    end
  else d.

(** The defaults set for what is still missing. *)
Definition with_defaults (d : details) : details :=
  mkDetails
    (Some (default "150,000" (full_time_employees d)))
    (match fiscal_year_end d with
     | FiscalNone => FiscalStr "December 31"
     | v => v
     end)
    (match sector d with PyNone => PyStr "Technology" | v => v end)
    (match industry d with PyNone => PyStr "Consumer Electronics" | v => v end).

Definition company_details (i : info) (profile : outcome profile_page)
  : details :=
  with_defaults (after_profile i profile).

End Details.
(** ** [fetch_sustainability]: the controversy level *)

Module Sustainability.

Definition levels : list string :=
  ["Negligible"; "Low"; "Moderate"; "Significant"; "High"; "Severe"].

(** The first level of the list whose lower-case name occurs in the
lower-case text, which is where the loop over the levels breaks. *)
Definition level_in (text : string) : option string :=
  find (fun level => PyStr.contains (PyStr.lower text) (PyStr.lower level))
    levels.

Definition match_level (text controversy_level : string) : string :=
  default controversy_level (level_in text).

(** The loop over the siblings that follow one text with the words
Controversy Level; a sibling is given by its text.  A sibling without text is
passed over; after one with text the loop breaks as soon as a level is
set. *)
Fixpoint scan_siblings (siblings : list string) (controversy_level : string)
  : string :=
  match siblings with
  | [] => controversy_level
  | sibling :: rest =>
      let text := PyStr.strip sibling in
      if PyStr.truthy text
      then
        let found := match_level text controversy_level in
        if negb (String.eqb found "Not Available")
        then found
        else scan_siblings rest found
      else scan_siblings rest controversy_level
  end.

(** The loop over the texts found, each with the siblings that follow its
parent: the first five of them are looked at. *)
Definition scan_sections (sections : list (list string)) : string :=
  fold_left (fun controversy_level next_siblings =>
               scan_siblings (take 5 next_siblings) controversy_level)
    sections "Not Available".

(** The second approach, over the texts of the elements labelled with the
word Controversy: the loop over the elements has no break. *)
Definition scan_elements (elements : list string) (controversy_level : string)
  : string :=
  fold_left (fun controversy_level elem =>
               match_level (PyStr.strip elem) controversy_level)
    elements controversy_level.

Definition controversy_level (sections : list (list string))
    (elements : list string) : string :=
  let controversy_level := scan_sections sections in
  if String.eqb controversy_level "Not Available"
  then scan_elements elements controversy_level
  else controversy_level.

End Sustainability.

(** ** The entry point: [main] *)

(** [ticker_symbol = input(...).strip().upper()], then the default when the
    result is empty; [strip] and [upper] are those of ASCII text. *)
Definition main_ticker (raw : string) : string :=
  let ticker_symbol := PyStr.upper (PyStr.strip raw) in
  if negb (PyStr.truthy ticker_symbol) then "AAPL" else ticker_symbol.

(* ================================================================== *)
(** * Properties *)
(* ================================================================== *)

Lemma map_chars_empty f s : PyStr.map_chars f s = "" <-> s = "".
Proof. destruct s; simpl; split; congruence. Qed.

Lemma truthy_upper s : PyStr.truthy (PyStr.upper s) = PyStr.truthy s.
Proof. destruct s; reflexivity. Qed.

Lemma truthy_false s : PyStr.truthy s = false <-> s = "".
Proof. destruct s; simpl; split; congruence. Qed.

Lemma upper_char_idem a : PyStr.upper_char (PyStr.upper_char a) = PyStr.upper_char a.
Proof. destruct a as [[] [] [] [] [] [] [] []]; reflexivity. Qed.

Lemma is_space_upper_char a : PyStr.is_space (PyStr.upper_char a) = PyStr.is_space a.
Proof. destruct a as [[] [] [] [] [] [] [] []]; reflexivity. Qed.

Lemma upper_idem s : PyStr.upper (PyStr.upper s) = PyStr.upper s.
Proof.
  unfold PyStr.upper.
  induction s as [|c s IH]; simpl; [reflexivity|].
  rewrite upper_char_idem, IH. reflexivity.
Qed.

(** Stripping: the result is a fixed point of both one-sided strips. *)
Lemma lstrip_idem s : PyStr.lstrip (PyStr.lstrip s) = PyStr.lstrip s.
Proof.
  induction s as [|c s IH]; simpl; [reflexivity|].
  destruct (PyStr.is_space c) eqn:E; [exact IH|].
  simpl. rewrite E. reflexivity.
Qed.

Lemma rstrip_idem s : PyStr.rstrip (PyStr.rstrip s) = PyStr.rstrip s.
Proof.
  induction s as [|c s IH]; simpl; [reflexivity|].
  destruct (PyStr.rstrip s) as [|c' r] eqn:E.
  - destruct (PyStr.is_space c) eqn:Ec; simpl; [reflexivity|].
    rewrite Ec. reflexivity.
  - change (PyStr.rstrip (String c (String c' r))) with
      (match PyStr.rstrip (String c' r) with
       | EmptyString =>
           if PyStr.is_space c then EmptyString else String c EmptyString
       | r0 => String c r0
       end).
    rewrite IH. reflexivity.
Qed.

Lemma rstrip_lstrip_fixed t :
  PyStr.rstrip t = t -> PyStr.rstrip (PyStr.lstrip t) = PyStr.lstrip t.
Proof.
  induction t as [|c t IH]; simpl; [reflexivity|].
  intros H. destruct (PyStr.is_space c) eqn:Ec.
  - apply IH. destruct (PyStr.rstrip t) as [|c' r]; [discriminate|].
    congruence.
  - simpl. rewrite Ec. exact H.
Qed.

Lemma strip_idem s : PyStr.strip (PyStr.strip s) = PyStr.strip s.
Proof.
  unfold PyStr.strip.
  rewrite (rstrip_lstrip_fixed (PyStr.rstrip s) (rstrip_idem s)).
  apply lstrip_idem.
Qed.

Lemma lstrip_upper s : PyStr.lstrip (PyStr.upper s) = PyStr.upper (PyStr.lstrip s).
Proof.
  unfold PyStr.upper.
  induction s as [|c s IH]; simpl; [reflexivity|].
  rewrite is_space_upper_char. destruct (PyStr.is_space c); [exact IH|reflexivity].
Qed.

Lemma rstrip_upper s : PyStr.rstrip (PyStr.upper s) = PyStr.upper (PyStr.rstrip s).
Proof.
  unfold PyStr.upper.
  induction s as [|c s IH]; simpl; [reflexivity|].
  rewrite IH, is_space_upper_char.
  destruct (PyStr.rstrip s); simpl; [destruct (PyStr.is_space c)|]; reflexivity.
Qed.

Lemma strip_upper s : PyStr.strip (PyStr.upper s) = PyStr.upper (PyStr.strip s).
Proof. unfold PyStr.strip. rewrite rstrip_upper, lstrip_upper. reflexivity. Qed.

(** What trimming and uppercasing mean, in the words of the claim: the
    surrounding whitespace is a run of whitespace before and one after a
    core that neither starts nor ends with whitespace, and uppercasing moves
    each of the letters a to z to its capital. *)
Fixpoint last_char (s : string) : option ascii :=
  match s with
  | EmptyString => None
  | String c EmptyString => Some c
  | String _ s' => last_char s'
  end.

Definition trimmed (s : string) : Prop :=
  match s with
  | EmptyString => True
  | String c _ => PyStr.is_space c = false
  end
  /\ match last_char s with
     | None => True
     | Some c => PyStr.is_space c = false
     end.

Definition capital (a : ascii) : ascii :=
  let n := nat_of_ascii a in
  if ((97 <=? n) && (n <=? 122))%nat then ascii_of_nat (n - 32) else a.

Lemma append_cons c (s t : string) : String c s ++ t = String c (s ++ t).
Proof. reflexivity. Qed.

Lemma append_nil (t : string) : "" ++ t = t.
Proof. reflexivity. Qed.

Lemma append_assoc (s t u : string) : (s ++ t) ++ u = s ++ t ++ u.
Proof.
  induction s as [|c s IH]; [reflexivity|].
  rewrite !append_cons, IH. reflexivity.
Qed.

Lemma upper_capital s : PyStr.upper s = PyStr.map_chars capital s.
Proof. reflexivity. Qed.

Lemma last_char_app lead s :
  s <> "" -> last_char (lead ++ s) = last_char s.
Proof.
  intros Hs. induction lead as [|c lead IH]; [reflexivity|].
  rewrite append_cons. destruct (lead ++ s) as [|c' r] eqn:E.
  - destruct lead; [rewrite append_nil in E; contradiction|discriminate].
  - rewrite <- IH. reflexivity.
Qed.

Lemma lstrip_split s :
  exists lead,
    s = lead ++ PyStr.lstrip s
    /\ PyStr.all_chars PyStr.is_space lead = true
    /\ match PyStr.lstrip s with
       | EmptyString => True
       | String c _ => PyStr.is_space c = false
       end.
Proof.
  induction s as [|c s (lead & Hs & Hl & Hh)].
  - exists "". repeat split.
  - cbn [PyStr.lstrip]. destruct (PyStr.is_space c) eqn:Ec.
    + exists (String c lead). rewrite append_cons. cbn [PyStr.all_chars].
      rewrite <- Hs, Ec, Hl. repeat split. exact Hh.
    + exists "". repeat split. exact Ec.
Qed.

Lemma rstrip_split s :
  exists trail,
    s = PyStr.rstrip s ++ trail
    /\ PyStr.all_chars PyStr.is_space trail = true
    /\ match last_char (PyStr.rstrip s) with
       | None => True
       | Some c => PyStr.is_space c = false
       end.
Proof.
  induction s as [|c s (trail & Hs & Ht & Hl)].
  - exists "". repeat split.
  - cbn [PyStr.rstrip]. destruct (PyStr.rstrip s) as [|c' r] eqn:Er.
    + rewrite append_nil in Hs. subst s.
      destruct (PyStr.is_space c) eqn:Ec.
      * exists (String c trail). rewrite append_nil. cbn [PyStr.all_chars].
        rewrite Ec, Ht. repeat split.
      * exists trail. repeat split; [exact Ht|exact Ec].
    + exists trail. rewrite append_cons. split; [congruence|].
      split; [exact Ht|exact Hl].
Qed.

Lemma lstrip_spaces lead s :
  PyStr.all_chars PyStr.is_space lead = true ->
  PyStr.lstrip (lead ++ s) = PyStr.lstrip s.
Proof.
  induction lead as [|c lead IH]; [reflexivity|].
  rewrite append_cons. cbn [PyStr.all_chars PyStr.lstrip].
  intros H. apply andb_true_iff in H as [-> H]. exact (IH H).
Qed.

Lemma lstrip_fixed s :
  match s with
  | EmptyString => True
  | String c _ => PyStr.is_space c = false
  end -> PyStr.lstrip s = s.
Proof. destruct s as [|c s]; [reflexivity|]. cbn. intros ->. reflexivity. Qed.

Lemma rstrip_spaces trail :
  PyStr.all_chars PyStr.is_space trail = true -> PyStr.rstrip trail = "".
Proof.
  induction trail as [|c trail IH]; [reflexivity|].
  cbn [PyStr.all_chars PyStr.rstrip].
  intros H. apply andb_true_iff in H as [-> H]. rewrite (IH H). reflexivity.
Qed.

Lemma rstrip_fixed s :
  match last_char s with
  | None => True
  | Some c => PyStr.is_space c = false
  end -> PyStr.rstrip s = s.
Proof.
  induction s as [|c s IH]; [reflexivity|].
  cbn [last_char PyStr.rstrip]. destruct s as [|c' s'].
  - cbn. intros ->. reflexivity.
  - intros H. rewrite (IH H). reflexivity.
Qed.

Lemma rstrip_app_spaces s trail :
  PyStr.all_chars PyStr.is_space trail = true ->
  PyStr.rstrip (s ++ trail) = PyStr.rstrip s.
Proof.
  intros Ht. induction s as [|c s IH].
  - rewrite append_nil. apply rstrip_spaces, Ht.
  - rewrite append_cons. cbn [PyStr.rstrip]. rewrite IH. reflexivity.
Qed.

(** Whatever the whitespace around it, a trimmed core is what [strip]
    leaves. *)
Lemma strip_core lead core trail :
  PyStr.all_chars PyStr.is_space lead = true ->
  PyStr.all_chars PyStr.is_space trail = true ->
  trimmed core ->
  PyStr.strip (lead ++ core ++ trail) = core.
Proof.
  intros Hl Ht [Hh Hlast]. unfold PyStr.strip.
  destruct core as [|c core'].
  - rewrite append_nil. rewrite rstrip_app_spaces by exact Ht.
    rewrite (rstrip_spaces lead Hl). reflexivity.
  - set (core := String c core') in *.
    rewrite <- append_assoc.
    rewrite rstrip_app_spaces by exact Ht.
    rewrite rstrip_fixed.
    + rewrite lstrip_spaces by exact Hl. apply lstrip_fixed. exact Hh.
    + rewrite last_char_app by discriminate. exact Hlast.
Qed.

Lemma strip_split s :
  exists lead trail,
    s = lead ++ PyStr.strip s ++ trail
    /\ PyStr.all_chars PyStr.is_space lead = true
    /\ PyStr.all_chars PyStr.is_space trail = true
    /\ trimmed (PyStr.strip s).
Proof.
  destruct (rstrip_split s) as (trail & Hs & Ht & Hlast).
  destruct (lstrip_split (PyStr.rstrip s)) as (lead & Hr & Hl & Hh).
  exists lead, trail. unfold PyStr.strip.
  split; [|split; [exact Hl|split; [exact Ht|split; [exact Hh|]]]].
  - etransitivity; [exact Hs|].
    etransitivity; [exact (f_equal (fun x => x ++ trail) Hr)|].
    apply append_assoc.
  - destruct (PyStr.lstrip (PyStr.rstrip s)) as [|c r] eqn:E; [exact I|].
    rewrite Hr in Hlast.
    rewrite last_char_app in Hlast by discriminate.
    exact Hlast.
Qed.

Lemma capital_not_lower a : PyStr.is_lower (capital a) = false.
Proof. destruct a as [[] [] [] [] [] [] [] []]; reflexivity. Qed.

Lemma upper_no_lower s :
  PyStr.all_chars (fun a => negb (PyStr.is_lower a)) (PyStr.upper s) = true.
Proof.
  rewrite upper_capital. induction s as [|c s IH]; [reflexivity|].
  cbn [PyStr.map_chars PyStr.all_chars].
  rewrite capital_not_lower, IH. reflexivity.
Qed.

(** C10: at the entry point the operator's input (ASCII text) is trimmed of
    the whitespace around it and each letter a to z is replaced by its
    capital; when nothing is left after trimming the run proceeds with the
    default ticker AAPL.  So "  msft  " gives MSFT, "brk.b" followed by a
    newline gives BRK.B, and an empty line or a line of whitespace gives
    AAPL.  The ticker handed to the analyzer is never empty and has no
    letter a to z; trimming or uppercasing it again changes nothing. *)
Theorem C10_main_ticker (raw : string) (Hascii : PyStr.is_ascii raw = true) :
  (exists lead core trail,
      raw = lead ++ core ++ trail
      /\ PyStr.all_chars PyStr.is_space lead = true
      /\ PyStr.all_chars PyStr.is_space trail = true
      /\ trimmed core
      /\ main_ticker raw
         = (if String.eqb core "" then "AAPL"
            else PyStr.map_chars capital core))
  /\ (forall lead core trail,
        raw = lead ++ core ++ trail ->
        PyStr.all_chars PyStr.is_space lead = true ->
        PyStr.all_chars PyStr.is_space trail = true ->
        trimmed core ->
        main_ticker raw
        = (if String.eqb core "" then "AAPL"
           else PyStr.map_chars capital core))
  /\ main_ticker raw <> ""
  /\ PyStr.all_chars (fun a => negb (PyStr.is_lower a)) (main_ticker raw)
     = true
  /\ PyStr.upper (main_ticker raw) = main_ticker raw
  /\ PyStr.strip (main_ticker raw) = main_ticker raw
  /\ main_ticker "  msft  " = "MSFT"
  /\ main_ticker "aapl" = "AAPL"
  /\ main_ticker (String "009" "brk.b" ++ String "010" "") = "BRK.B"
  /\ main_ticker "Goog l " = "GOOG L"
  /\ main_ticker "^gspc" = "^GSPC"
  /\ main_ticker "" = "AAPL"
  /\ main_ticker (String "032" (String "009" (String "010" ""))) = "AAPL".
Proof.
  assert (Hshape : forall core,
            PyStr.strip raw = core ->
            main_ticker raw
            = (if String.eqb core "" then "AAPL"
               else PyStr.map_chars capital core)).
  { intros core <-. unfold main_ticker. rewrite truthy_upper.
    destruct (PyStr.strip raw) as [|c s]; reflexivity. }
  split; [|split].
  - destruct (strip_split raw) as (lead & trail & Hs & Hl & Ht & Hc).
    exists lead, (PyStr.strip raw), trail.
    repeat (split; [assumption|]). apply Hshape. reflexivity.
  - intros lead core trail -> Hl Ht Hc. apply Hshape.
    apply strip_core; assumption.
  - unfold main_ticker. rewrite truthy_upper.
    destruct (PyStr.strip raw) as [|c s] eqn:E.
    + cbn. split; [discriminate|]. repeat split.
    + cbn [PyStr.truthy negb].
      split; [discriminate|].
      split; [apply upper_no_lower|].
      split; [apply upper_idem|].
      split; [|repeat split].
      rewrite strip_upper. f_equal. rewrite <- E. apply strip_idem.
Qed.

Lemma C10_main_ticker_witness :
  PyStr.is_ascii (String "032" (String "032" "msft") ++ String "032" (String "010" ""))
  = true
  /\ main_ticker (String "032" (String "032" "msft") ++ String "032" (String "010" ""))
     = "MSFT".
Proof.
  split; [reflexivity|].
  apply (proj1 (proj2 (C10_main_ticker
                         (String "032" (String "032" "msft")
                          ++ String "032" (String "010" ""))
                         eq_refl))
           "  " "msft" (String "032" (String "010" "")));
    [reflexivity|reflexivity|reflexivity|split; reflexivity].
Defined.

(** ** Number formats of [fetch_statistics] and [fetch_company_summary] *)

Lemma Qle_bool_false x y : Qle_bool x y = false <-> (y < x)%Q.
Proof.
  split.
  - intros H. apply Qnot_le_lt. intros Hle.
    apply Qle_bool_iff in Hle. congruence.
  - intros H. destruct (Qle_bool x y) eqn:E; [|reflexivity].
    apply Qle_bool_iff in E. exfalso. exact (Qlt_not_le _ _ H E).
Qed.

Lemma Qlt_bool_iff x y : Qlt_bool x y = true <-> (x < y)%Q.
Proof.
  unfold Qlt_bool. rewrite negb_true_iff. apply Qle_bool_false.
Qed.

Lemma mem_In k l : mem k l = true <-> In k l.
Proof.
  unfold mem. rewrite existsb_exists. split.
  - intros [x [Hin Heq]]. apply String.eqb_eq in Heq. subst. exact Hin.
  - intros Hin. exists k. split; [exact Hin | apply String.eqb_refl].
Qed.

(** Rounding to the nearest integer keeps a number on its side of an integer. *)
Lemma round_half_even_lower (m : Z) (x : Q) :
  (inject_Z m <= x)%Q -> (m <= PyNum.round_half_even x)%Z.
Proof.
  unfold Qle, PyNum.round_half_even. destruct x as [n d]. simpl.
  intros H.
  assert (Hf : (m <= n / Z.pos d)%Z) by (apply Z.div_le_lower_bound; lia).
  destruct (2 * (n mod Z.pos d) <? Z.pos d)%Z; [exact Hf|].
  destruct (Z.pos d <? 2 * (n mod Z.pos d))%Z; [lia|].
  destruct (Z.even (n / Z.pos d)%Z); lia.
Qed.

Lemma round_half_even_upper (m : Z) (x : Q) :
  (x <= inject_Z m)%Q -> (PyNum.round_half_even x <= m)%Z.
Proof.
  unfold Qle, PyNum.round_half_even. destruct x as [n d]. simpl.
  intros H.
  pose proof (Z.div_mod n (Z.pos d) ltac:(lia)) as Hdm.
  pose proof (Z.mod_pos_bound n (Z.pos d) ltac:(lia)) as Hmod.
  assert (Hf : (n / Z.pos d <= m)%Z).
  { apply Z.div_le_upper_bound; lia. }
  destruct (Z.eq_dec (n / Z.pos d)%Z m) as [E|E].
  - assert (n mod Z.pos d = 0)%Z by nia.
    replace (2 * (n mod Z.pos d) <? Z.pos d)%Z with true
      by (symmetry; apply Z.ltb_lt; lia).
    lia.
  - destruct (2 * (n mod Z.pos d) <? Z.pos d)%Z; [lia|].
    destruct (Z.pos d <? 2 * (n mod Z.pos d))%Z; [lia|].
    destruct (Z.even (n / Z.pos d)%Z); lia.
Qed.

(** The rounding to the nearest integer is within one half of the number. *)
Lemma round_half_even_near (x : Q) :
  (Qabs (inject_Z (PyNum.round_half_even x) - x) <= 1 # 2)%Q.
Proof.
  apply Qabs_Qle_condition.
  unfold PyNum.round_half_even. destruct x as [n d].
  cbn [Qnum Qden].
  pose proof (Z.div_mod n (Z.pos d) ltac:(lia)) as Hdm.
  pose proof (Z.mod_pos_bound n (Z.pos d) ltac:(lia)) as Hmod.
  destruct (2 * (n mod Z.pos d) <? Z.pos d)%Z eqn:E1;
    [apply Z.ltb_lt in E1|apply Z.ltb_ge in E1].
  - unfold Qle, Qminus, Qplus, Qopp, inject_Z. cbn [Qnum Qden]. split; nia.
  - assert (Hup : (- (1 # 2) <= inject_Z (n / Z.pos d + 1) - (n # d))%Q
                  /\ (inject_Z (n / Z.pos d + 1) - (n # d) <= 1 # 2)%Q).
    { unfold Qle, Qminus, Qplus, Qopp, inject_Z. cbn [Qnum Qden]. split; nia. }
    destruct (Z.pos d <? 2 * (n mod Z.pos d))%Z eqn:E2; [exact Hup|].
    apply Z.ltb_ge in E2.
    destruct (Z.even (n / Z.pos d)); [|exact Hup].
    unfold Qle, Qminus, Qplus, Qopp, inject_Z. cbn [Qnum Qden]. split; nia.
Qed.

Lemma round_half_even_nonneg (x : Q) :
  (0 <= x)%Q -> (0 <= PyNum.round_half_even x)%Z.
Proof. intros H. apply (round_half_even_lower 0). exact H. Qed.

(** The two decimals of a format: the digits are those of the hundredths
    nearest to the number. *)
Lemma fmt_2f_digits (x : Q) :
  exists c : Z,
    (0 <= c)%Z
    /\ PyNum.fmt_2f x
       = PyNum.sign_of x ++ PyStr.of_Z (c / 100) ++ "."
         ++ PyStr.pad2 (c mod 100)
    /\ (Qabs (inject_Z c - Qabs x * 100) <= 1 # 2)%Q.
Proof.
  exists (PyNum.scaled 2 x). split; [|split].
  - apply round_half_even_nonneg.
    apply Qmult_le_0_compat; [apply Qabs_nonneg|discriminate].
  - reflexivity.
  - apply round_half_even_near.
Qed.

(** ** Rounding to the nearest float keeps the order *)

Lemma pow2_pos e : (0 < PyNum.pow2 e)%Q.
Proof.
  unfold PyNum.pow2. destruct (0 <=? e)%Z eqn:E.
  - apply Z.leb_le in E. unfold Qlt. simpl.
    pose proof (Z.pow_pos_nonneg 2 e ltac:(lia) E). lia.
  - reflexivity.
Qed.

Lemma pow2_succ e : (PyNum.pow2 (e + 1) == 2 * PyNum.pow2 e)%Q.
Proof.
  unfold PyNum.pow2.
  destruct (0 <=? e)%Z eqn:E; [apply Z.leb_le in E|apply Z.leb_gt in E].
  - replace (0 <=? e + 1)%Z with true by (symmetry; apply Z.leb_le; lia).
    rewrite Z.pow_add_r by lia. unfold Qeq. simpl. lia.
  - destruct (0 <=? e + 1)%Z eqn:E1;
      [apply Z.leb_le in E1|apply Z.leb_gt in E1].
    + assert (e = -1)%Z as -> by lia. reflexivity.
    + replace (- e)%Z with (- (e + 1) + 1)%Z by lia.
      rewrite Z.pow_add_r by lia.
      pose proof (Z.pow_pos_nonneg 2 (- (e + 1)) ltac:(lia) ltac:(lia)) as Hp.
      unfold Qeq. simpl.
      rewrite !Z2Pos.id by lia. lia.
Qed.

Lemma pow2_add e k :
  (0 <= k)%Z -> (PyNum.pow2 (e + k) == inject_Z (2 ^ k) * PyNum.pow2 e)%Q.
Proof.
  intros Hk. revert e. pattern k. apply natlike_ind; [| |exact Hk].
  - intros e. rewrite Z.add_0_r. change (inject_Z (2 ^ 0)) with 1%Q. ring.
  - intros j Hj IH e. replace (e + Z.succ j)%Z with ((e + j) + 1)%Z by lia.
    rewrite pow2_succ, IH. rewrite Z.pow_succ_r by exact Hj.
    rewrite inject_Z_mult. ring.
Qed.

Lemma pow2_le a b : (a <= b)%Z -> (PyNum.pow2 a <= PyNum.pow2 b)%Q.
Proof.
  intros H. replace b with (a + (b - a))%Z by lia.
  rewrite pow2_add by lia.
  rewrite <- (Qmult_1_l (PyNum.pow2 a)) at 1.
  apply Qmult_le_compat_r; [|apply Qlt_le_weak, pow2_pos].
  pose proof (Z.pow_pos_nonneg 2 (b - a) ltac:(lia) ltac:(lia)).
  unfold Qle. simpl. lia.
Qed.

(** A fraction against a power of two, without division. *)
Lemma pow2_le_frac b n d :
  (0 <= n)%Z ->
  (PyNum.pow2 b <= n # d)%Q
  <-> (if (0 <=? b)%Z then 2 ^ b * Z.pos d <= n
       else Z.pos d <= n * 2 ^ (- b))%Z.
Proof.
  intros Hn. unfold PyNum.pow2.
  destruct (0 <=? b)%Z eqn:E; [apply Z.leb_le in E|apply Z.leb_gt in E].
  - unfold Qle. simpl. lia.
  - pose proof (Z.pow_pos_nonneg 2 (- b) ltac:(lia) ltac:(lia)) as Hp.
    unfold Qle. simpl. rewrite Z2Pos.id by lia. lia.
Qed.

Lemma frac_lt_pow2 b n d :
  (0 <= n)%Z ->
  (n # d < PyNum.pow2 b)%Q
  <-> (if (0 <=? b)%Z then n < 2 ^ b * Z.pos d
       else n * 2 ^ (- b) < Z.pos d)%Z.
Proof.
  intros Hn. unfold PyNum.pow2.
  destruct (0 <=? b)%Z eqn:E; [apply Z.leb_le in E|apply Z.leb_gt in E].
  - unfold Qlt. simpl. lia.
  - pose proof (Z.pow_pos_nonneg 2 (- b) ltac:(lia) ltac:(lia)) as Hp.
    unfold Qlt. simpl. rewrite Z2Pos.id by lia. lia.
Qed.

Lemma binade_spec (x : Q) :
  Qnum x <> 0%Z ->
  (PyNum.pow2 (PyNum.binade x) <= Qabs x)%Q
  /\ (Qabs x < PyNum.pow2 (PyNum.binade x + 1))%Q.
Proof.
  destruct x as [n0 d]. cbn [Qnum]. intros Hn0.
  change (Qabs (n0 # d)) with (Z.abs n0 # d).
  unfold PyNum.binade. cbn [Qnum Qden].
  set (n := Z.abs n0). assert (Hn : (0 < n)%Z) by (unfold n; lia).
  rewrite pow2_le_frac, frac_lt_pow2 by lia.
  pose proof (Z.log2_spec n Hn) as [Hn1 Hn2].
  pose proof (Z.log2_spec (Z.pos d) ltac:(lia)) as [Hd1 Hd2].
  pose proof (Z.log2_nonneg n) as Hln.
  pose proof (Z.log2_nonneg (Z.pos d)) as Hld.
  set (ln := Z.log2 n) in *. set (ld := Z.log2 (Z.pos d)) in *.
  rewrite Z.pow_succ_r in Hn2, Hd2 by lia.
  assert (Hpn : (0 < 2 ^ ln)%Z) by (apply Z.pow_pos_nonneg; lia).
  assert (Hpd : (0 < 2 ^ ld)%Z) by (apply Z.pow_pos_nonneg; lia).
  destruct (Z_le_gt_dec 0 (ln - ld)) as [Hk|Hk].
  - (* the numerator has at least as many bits *)
    rewrite (Z.max_l 0 (- (ln - ld))) by lia.
    rewrite (Z.max_r 0 (ln - ld)) by lia.
    assert (Hpk : (0 < 2 ^ (ln - ld))%Z) by (apply Z.pow_pos_nonneg; lia).
    assert (Hsplit : (2 ^ ln = 2 ^ (ln - ld) * 2 ^ ld)%Z).
    { rewrite <- Z.pow_add_r by lia. f_equal. lia. }
    rewrite Z.pow_0_r, Z.mul_1_r.
    destruct (n <? Z.pos d * 2 ^ (ln - ld))%Z eqn:Et;
      [apply Z.ltb_lt in Et|apply Z.ltb_ge in Et].
    + replace (ln - ld - 1 + 1)%Z with (ln - ld)%Z by lia.
      replace (0 <=? ln - ld)%Z with true by (symmetry; apply Z.leb_le; lia).
      split; [|lia].
      destruct (0 <=? ln - ld - 1)%Z eqn:E1;
        [apply Z.leb_le in E1|apply Z.leb_gt in E1].
      * assert (H2 : (2 ^ (ln - ld) = 2 * 2 ^ (ln - ld - 1))%Z).
        { rewrite <- Z.pow_succ_r by lia. f_equal. lia. }
        nia.
      * assert (ln - ld = 0)%Z as E0 by lia. rewrite E0 in *.
        change (- (0 - 1))%Z with 1%Z. rewrite Z.pow_1_r.
        rewrite Z.pow_0_r in Hsplit. lia.
    + replace (0 <=? ln - ld)%Z with true by (symmetry; apply Z.leb_le; lia).
      replace (0 <=? ln - ld + 1)%Z with true
        by (symmetry; apply Z.leb_le; lia).
      split; [lia|].
      rewrite Z.pow_add_r, Z.pow_1_r by lia. nia.
  - (* the denominator has more bits *)
    rewrite (Z.max_r 0 (- (ln - ld))) by lia.
    rewrite (Z.max_l 0 (ln - ld)) by lia.
    assert (Hpk : (0 < 2 ^ (- (ln - ld)))%Z) by (apply Z.pow_pos_nonneg; lia).
    assert (Hsplit : (2 ^ ld = 2 ^ (- (ln - ld)) * 2 ^ ln)%Z).
    { rewrite <- Z.pow_add_r by lia. f_equal. lia. }
    rewrite Z.pow_0_r, Z.mul_1_r.
    destruct (n * 2 ^ (- (ln - ld)) <? Z.pos d)%Z eqn:Et;
      [apply Z.ltb_lt in Et|apply Z.ltb_ge in Et].
    + replace (ln - ld - 1 + 1)%Z with (ln - ld)%Z by lia.
      replace (0 <=? ln - ld)%Z with false by (symmetry; apply Z.leb_gt; lia).
      replace (0 <=? ln - ld - 1)%Z with false
        by (symmetry; apply Z.leb_gt; lia).
      split; [|lia].
      replace (- (ln - ld - 1))%Z with (- (ln - ld) + 1)%Z by lia.
      rewrite Z.pow_add_r, Z.pow_1_r by lia. nia.
    + replace (0 <=? ln - ld)%Z with false by (symmetry; apply Z.leb_gt; lia).
      split; [lia|].
      destruct (0 <=? ln - ld + 1)%Z eqn:E1;
        [apply Z.leb_le in E1|apply Z.leb_gt in E1].
      * assert (ln - ld = -1)%Z as E0 by lia. rewrite E0 in *.
        change (-1 + 1)%Z with 0%Z. rewrite Z.pow_0_r.
        change (- -1)%Z with 1%Z in Hsplit. rewrite Z.pow_1_r in Hsplit. lia.
      * assert (H2 : (2 ^ (- (ln - ld)) = 2 * 2 ^ (- (ln - ld + 1)))%Z).
        { rewrite <- Z.pow_succ_r by lia. f_equal. lia. }
        nia.
Qed.

Lemma round_half_even_mono (x y : Q) :
  (x <= y)%Q -> (PyNum.round_half_even x <= PyNum.round_half_even y)%Z.
Proof.
  unfold Qle, PyNum.round_half_even.
  destruct x as [n1 d1], y as [n2 d2]. cbn [Qnum Qden]. intros H.
  pose proof (Z.div_mod n1 (Z.pos d1) ltac:(lia)) as E1.
  pose proof (Z.mod_pos_bound n1 (Z.pos d1) ltac:(lia)) as M1.
  pose proof (Z.div_mod n2 (Z.pos d2) ltac:(lia)) as E2.
  pose proof (Z.mod_pos_bound n2 (Z.pos d2) ltac:(lia)) as M2.
  set (f1 := (n1 / Z.pos d1)%Z) in *. set (r1 := (n1 mod Z.pos d1)%Z) in *.
  set (f2 := (n2 / Z.pos d2)%Z) in *. set (r2 := (n2 mod Z.pos d2)%Z) in *.
  assert (Hf : (f1 <= f2)%Z).
  { destruct (Z_le_gt_dec f1 f2) as [Hle|Hgt]; [exact Hle|exfalso].
    assert (H1 : (Z.pos d1 * (f2 + 1) <= n1)%Z) by nia.
    assert (H2 : (n2 < Z.pos d2 * (f2 + 1))%Z) by lia.
    assert (H3 : (Z.pos d1 * (f2 + 1) * Z.pos d2 <= n1 * Z.pos d2)%Z)
      by (apply Z.mul_le_mono_nonneg_r; lia).
    assert (H4 : (n2 * Z.pos d1 < Z.pos d2 * (f2 + 1) * Z.pos d1)%Z)
      by (apply Z.mul_lt_mono_pos_r; lia).
    lia. }
  destruct (Z.eq_dec f1 f2) as [Ef|Ef].
  - assert (Hr : (r1 * Z.pos d2 <= r2 * Z.pos d1)%Z) by nia.
    rewrite <- Ef.
    destruct (2 * r1 <? Z.pos d1)%Z eqn:A1;
      [apply Z.ltb_lt in A1|apply Z.ltb_ge in A1].
    + destruct (2 * r2 <? Z.pos d2)%Z; [lia|].
      destruct (Z.pos d2 <? 2 * r2)%Z; [lia|].
      destruct (Z.even f1); lia.
    + assert (B1 : (Z.pos d2 <= 2 * r2)%Z) by nia.
      replace (2 * r2 <? Z.pos d2)%Z with false
        by (symmetry; apply Z.ltb_ge; lia).
      destruct (Z.pos d1 <? 2 * r1)%Z eqn:A2;
        [apply Z.ltb_lt in A2|apply Z.ltb_ge in A2].
      * assert (B2 : (Z.pos d2 < 2 * r2)%Z) by nia.
        replace (Z.pos d2 <? 2 * r2)%Z with true
          by (symmetry; apply Z.ltb_lt; lia).
        lia.
      * destruct (Z.pos d2 <? 2 * r2)%Z; [destruct (Z.even f1); lia|lia].
  - destruct (2 * r1 <? Z.pos d1)%Z, (Z.pos d1 <? 2 * r1)%Z, (Z.even f1),
      (2 * r2 <? Z.pos d2)%Z, (Z.pos d2 <? 2 * r2)%Z, (Z.even f2); lia.
Qed.

(** The float of a positive number: a whole number of units of its last
    place. *)
Lemma fl_pos (x : Q) :
  (0 < x)%Q ->
  (PyNum.fl x
   == inject_Z (PyNum.round_half_even (x / PyNum.pow2 (PyNum.ulp_exp x)))
      * PyNum.pow2 (PyNum.ulp_exp x))%Q.
Proof.
  intros Hx. unfold PyNum.fl.
  assert (Hn : (0 < Qnum x)%Z) by (unfold Qlt in Hx; simpl in Hx; lia).
  replace (Qnum x =? 0)%Z with false by (symmetry; apply Z.eqb_neq; lia).
  cbv zeta. rewrite Qred_correct.
  assert (Hneg : PyNum.is_neg x = false).
  { unfold PyNum.is_neg. apply Z.ltb_ge. lia. }
  rewrite Hneg.
  assert (Habs : Qabs x = x).
  { destruct x as [n d]. unfold Qabs. cbn [Qnum] in Hn.
    rewrite Z.abs_eq by lia. reflexivity. }
  rewrite Habs. reflexivity.
Qed.

Lemma fl_zero (x : Q) : (x == 0)%Q -> PyNum.fl x = 0%Q.
Proof.
  intros Hx. unfold PyNum.fl.
  replace (Qnum x =? 0)%Z with true; [reflexivity|].
  symmetry. apply Z.eqb_eq. unfold Qeq in Hx. simpl in Hx. lia.
Qed.

Lemma fl_nonneg (x : Q) : (0 <= x)%Q -> (0 <= PyNum.fl x)%Q.
Proof.
  intros Hx. destruct (Qle_lt_or_eq _ _ Hx) as [Hpos|Hz].
  - rewrite (fl_pos x Hpos).
    apply Qmult_le_0_compat; [|apply Qlt_le_weak, pow2_pos].
    change 0%Q with (inject_Z 0). rewrite <- Zle_Qle.
    apply (round_half_even_lower 0).
    apply Qle_shift_div_l; [apply pow2_pos|].
    rewrite Qmult_0_l. exact Hx.
  - rewrite (fl_zero x (Qeq_sym _ _ Hz)). apply Qle_refl.
Qed.

Lemma ulp_exp_mono (x y : Q) :
  (0 < x)%Q -> (x <= y)%Q -> (PyNum.ulp_exp x <= PyNum.ulp_exp y)%Z.
Proof.
  intros Hx Hxy.
  assert (Hy : (0 < y)%Q) by (eapply Qlt_le_trans; eassumption).
  assert (Hnx : Qnum x <> 0%Z) by (unfold Qlt in Hx; simpl in Hx; lia).
  assert (Hny : Qnum y <> 0%Z) by (unfold Qlt in Hy; simpl in Hy; lia).
  destruct (binade_spec x Hnx) as [Hx1 _].
  destruct (binade_spec y Hny) as [_ Hy2].
  rewrite (Qabs_pos x) in Hx1 by (apply Qlt_le_weak; exact Hx).
  rewrite (Qabs_pos y) in Hy2 by (apply Qlt_le_weak; exact Hy).
  assert (Hb : (PyNum.binade x <= PyNum.binade y)%Z).
  { destruct (Z_le_gt_dec (PyNum.binade x) (PyNum.binade y)) as [H|H];
      [exact H|exfalso].
    assert (Hp : (PyNum.pow2 (PyNum.binade y + 1)
                  <= PyNum.pow2 (PyNum.binade x))%Q)
      by (apply pow2_le; lia).
    apply (Qlt_irrefl x).
    eapply Qle_lt_trans; [exact Hxy|].
    eapply Qlt_le_trans; [exact Hy2|].
    eapply Qle_trans; [exact Hp|exact Hx1]. }
  unfold PyNum.ulp_exp. lia.
Qed.

(** Rounding to the nearest float keeps the order of numbers that are not
    negative. *)
Lemma fl_mono (x y : Q) :
  (0 <= x)%Q -> (x <= y)%Q -> (PyNum.fl x <= PyNum.fl y)%Q.
Proof.
  intros Hx0 Hxy.
  assert (Hy0 : (0 <= y)%Q) by (eapply Qle_trans; eassumption).
  destruct (Qle_lt_or_eq _ _ Hx0) as [Hx|Hz].
  2:{ rewrite (fl_zero x (Qeq_sym _ _ Hz)). apply fl_nonneg. exact Hy0. }
  assert (Hy : (0 < y)%Q) by (eapply Qlt_le_trans; eassumption).
  rewrite (fl_pos x Hx), (fl_pos y Hy).
  pose proof (ulp_exp_mono x y Hx Hxy) as He.
  set (ex := PyNum.ulp_exp x) in *. set (ey := PyNum.ulp_exp y) in *.
  destruct (Z.eq_dec ex ey) as [E|E].
  - rewrite <- E.
    apply Qmult_le_compat_r; [|apply Qlt_le_weak, pow2_pos].
    rewrite <- Zle_Qle. apply round_half_even_mono.
    apply Qmult_le_compat_r; [exact Hxy|].
    apply Qlt_le_weak, Qinv_lt_0_compat, pow2_pos.
  - (* the last place of [y] is coarser *)
    assert (Hnx : Qnum x <> 0%Z) by (unfold Qlt in Hx; simpl in Hx; lia).
    assert (Hny : Qnum y <> 0%Z) by (unfold Qlt in Hy; simpl in Hy; lia).
    destruct (binade_spec x Hnx) as [_ Hx2].
    destruct (binade_spec y Hny) as [Hy1 _].
    rewrite (Qabs_pos x) in Hx2 by exact Hx0.
    rewrite (Qabs_pos y) in Hy1 by exact Hy0.
    assert (Hbx : (PyNum.binade x + 1 <= ex + 53)%Z)
      by (unfold ex, PyNum.ulp_exp; lia).
    assert (Hby : (PyNum.binade y = ey + 52)%Z)
      by (unfold ex, ey, PyNum.ulp_exp in *; lia).
    assert (Hmx : (PyNum.round_half_even (x / PyNum.pow2 ex) <= 2 ^ 53)%Z).
    { apply round_half_even_upper.
      apply Qle_shift_div_r; [apply pow2_pos|].
      rewrite <- pow2_add by lia.
      apply Qlt_le_weak. eapply Qlt_le_trans; [exact Hx2|].
      apply pow2_le. lia. }
    assert (Hmy : (2 ^ 52 <= PyNum.round_half_even (y / PyNum.pow2 ey))%Z).
    { apply round_half_even_lower.
      apply Qle_shift_div_l; [apply pow2_pos|].
      rewrite <- pow2_add by lia. rewrite <- Hby. exact Hy1. }
    apply Qle_trans with (inject_Z (2 ^ 53) * PyNum.pow2 ex)%Q.
    { apply Qmult_le_compat_r; [|apply Qlt_le_weak, pow2_pos].
      rewrite <- Zle_Qle. exact Hmx. }
    apply Qle_trans with (inject_Z (2 ^ 52) * PyNum.pow2 ey)%Q.
    { rewrite <- !pow2_add by lia. apply pow2_le. lia. }
    apply Qmult_le_compat_r; [|apply Qlt_le_weak, pow2_pos].
    rewrite <- Zle_Qle. exact Hmy.
Qed.

(** C9: a percent-like field of [fetch_statistics] whose absolute value is
    below 1 is multiplied by 100 before the percent sign is appended, unless
    the field is payoutRatio; otherwise the sign is appended without scaling.
    The number is printed with the two decimals nearest to it.  A dividend
    yield of 0.07 renders as 7.00%, one of 0.00015 as 0.01%, a payout ratio
    of 0.35 as 0.35%, a return of 1.5 as 1.50%. *)
Theorem C9_percent_format (tz : Z) (key : string) (v : Q)
  (Hkey : mem key Statistics.percent_keys = true) :
  ((Qabs v < 1)%Q -> key <> "payoutRatio" ->
     Statistics.format_value tz key (PyNum v)
     = Returned (PyStr (PyNum.fmt_2f (PyNum.fl (v * 100)) ++ "%")))
  /\ ((1 <= Qabs v)%Q \/ key = "payoutRatio" -> PyNum.finite v = true ->
     Statistics.format_value tz key (PyNum v)
     = Returned (PyStr (PyNum.fmt_2f (PyNum.fl v) ++ "%")))
  /\ (forall x : Q, exists c : Z,
        (0 <= c)%Z
        /\ PyNum.fmt_2f x
           = PyNum.sign_of x ++ PyStr.of_Z (c / 100) ++ "."
             ++ PyStr.pad2 (c mod 100)
        /\ (Qabs (inject_Z c - Qabs x * 100) <= 1 # 2)%Q)
  /\ Statistics.format_value tz "dividendYield" (PyNum (PyNum.fl 0.07))
     = Returned (PyStr "7.00%")
  /\ Statistics.format_value tz "dividendYield" (PyNum (PyNum.fl 0.00015))
     = Returned (PyStr "0.01%")
  /\ Statistics.format_value tz "revenueGrowth" (PyNum (PyNum.fl 0.00125))
     = Returned (PyStr "0.12%")
  /\ Statistics.format_value tz "profitMargins" (PyNum (- 0.25))
     = Returned (PyStr "-25.00%")
  /\ Statistics.format_value tz "payoutRatio" (PyNum (PyNum.fl 0.35))
     = Returned (PyStr "0.35%")
  /\ Statistics.format_value tz "returnOnEquity" (PyNum 1.5)
     = Returned (PyStr "1.50%")
  /\ Statistics.format_value tz "dividendYield" (PyNum 5)
     = Returned (PyStr "5.00%").
Proof.
  assert (Hfmt : Statistics.format_value tz key (PyNum v)
                 = Statistics.returned_text (Statistics.format_percent key v)).
  { apply mem_In in Hkey. simpl in Hkey.
    repeat (destruct Hkey as [<- | Hkey]; [reflexivity|]). destruct Hkey. }
  split; [|split; [|split; [exact fmt_2f_digits|]]].
  - intros Hlt Hne. rewrite Hfmt. unfold Statistics.format_percent.
    apply Qlt_bool_iff in Hlt. rewrite Hlt.
    apply String.eqb_neq in Hne. rewrite Hne. reflexivity.
  - intros H Hfin. rewrite Hfmt.
    unfold Statistics.format_percent, Statistics.format_2f, PyNum.to_float.
    rewrite Hfin.
    destruct H as [Hge | ->].
    + assert (E : Qlt_bool (Qabs v) 1 = false).
      { unfold Qlt_bool. apply negb_false_iff. apply Qle_bool_iff. exact Hge. }
      rewrite E. reflexivity.
    + rewrite andb_false_r. reflexivity.
  - repeat split; vm_compute; reflexivity.
Qed.

Lemma C9_percent_format_witness :
  Statistics.format_value 0 "dividendYield" (PyNum (PyNum.fl 0.07))
  = Returned (PyStr "7.00%")
  /\ Statistics.format_value 0 "payoutRatio" (PyNum (PyNum.fl 0.07))
     = Returned (PyStr "0.07%")
  /\ Statistics.format_value 0 "dividendYield" (PyNum 7)
     = Returned (PyStr "7.00%").
Proof.
  split; [|split].
  - rewrite (proj1 (C9_percent_format 0 "dividendYield" (PyNum.fl 0.07)
                      eq_refl));
      [vm_compute; reflexivity|vm_compute; reflexivity|discriminate].
  - rewrite (proj1 (proj2 (C9_percent_format 0 "payoutRatio" (PyNum.fl 0.07)
                             eq_refl)));
      [vm_compute; reflexivity|right; reflexivity|vm_compute; reflexivity].
  - rewrite (proj1 (proj2 (C9_percent_format 0 "dividendYield" 7 eq_refl)));
      [vm_compute; reflexivity|left; vm_compute; discriminate
      |vm_compute; reflexivity].
Defined.

(** C8, as the claim states it, fails: [fetch_statistics] prints 10^12 with
    the suffix B and prefixes the dollar sign, and [fetch_company_summary]
    prints 2,500,000,000 as 2.5B and 999 as 999. *)
Lemma C8_counterexample :
  (exists text,
     Statistics.format_money (inject_Z (10 ^ 12)) = Returned text
     /\ PyStr.endswith text "T" = false)
  /\ Statistics.format_money (inject_Z (10 ^ 12)) = Returned "$1000.00B"
  /\ Statistics.format_money 2500000000 <> Returned "2.50B"
  /\ Statistics.format_money 999 <> Returned "999.00"
  /\ Summary.market_cap_cell 2500000000 <> Returned "2.50B"
  /\ Summary.market_cap_cell 999 <> Returned "999.00".
Proof.
  split; [exists "$1000.00B"; split; vm_compute; reflexivity|].
  repeat split; (reflexivity || (vm_compute; discriminate)).
Qed.

(** C8 (amended): [fetch_statistics] renders a dollar metric with the dollar
    sign and two decimals, with the suffix B from 10^9 upwards (there is no T
    tier), M from 10^6, and with thousands separators below; 2,500,000,000
    renders as $2.50B, 1,015,000,000 as $1.01B and 999 as $999.00.
    [fetch_company_summary] renders a market capitalisation with the suffix T
    from 10^12, B from 10^9 and M from 10^6, the float quotient rounded to
    three decimals and printed as a float is, and a smaller one as a grouped
    integer; 2,500,000,000 renders as 2.5B, 2,000,500,000 as 2.001B, 10^12
    as 1.0T, 10^28 as 1e+16T and 999 as 999. *)
Theorem C8_magnitude_format (v : Q) :
  ((PyNum.e9 <= Qabs v)%Q -> PyNum.finite (v / PyNum.e9) = true ->
     Statistics.format_money v
     = Returned ("$" ++ PyNum.fmt_2f (PyNum.fl (v / PyNum.e9)) ++ "B"))
  /\ ((PyNum.e6 <= Qabs v)%Q -> (Qabs v < PyNum.e9)%Q ->
     Statistics.format_money v
     = Returned ("$" ++ PyNum.fmt_2f (PyNum.fl (v / PyNum.e6)) ++ "M"))
  /\ ((Qabs v < PyNum.e6)%Q ->
     Statistics.format_money v
     = Returned ("$" ++ PyNum.fmt_comma_2f (PyNum.fl v)))
  /\ ((PyNum.e12 <= v)%Q -> PyNum.finite v = true ->
     Summary.market_cap_cell v
     = Returned (PyNum.repr
                   (PyNum.round_float 3 (PyNum.fl (PyNum.fl v / PyNum.e12)))
                 ++ "T"))
  /\ ((PyNum.e9 <= v)%Q -> (v < PyNum.e12)%Q -> PyNum.finite v = true ->
     Summary.market_cap_cell v
     = Returned (PyNum.repr
                   (PyNum.round_float 3 (PyNum.fl (PyNum.fl v / PyNum.e9)))
                 ++ "B"))
  /\ ((PyNum.e6 <= v)%Q -> (v < PyNum.e9)%Q -> PyNum.finite v = true ->
     Summary.market_cap_cell v
     = Returned (PyNum.repr
                   (PyNum.round_float 3 (PyNum.fl (PyNum.fl v / PyNum.e6)))
                 ++ "M"))
  /\ ((v < PyNum.e6)%Q ->
     Summary.market_cap_cell v
     = Returned (PyNum.fmt_comma_int (PyNum.to_int v)))
  /\ Statistics.format_value 0 "marketCap" (PyNum 2500000000)
     = Returned (PyStr "$2.50B")
  /\ Statistics.format_value 0 "marketCap" (PyNum 1015000000)
     = Returned (PyStr "$1.01B")
  /\ Statistics.format_value 0 "ebitda" (PyNum (- 2500000000))
     = Returned (PyStr "$-2.50B")
  /\ Statistics.format_value 0 "totalCash" (PyNum (PyNum.fl 1234567.891))
     = Returned (PyStr "$1.23M")
  /\ Statistics.format_value 0 "totalDebt" (PyNum (PyNum.fl 999999.995))
     = Returned (PyStr "$999,999.99")
  /\ Statistics.format_value 0 "totalRevenue" (PyNum 999)
     = Returned (PyStr "$999.00")
  /\ Summary.market_cap_cell 2500000000 = Returned "2.5B"
  /\ Summary.market_cap_cell 2000500000 = Returned "2.001B"
  /\ Summary.market_cap_cell 999999999999 = Returned "1000.0B"
  /\ Summary.market_cap_cell (inject_Z (10 ^ 12)) = Returned "1.0T"
  /\ Summary.market_cap_cell (inject_Z (10 ^ 28)) = Returned "1e+16T"
  /\ Summary.market_cap_cell 1234567 = Returned "1.235M"
  /\ Summary.market_cap_cell (PyNum.fl 999999.9) = Returned "999,999"
  /\ Summary.market_cap_cell 999 = Returned "999".
Proof.
  repeat match goal with |- _ /\ _ => split end.
  8-21: (vm_compute; reflexivity).
  all: unfold Statistics.format_money, Summary.market_cap_cell,
         Summary.scaled_cell, PyNum.to_float.
  - intros H Hfin. apply Qle_bool_iff in H. rewrite H, Hfin. reflexivity.
  - intros H6 H9. apply Qle_bool_false in H9. apply Qle_bool_iff in H6.
    rewrite H9, H6. reflexivity.
  - intros H6.
    assert (H9 : (Qabs v < PyNum.e9)%Q).
    { eapply Qlt_trans; [exact H6 | reflexivity]. }
    apply Qle_bool_false in H9, H6. rewrite H9, H6. reflexivity.
  - intros H Hfin. apply Qle_bool_iff in H. rewrite H, Hfin. reflexivity.
  - intros H9 H12 Hfin. apply Qle_bool_false in H12. apply Qle_bool_iff in H9.
    rewrite H12, H9, Hfin. reflexivity.
  - intros H6 H9 Hfin.
    assert (H12 : (v < PyNum.e12)%Q).
    { eapply Qlt_trans; [exact H9 | reflexivity]. }
    apply Qle_bool_false in H12, H9. apply Qle_bool_iff in H6.
    rewrite H12, H9, H6, Hfin. reflexivity.
  - intros H6.
    assert (H9 : (v < PyNum.e9)%Q).
    { eapply Qlt_trans; [exact H6 | reflexivity]. }
    assert (H12 : (v < PyNum.e12)%Q).
    { eapply Qlt_trans; [exact H9 | reflexivity]. }
    apply Qle_bool_false in H12, H9, H6. rewrite H12, H9, H6. reflexivity.
Qed.

Lemma C8_magnitude_format_witness :
  Statistics.format_money 1015000000 = Returned "$1.01B"
  /\ Summary.market_cap_cell 2000500000 = Returned "2.001B".
Proof.
  destruct (C8_magnitude_format 1015000000) as (H1 & _).
  destruct (C8_magnitude_format 2000500000) as (_ & _ & _ & _ & H5 & _).
  split.
  - rewrite H1; vm_compute; (reflexivity || discriminate).
  - rewrite H5; vm_compute; (reflexivity || discriminate).
Defined.

(** ** The records of [fetch_esg_data] *)








(** ** Sorting: length, content and order *)



Lemma insert_by_perm {A} (lt : A -> A -> bool) x l :
  Permutation (x :: l) (PySort.insert_by lt x l).
Proof.
  induction l as [|y l IH]; simpl; [reflexivity|].
  destruct (lt x y); [|reflexivity].
  rewrite Permutation_swap. constructor. exact IH.
Qed.

Lemma sort_by_perm {A} (lt : A -> A -> bool) l :
  Permutation l (PySort.sort_by lt l).
Proof.
  induction l as [|x l IH]; simpl; [reflexivity|].
  rewrite <- insert_by_perm. constructor. exact IH.
Qed.

(** ** Statement tables: the width of the rows *)

















Definition sample_period (ts : Z) (revenue : string)
  : gmap string Statements.fin_value :=
  <["endDate" := Statements.mkValue (Some ts) None]>
    (<["totalRevenue" := Statements.mkValue None (Some revenue)]> ∅).



(** C7: the period headers of a statement taken from the embedded JSON are
    not sorted by the underlying instant: the formatted dd-mm-yyyy strings are
    sorted as text, while the values of each row are sorted by instant.  On
    four fiscal year ends (30-09-2023, 24-09-2022, 25-09-2021, 26-09-2020) the
    header is not newest first, and the values stand under the wrong
    dates. *)
Theorem C7_statement_headers_sorted_as_text :
  let history :=
    [ sample_period 1696032000 "383.29B"; sample_period 1663977600 "394.33B";
      sample_period 1632528000 "365.82B"; sample_period 1601078400 "274.52B" ] in
  option_map (take 2) (Statements._process_json_income_data 0 history)
  = Some [ ["Breakdown"; "30-09-2023"; "26-09-2020"; "25-09-2021"; "24-09-2022"];
           ["Revenue"; "383.29B"; "394.33B"; "365.82B"; "274.52B"] ]
  /\ map (fun p => Calendar.strftime_dmy
                     (Calendar.date_of_instant (Statements.period_key p)))
       (PySort.sort_desc Statements.period_key history)
     = ["30-09-2023"; "24-09-2022"; "25-09-2021"; "26-09-2020"].
Proof. split; vm_compute; reflexivity. Qed.

(** ** Calendar dates: the formatted date determines the day *)

Definition doe_of_civil (yoe m d : Z) : Z :=
  let mp := if (2 <? m)%Z then (m - 3)%Z else (m + 9)%Z in
  let doy := ((153 * mp + 2) / 5 + d - 1)%Z in
  (yoe * 365 + yoe / 4 - yoe / 100 + doy)%Z.

Definition doe_ok (doe : Z) : bool :=
  let '(yoe, m, d) := Calendar.civil_of_doe doe in
  ((0 <=? yoe) && (yoe <? 400) && (1 <=? m) && (m <=? 12) && (1 <=? d)
   && (d <=? 31) && (doe_of_civil yoe m d =? doe))%Z.

Fixpoint all_from (p : Z -> bool) (n : nat) (z : Z) : bool :=
  match n with
  | O => true
  | S k => p z && all_from p k (z + 1)%Z
  end.

Lemma all_from_spec p n : forall z0,
  all_from p n z0 = true ->
  forall z, (z0 <= z < z0 + Z.of_nat n)%Z -> p z = true.
Proof.
  induction n as [|k IH]; intros z0 H z Hz; [lia|].
  cbn [all_from] in H. apply andb_prop in H. destruct H as [Hk Hrest].
  destruct (Z.eq_dec z z0) as [->|Hne]; [exact Hk|].
  apply (IH (z0 + 1)%Z Hrest). lia.
Qed.

(** The days of one cycle of 400 years, checked one by one. *)
Lemma doe_ok_all : all_from doe_ok (Z.to_nat 146097) 0 = true.
Proof. vm_compute. reflexivity. Qed.

Lemma civil_of_doe_ok doe :
  (0 <= doe < 146097)%Z ->
  let '(yoe, m, d) := Calendar.civil_of_doe doe in
  (0 <= yoe < 400 /\ 1 <= m <= 12 /\ 1 <= d <= 31)%Z
  /\ doe_of_civil yoe m d = doe.
Proof.
  intros H.
  assert (Hok : doe_ok doe = true).
  { apply (all_from_spec doe_ok (Z.to_nat 146097) 0 doe_ok_all).
    rewrite Z2Nat.id; lia. }
  unfold doe_ok in Hok.
  destruct (Calendar.civil_of_doe doe) as [[yoe m] d].
  repeat (apply andb_prop in Hok; destruct Hok as [Hok ?]).
  repeat match goal with
         | H : (_ <=? _)%Z = true |- _ => apply Z.leb_le in H
         | H : (_ <? _)%Z = true |- _ => apply Z.ltb_lt in H
         | H : (_ =? _)%Z = true |- _ => apply Z.eqb_eq in H
         end.
  repeat split; lia.
Qed.

Lemma civil_from_days_valid days :
  (1 <= Calendar.month (Calendar.civil_from_days days) <= 12
   /\ 1 <= Calendar.day (Calendar.civil_from_days days) <= 31)%Z.
Proof.
  unfold Calendar.civil_from_days.
  pose proof (civil_of_doe_ok ((days + 719468) mod 146097)
                (Z.mod_pos_bound _ 146097 eq_refl)) as H.
  destruct (Calendar.civil_of_doe ((days + 719468) mod 146097)) as [[yoe m] d].
  simpl. lia.
Qed.

Lemma civil_from_days_inj a b :
  Calendar.civil_from_days a = Calendar.civil_from_days b -> a = b.
Proof.
  unfold Calendar.civil_from_days.
  pose proof (civil_of_doe_ok ((a + 719468) mod 146097)
                (Z.mod_pos_bound _ 146097 eq_refl)) as Ha.
  pose proof (civil_of_doe_ok ((b + 719468) mod 146097)
                (Z.mod_pos_bound _ 146097 eq_refl)) as Hb.
  pose proof (Z.div_mod (a + 719468) 146097 ltac:(lia)) as Da.
  pose proof (Z.div_mod (b + 719468) 146097 ltac:(lia)) as Db.
  destruct (Calendar.civil_of_doe ((a + 719468) mod 146097)) as [[ya ma] da].
  destruct (Calendar.civil_of_doe ((b + 719468) mod 146097)) as [[yb mb] db].
  destruct Ha as [(Hya & Hma & Hda) Ea], Hb as [(Hyb & Hmb & Hdb) Eb].
  intros H. injection H as Hy Hm Hd. subst mb db.
  assert (Hyy : (ya + (a + 719468) / 146097 * 400
                 = yb + (b + 719468) / 146097 * 400)%Z).
  { destruct (ma <=? 2)%Z; lia. }
  assert (ya = yb /\ ((a + 719468) / 146097 = (b + 719468) / 146097)%Z)
    as [-> Hera] by lia.
  rewrite Ea in Eb. lia.
Qed.

Definition two_digits (s : string) : option (Z * string) :=
  match s with
  | String a (String b rest) =>
      Some ((10 * Statements.digit_value a + Statements.digit_value b)%Z, rest)
  | _ => None
  end.

Definition pad2_ok (z : Z) : bool :=
  match two_digits (PyStr.pad2 z) with
  | Some (v, EmptyString) => (v =? z)%Z
  | _ => false
  end.

Lemma pad2_ok_all : all_from pad2_ok 100 0 = true.
Proof. vm_compute. reflexivity. Qed.

Lemma pad2_decode z rest :
  (0 <= z <= 99)%Z -> two_digits (PyStr.pad2 z ++ rest) = Some (z, rest).
Proof.
  intros H.
  assert (Hok : pad2_ok z = true).
  { apply (all_from_spec pad2_ok 100 0 pad2_ok_all). lia. }
  unfold pad2_ok in Hok.
  destruct (PyStr.pad2 z) as [|a [|b [|c s]]]; try discriminate.
  simpl in Hok |- *. apply Z.eqb_eq in Hok. rewrite Hok. reflexivity.
Qed.

Lemma of_Z_inj y1 y2 : PyStr.of_Z y1 = PyStr.of_Z y2 -> y1 = y2.
Proof.
  unfold PyStr.of_Z. intros H.
  apply (f_equal NilZero.int_of_string) in H.
  rewrite !NilZero.isi in H.
  - injection H as H. apply DecimalZ.to_int_inj. exact H.
  - destruct y2; simpl; try discriminate.
    intros E. injection E as E.
    exact (DecimalPos.Unsigned.to_uint_nonnil _ E).
  - destruct y2; simpl; try discriminate.
    intros E. injection E as E.
    exact (DecimalPos.Unsigned.to_uint_nonnil _ E).
  - destruct y1; simpl; try discriminate.
    intros E. injection E as E.
    exact (DecimalPos.Unsigned.to_uint_nonnil _ E).
  - destruct y1; simpl; try discriminate.
    intros E. injection E as E.
    exact (DecimalPos.Unsigned.to_uint_nonnil _ E).
Qed.

Lemma strftime_dmy_inj d1 d2 :
  (1 <= Calendar.month d1 <= 12 /\ 1 <= Calendar.day d1 <= 31)%Z ->
  (1 <= Calendar.month d2 <= 12 /\ 1 <= Calendar.day d2 <= 31)%Z ->
  Calendar.strftime_dmy d1 = Calendar.strftime_dmy d2 -> d1 = d2.
Proof.
  destruct d1 as [y1 m1 dd1], d2 as [y2 m2 dd2].
  unfold Calendar.strftime_dmy. simpl. intros H1 H2 H.
  pose proof (f_equal two_digits H) as Hd.
  rewrite !pad2_decode in Hd by lia.
  injection Hd as Hday Hrest. subst dd2.
  change (PyStr.pad2 m1 ++ "-" ++ PyStr.of_Z y1
          = PyStr.pad2 m2 ++ "-" ++ PyStr.of_Z y2) in Hrest.
  pose proof (f_equal two_digits Hrest) as Hm.
  rewrite !pad2_decode in Hm by lia.
  injection Hm as Hmonth Hyear. subst m2.
  change (PyStr.of_Z y1 = PyStr.of_Z y2) in Hyear.
  apply of_Z_inj in Hyear. subst y2. reflexivity.
Qed.

(** Two instants have the same formatted date exactly when they fall on the
same day. *)
Lemma date_label_day t1 t2 :
  Historical.date_label t1 = Historical.date_label t2 ->
  Calendar.day_of_instant t1 = Calendar.day_of_instant t2.
Proof.
  unfold Historical.date_label, Calendar.date_of_instant. intros H.
  apply civil_from_days_inj.
  apply strftime_dmy_inj; [apply civil_from_days_valid ..|exact H].
Qed.

(** ** Sorting by instant: the order of the result *)

Definition desc_by {A} (key : A -> Z) : A -> A -> Prop :=
  fun a b => (key b <= key a)%Z.

Lemma insert_by_In {A} (lt : A -> A -> bool) x l y :
  In y (PySort.insert_by lt x l) <-> y = x \/ In y l.
Proof.
  induction l as [|z l IH]; simpl; [intuition congruence|].
  destruct (lt x z); simpl; rewrite ?IH; intuition congruence.
Qed.

Lemma insert_desc_sorted {A} (key : A -> Z) x l :
  StronglySorted (desc_by key) l ->
  StronglySorted (desc_by key)
    (PySort.insert_by (fun a b => (key a <? key b)%Z) x l).
Proof.
  induction 1 as [|y l Hs IH Hy]; simpl; [repeat constructor|].
  destruct (key x <? key y)%Z eqn:E.
  - apply Z.ltb_lt in E. constructor; [exact IH|].
    apply List.Forall_forall. intros z Hz. apply insert_by_In in Hz.
    destruct Hz as [->|Hz]; [unfold desc_by; lia|].
    rewrite List.Forall_forall in Hy. apply Hy, Hz.
  - apply Z.ltb_ge in E. constructor; [constructor; assumption|].
    constructor; [exact E|].
    rewrite List.Forall_forall in Hy |- *. intros z Hz.
    specialize (Hy z Hz). unfold desc_by in *. lia.
Qed.

Lemma sort_desc_sorted {A} (key : A -> Z) l :
  StronglySorted (desc_by key) (PySort.sort_desc key l).
Proof.
  unfold PySort.sort_desc, PySort.sort_by.
  induction l as [|x l IH]; simpl; [constructor|].
  apply insert_desc_sorted, IH.
Qed.

Lemma StronglySorted_map {A B} (f : A -> B) (R : B -> B -> Prop) (l : list A) :
  StronglySorted (fun a b => R (f a) (f b)) l -> StronglySorted R (map f l).
Proof.
  induction 1 as [|x l Hs IH Hx]; simpl; constructor; [exact IH|].
  rewrite List.Forall_forall in Hx |- *. intros y Hy.
  apply List.in_map_iff in Hy. destruct Hy as [z [<- Hz]]. apply Hx, Hz.
Qed.

Lemma NoDup_map_finer {A B C} (f : A -> B) (g : A -> C) (l : list A) :
  (forall x y, g x = g y -> f x = f y) ->
  List.NoDup (map f l) -> List.NoDup (map g l).
Proof.
  intros Hfg. induction l as [|x l IH]; simpl; intros H; [constructor|].
  apply List.NoDup_cons_iff in H. destruct H as [Hx Hl].
  apply List.NoDup_cons_iff. split; [|apply IH, Hl].
  intros Hin. apply Hx. apply List.in_map_iff in Hin.
  destruct Hin as [y [Hy Hyl]]. apply List.in_map_iff.
  exists y. split; [apply Hfg, Hy|exact Hyl].
Qed.

(** ** [fetch_historical_data]: the price history sheet *)

Lemma select_combine cols : forall values,
  length values = length cols ->
  combine (List.filter Historical.kept cols) (Historical.select cols values)
  = List.filter (fun cv => Historical.kept (fst cv)) (combine cols values).
Proof.
  unfold Historical.select.
  induction cols as [|c cols IH]; intros [|v values] Hlen; simpl in *;
    try reflexivity; try discriminate.
  destruct (Historical.kept c); simpl; rewrite IH by lia; reflexivity.
Qed.

Lemma select_length cols : forall values,
  length values = length cols ->
  length (Historical.select cols values)
  = length (List.filter Historical.kept cols).
Proof.
  unfold Historical.select.
  induction cols as [|c cols IH]; intros [|v values] Hlen; simpl in *;
    try reflexivity; try discriminate.
  destruct (Historical.kept c); simpl; rewrite IH by lia; reflexivity.
Qed.

Lemma kept_spec c :
  Historical.kept c = true
  <-> c <> "Dividends" /\ c <> "Stock Splits" /\ c <> "temp_date".
Proof.
  unfold Historical.kept, Historical.columns_to_drop, mem. simpl.
  rewrite andb_true_iff, !negb_true_iff, orb_false_r, orb_false_iff.
  rewrite !String.eqb_neq. tauto.
Qed.

Lemma written_perm (df : Historical.dataframe) :
  Permutation
    (map (fun r => (fst r, Historical.select (Historical.columns df) (snd r)))
       (Historical.rows df))
    (Historical.written df).
Proof. apply sort_by_perm. Qed.

Lemma sorted_distinct_days (l : list Z) :
  StronglySorted (fun a b => (b <= a)%Z) l ->
  List.NoDup (map Calendar.day_of_instant l) ->
  StronglySorted
    (fun a b => (Calendar.day_of_instant b < Calendar.day_of_instant a)%Z) l.
Proof.
  induction 1 as [|x l Hs IH Hx]; simpl; intros Hnd; [constructor|].
  apply List.NoDup_cons_iff in Hnd. destruct Hnd as [Hin Hnd].
  constructor; [apply IH, Hnd|].
  rewrite List.Forall_forall in Hx |- *. intros y Hy.
  specialize (Hx y Hy). simpl in Hx.
  assert (Calendar.day_of_instant y <> Calendar.day_of_instant x).
  { intros E. apply Hin. rewrite <- E. apply List.in_map, Hy. }
  assert (Calendar.day_of_instant y <= Calendar.day_of_instant x)%Z.
  { unfold Calendar.day_of_instant. apply Z.div_le_mono; lia. }
  lia.
Qed.

(** Two daily records and the two columns that are dropped. *)
Definition sample_history : Historical.dataframe :=
  Historical.mkDf ["Open"; "Close"; "Dividends"; "Stock Splits"]
    [ (1695945600%Z, [PyNum 170; PyNum 171; PyNum 0; PyNum 0]);
      (1696032000%Z, [PyNum 172; PyNum 171; PyNum 0.24; PyNum 0]) ].

(** X1: the price history sheet holds every record of the provider's frame
    exactly once, each reduced to the columns that are kept, in an order in
    which the instants never increase; the index of the sheet is the
    dd-mm-yyyy date of each record in that order.  (Nothing is said about the
    order of two records with the same instant.) *)
Theorem history_newest_first (df : Historical.dataframe) :
  Permutation
    (map (fun r => (fst r, Historical.select (Historical.columns df) (snd r)))
       (Historical.rows df))
    (Historical.written df)
  /\ StronglySorted (fun a b => (fst b <= fst a)%Z) (Historical.written df)
  /\ Excel.index (Historical.history_frame df)
     = map (fun r => PyStr (Historical.date_label (fst r)))
         (Historical.written df)
  /\ Excel.data (Historical.history_frame df)
     = map snd (Historical.written df).
Proof.
  split; [apply written_perm|]. split; [apply (sort_desc_sorted fst)|].
  split; [|reflexivity].
  unfold Historical.history_frame, Historical.written_dates. simpl.
  rewrite List.map_map. reflexivity.
Qed.

(** X2: the header of the price history sheet is the provider's list of
    columns without [Dividends], [Stock Splits] and the temporary column, in
    the provider's order; when every record of the provider has one value per
    column, every written record has one value per written column, and each
    value stands under the column it had in the provider's frame. *)
Theorem history_columns_aligned (df : Historical.dataframe)
  (Hrect : Forall (fun r => length (snd r) = length (Historical.columns df))
             (Historical.rows df)) :
  (forall c, In c (Excel.columns (Historical.history_frame df))
             <-> In c (Historical.columns df)
                 /\ c <> "Dividends" /\ c <> "Stock Splits"
                 /\ c <> "temp_date")
  /\ forall t values, In (t, values) (Historical.rows df) ->
       exists row,
         In (t, row) (Historical.written df)
         /\ combine (Excel.columns (Historical.history_frame df)) row
            = List.filter (fun cv => Historical.kept (fst cv))
                (combine (Historical.columns df) values)
         /\ length row = length (Excel.columns (Historical.history_frame df)).
Proof.
  split.
  - intros c. simpl. rewrite List.filter_In, kept_spec. tauto.
  - intros t values Hin.
    exists (Historical.select (Historical.columns df) values).
    rewrite List.Forall_forall in Hrect. pose proof (Hrect _ Hin) as Hlen.
    simpl in Hlen. split; [|split].
    + eapply Permutation_in; [apply written_perm|].
      apply List.in_map_iff. exists (t, values). split; [reflexivity|exact Hin].
    + simpl. apply select_combine, Hlen.
    + simpl. apply select_length, Hlen.
Qed.

Lemma history_columns_aligned_witness :
  Excel.columns (Historical.history_frame sample_history) = ["Open"; "Close"]
  /\ Excel.data (Historical.history_frame sample_history)
     = [ [PyNum 172; PyNum 171]; [PyNum 170; PyNum 171] ]
  /\ forall t values, In (t, values) (Historical.rows sample_history) ->
       exists row,
         In (t, row) (Historical.written sample_history)
         /\ combine (Excel.columns (Historical.history_frame sample_history)) row
            = List.filter (fun cv => Historical.kept (fst cv))
                (combine (Historical.columns sample_history) values)
         /\ length row
            = length (Excel.columns (Historical.history_frame sample_history)).
Proof.
  split; [reflexivity|]. split; [reflexivity|].
  apply (history_columns_aligned sample_history).
  repeat constructor.
Defined.

(** X3: two records of the price history carry the same dd-mm-yyyy date
    exactly when their instants fall on the same day: the date shown
    identifies the day, and two records of one day are written under the same
    date. *)
Theorem history_date_identifies_day (t1 t2 : Z) :
  Historical.date_label t1 = Historical.date_label t2
  <-> Calendar.day_of_instant t1 = Calendar.day_of_instant t2.
Proof.
  split; [apply date_label_day|].
  unfold Historical.date_label, Calendar.date_of_instant. intros ->.
  reflexivity.
Qed.

(** X4: when the records of the provider fall on pairwise different days, the
    dates of the price history sheet are pairwise different and the days
    strictly decrease down the sheet. *)
Theorem history_distinct_days (df : Historical.dataframe)
  (Hdays : List.NoDup
             (map (fun r => Calendar.day_of_instant (fst r))
                (Historical.rows df))) :
  List.NoDup (Historical.written_dates df)
  /\ StronglySorted
       (fun a b => (Calendar.day_of_instant b < Calendar.day_of_instant a)%Z)
       (map fst (Historical.written df)).
Proof.
  assert (Hp : Permutation (map fst (Historical.rows df))
                 (map fst (Historical.written df))).
  { rewrite <- (written_perm df), List.map_map. simpl. reflexivity. }
  assert (Hnd : List.NoDup (map Calendar.day_of_instant
                              (map fst (Historical.written df)))).
  { eapply Permutation_NoDup; [apply Permutation_map, Hp|].
    rewrite List.map_map. exact Hdays. }
  split.
  - unfold Historical.written_dates.
    rewrite List.map_map in Hnd.
    eapply NoDup_map_finer; [|exact Hnd].
    intros x y. apply date_label_day.
  - apply sorted_distinct_days; [|exact Hnd].
    apply StronglySorted_map. apply (sort_desc_sorted fst).
Qed.

Lemma history_distinct_days_witness :
  Historical.written_dates sample_history = ["30-09-2023"; "29-09-2023"]
  /\ List.NoDup (Historical.written_dates sample_history)
  /\ StronglySorted
       (fun a b => (Calendar.day_of_instant b < Calendar.day_of_instant a)%Z)
       (map fst (Historical.written sample_history)).
Proof.
  split; [reflexivity|].
  apply (history_distinct_days sample_history).
  repeat constructor; simpl; intuition discriminate.
Defined.

(** *** Two records of one day *)

(** A frame of the provider with two records on 30-09-2023, at 00:00 and at
    10:00. *)
Definition same_day_history : Historical.dataframe :=
  Historical.mkDf ["Open"; "Close"]
    [ (1696032000%Z, [PyNum 172; PyNum 171]);
      (1696068000%Z, [PyNum 171; PyNum 173]) ].

(** C4, as the claim states it, fails: the records are sorted and none is
    removed, so two records of one day are both written, under the same
    date; the dates are then neither unique nor strictly decreasing. *)
Lemma C4_counterexample :
  Historical.written_dates same_day_history = ["30-09-2023"; "30-09-2023"]
  /\ ~ List.NoDup (Historical.written_dates same_day_history)
  /\ ~ StronglySorted
         (fun a b => (Calendar.day_of_instant b < Calendar.day_of_instant a)%Z)
         (map fst (Historical.written same_day_history)).
Proof.
  split; [reflexivity|]. split.
  - intros H. apply List.NoDup_cons_iff in H. apply (proj1 H). left. reflexivity.
  - intros H. inversion H as [|x l _ Hall]; subst.
    apply List.Forall_inv in Hall. vm_compute in Hall. discriminate.
Qed.

Lemma days_weakly_sorted (l : list Z) :
  StronglySorted (fun a b => (b <= a)%Z) l ->
  StronglySorted
    (fun a b => (Calendar.day_of_instant b <= Calendar.day_of_instant a)%Z) l.
Proof.
  induction 1 as [|x l Hs IH Hx]; constructor; [exact IH|].
  rewrite List.Forall_forall in Hx |- *. intros y Hy.
  unfold Calendar.day_of_instant. apply Z.div_le_mono; [lia|]. apply Hx, Hy.
Qed.

Lemma strictly_sorted_NoDup (l : list Z) :
  StronglySorted (fun a b => (b < a)%Z) l -> List.NoDup l.
Proof.
  induction 1 as [|x l Hs IH Hx]; constructor; [|exact IH].
  intros Hin. rewrite List.Forall_forall in Hx. specialize (Hx _ Hin). lia.
Qed.

(** C4, amended: the records of the price history are written newest first
    by their instants, so the days of the dates never increase down the
    sheet; the dates are unique exactly when no two records of the provider
    fall on the same day, and exactly then the days strictly decrease.  The
    columns [Dividends] and [Stock Splits] are never written, whether the
    provider gives them or not, and every other column of the provider
    (apart from the temporary column) is written. *)
Theorem C4_history_order (df : Historical.dataframe) :
  let days :=
    map (fun r => Calendar.day_of_instant (fst r)) (Historical.rows df) in
  let strictly :=
    StronglySorted
      (fun a b => (Calendar.day_of_instant b < Calendar.day_of_instant a)%Z)
      (map fst (Historical.written df)) in
  StronglySorted (fun a b => (fst b <= fst a)%Z) (Historical.written df)
  /\ StronglySorted
       (fun a b => (Calendar.day_of_instant b <= Calendar.day_of_instant a)%Z)
       (map fst (Historical.written df))
  /\ length (Historical.written_dates df) = length (Historical.rows df)
  /\ (List.NoDup (Historical.written_dates df) <-> List.NoDup days)
  /\ (strictly <-> List.NoDup days)
  /\ ~ In "Dividends" (Excel.columns (Historical.history_frame df))
  /\ ~ In "Stock Splits" (Excel.columns (Historical.history_frame df))
  /\ (forall c, In c (Historical.columns df) ->
        c <> "Dividends" -> c <> "Stock Splits" -> c <> "temp_date" ->
        In c (Excel.columns (Historical.history_frame df)))
  /\ Historical.written_dates sample_history = ["30-09-2023"; "29-09-2023"]
  /\ Excel.columns (Historical.history_frame sample_history)
     = ["Open"; "Close"].
Proof.
  intros days strictly.
  assert (Hsorted : StronglySorted (fun a b => (fst b <= fst a)%Z)
                      (Historical.written df))
    by apply (sort_desc_sorted fst).
  assert (Hp : Permutation (map fst (Historical.rows df))
                 (map fst (Historical.written df))).
  { rewrite <- (written_perm df), List.map_map. simpl. reflexivity. }
  assert (Hdays : Permutation days
                    (map Calendar.day_of_instant
                       (map fst (Historical.written df)))).
  { unfold days. rewrite <- (List.map_map fst Calendar.day_of_instant).
    apply Permutation_map, Hp. }
  assert (Hiff : List.NoDup (Historical.written_dates df) <-> List.NoDup days).
  { unfold Historical.written_dates. split; intros H.
    - eapply Permutation_NoDup; [symmetry; exact Hdays|].
      rewrite List.map_map.
      eapply NoDup_map_finer; [|exact H].
      intros x y Hxy. unfold Historical.date_label, Calendar.date_of_instant.
      simpl in Hxy. rewrite Hxy. reflexivity.
    - eapply Permutation_NoDup in H; [|exact Hdays].
      rewrite List.map_map in H.
      eapply NoDup_map_finer; [|exact H].
      intros x y. apply date_label_day. }
  split; [exact Hsorted|].
  split; [apply days_weakly_sorted, StronglySorted_map, Hsorted|].
  split.
  { unfold Historical.written_dates. rewrite length_map.
    rewrite <- (Permutation_length (written_perm df)). apply length_map. }
  split; [exact Hiff|]. split.
  { unfold strictly. split; intros H.
    - eapply Permutation_NoDup; [symmetry; exact Hdays|].
      apply strictly_sorted_NoDup. apply StronglySorted_map. exact H.
    - apply sorted_distinct_days;
        [apply StronglySorted_map, Hsorted|].
      eapply Permutation_NoDup; [exact Hdays|exact H]. }
  split; [|split; [|split; [|split; reflexivity]]].
  - simpl. rewrite List.filter_In, kept_spec. tauto.
  - simpl. rewrite List.filter_In, kept_spec. tauto.
  - intros c Hc H1 H2 H3. simpl. rewrite List.filter_In, kept_spec. tauto.
Qed.

(** ** The category operations: failures end in an error marker *)

(** The cells of an error marker, and what the marker leaves as it was. *)
Lemma marker_written (column message sheet_name : string) (with_index : bool)
  (w : Excel.writer) :
  let w' :=
    Excel.to_excel (Excel.marker_frame column message) sheet_name with_index w in
  let col := if with_index then 1%nat else 0%nat in
  (forall name, name <> sheet_name -> w' !! name = w !! name)
  /\ exists sh,
       w' !! sheet_name = Some sh
       /\ sh !! (0%nat, col) = Some (PyStr column)
       /\ sh !! (1%nat, col) = Some (PyStr message)
       /\ forall r k, (1 < r)%nat \/ (col < k)%nat ->
            sh !! (r, k) = default ∅ (w !! sheet_name) !! (r, k).
Proof.
  unfold Excel.to_excel. cbv zeta. split.
  - intros name Hne. rewrite lookup_insert_ne by congruence. reflexivity.
  - eexists. split; [apply lookup_insert_eq|].
    destruct with_index; cbn [Excel.frame_cells Excel.marker_frame Excel.index_name
      Excel.columns Excel.index Excel.data Excel.row_cells Excel.body_cells
      Excel.write_cells map app fold_left tail fst snd].
    + split; [|split].
      * rewrite !lookup_insert_ne by (intros [= ]). apply lookup_insert_eq.
      * apply lookup_insert_eq.
      * intros r k Hrk. rewrite !lookup_insert_ne by (intros [= ]; lia).
        reflexivity.
    + split; [|split].
      * rewrite !lookup_insert_ne by (intros [= ]). apply lookup_insert_eq.
      * apply lookup_insert_eq.
      * intros r k Hrk. rewrite !lookup_insert_ne by (intros [= ]; lia).
        reflexivity.
Qed.

(** X5: a category operation returns normally whatever its [try] block does.
    When the block returns, the writer is as the block left it.  When the
    block raises, the sheet of the category holds the header [Error] and,
    below it, the text of the category for that exception, in column 1 when
    the marker is written with its index and in column 0 otherwise; the cells
    of the sheet below and to the right of the marker, and all other sheets,
    are as the block left them. *)
Theorem category_failure_contained (c : Run.category) (body : Excel.M unit)
  (w : Excel.writer) :
  exists w',
    Run.guarded c body w = (Returned tt, w')
    /\ match body w with
       | (Returned _, wb) => w' = wb
       | (Raised err, wb) =>
           let col := if Run.error_index c then 1%nat else 0%nat in
           (forall name, name <> Run.slot c -> w' !! name = wb !! name)
           /\ exists sh,
                w' !! Run.slot c = Some sh
                /\ sh !! (0%nat, col) = Some (PyStr "Error")
                /\ sh !! (1%nat, col) = Some (PyStr (Run.error_text c err))
                /\ forall r k, (1 < r)%nat \/ (col < k)%nat ->
                     sh !! (r, k) = default ∅ (wb !! Run.slot c) !! (r, k)
       end.
Proof.
  unfold Run.guarded, Excel.try_except.
  destruct (body w) as [[[]|err] wb].
  - exists wb. split; reflexivity.
  - eexists. split; [reflexivity|].
    apply (marker_written "Error" (Run.error_text c err) (Run.slot c)
             (Run.error_index c) wb).
Qed.





(** ** The statement scrapers: outage, order of the tiers, independence *)

(** The sheet a statement scraper leaves, given the sheet of that name it
    found. *)
Definition statement_sheet (k : Statements.kind) (tz : Z) (e : Statements.env)
  (old : option Excel.sheet) : Excel.sheet :=
  match Statements.statement_data k tz e with
  | Returned table =>
      Excel.write_cells (default ∅ old) (Statements.table_cells 0 table)
  | Raised err =>
      Excel.write_cells (default ∅ old)
        (Excel.frame_cells
           (Excel.marker_frame "Error"
              (Run.error_text (Run.Statement k) err)) false)
  end.

Lemma scrape_statement_eq k tz e w :
  Run.scrape_statement k tz e w
  = (Returned tt,
     <[Statements.sheet_of k :=
         statement_sheet k tz e (w !! Statements.sheet_of k)]> w).
Proof.
  unfold Run.scrape_statement, Run.guarded, Excel.try_except,
    Statements.scrape_body, Excel.bind, Excel.lift, statement_sheet.
  destruct (Statements.statement_data k tz e) as [table|err]; reflexivity.
Qed.

Lemma metrics_of_not_empty k : Statements.metrics_of k <> [].
Proof. destruct k; discriminate. Qed.

(** X6: a page that answers with a status other than 200 ends the statement
    scraper at once: the sheet of the statement holds the error marker with
    the status code, whatever the provider library could have delivered (its
    frame is not read). *)
Theorem statement_outage_reported (k : Statements.kind) (tz : Z)
  (e : Statements.env) (pg : Statements.page) (w : Excel.writer)
  (Hresp : Statements.response e = Returned pg)
  (Hstatus : Statements.status_code pg <> 200%nat) :
  let message :=
    "Could not fetch " ++ Statements.name_of k ++ " data: Failed to fetch "
    ++ Statements.name_of k ++ " data (Status Code: "
    ++ PyStr.of_Z (Z.of_nat (Statements.status_code pg)) ++ ")" in
  exists w' sh,
    Run.scrape_statement k tz e w = (Returned tt, w')
    /\ w' !! Statements.sheet_of k = Some sh
    /\ sh !! (0%nat, 0%nat) = Some (PyStr "Error")
    /\ sh !! (1%nat, 0%nat) = Some (PyStr message)
    /\ forall library,
         Statements.statement_data k tz
           (Statements.mkEnv (Statements.response e) library)
         = Statements.statement_data k tz e.
Proof.
  cbv zeta.
  assert (Hdata : forall library,
    Statements.statement_data k tz (Statements.mkEnv (Statements.response e) library)
    = Raised ("Failed to fetch " ++ Statements.name_of k ++ " data (Status Code: "
              ++ PyStr.of_Z (Z.of_nat (Statements.status_code pg)) ++ ")")).
  { intros library. unfold Statements.statement_data. simpl. rewrite Hresp.
    apply Nat.eqb_neq in Hstatus. rewrite Hstatus. reflexivity. }
  assert (Hdata' : Statements.statement_data k tz e
    = Raised ("Failed to fetch " ++ Statements.name_of k ++ " data (Status Code: "
              ++ PyStr.of_Z (Z.of_nat (Statements.status_code pg)) ++ ")")).
  { destruct e as [resp lib]. apply (Hdata lib). }
  eexists _, _. split; [apply scrape_statement_eq|].
  split; [apply lookup_insert_eq|].
  unfold statement_sheet. rewrite Hdata'.
  split; [|split].
  - cbn [Excel.frame_cells Excel.marker_frame Excel.index_name
      Excel.columns Excel.index Excel.data Excel.row_cells Excel.body_cells
      Excel.write_cells map app fold_left tail fst snd].
    rewrite lookup_insert_ne by (intros [= ]). apply lookup_insert_eq.
  - cbn [Excel.frame_cells Excel.marker_frame Excel.index_name
      Excel.columns Excel.index Excel.data Excel.row_cells Excel.body_cells
      Excel.write_cells map app fold_left tail fst snd].
    rewrite lookup_insert_eq. reflexivity.
  - intros library. apply Hdata.
Qed.

Lemma statement_outage_reported_witness :
  let pg := Statements.mkPage 404 None None in
  let e := Statements.mkEnv (Returned pg) (Returned None) in
  exists w' sh,
    Run.scrape_statement Statements.Income 0 e ∅ = (Returned tt, w')
    /\ w' !! "Income Statement" = Some sh
    /\ sh !! (0%nat, 0%nat) = Some (PyStr "Error")
    /\ sh !! (1%nat, 0%nat)
       = Some (PyStr "Could not fetch income statement data: Failed to fetch income statement data (Status Code: 404)")
    /\ forall library,
         Statements.statement_data Statements.Income 0
           (Statements.mkEnv (Statements.response e) library)
         = Statements.statement_data Statements.Income 0 e.
Proof.
  intros pg e.
  apply (statement_outage_reported Statements.Income 0 e pg ∅ eq_refl).
  simpl. lia.
Defined.

(** X7: when the page answers with status 200 and its embedded JSON holds a
    statement history that is not empty, the table of the scraper is the one
    built from that history, whatever the HTML table of the page and the
    provider library hold; a failure of the library is not even seen. *)
Theorem statement_json_tier_wins (k : Statements.kind) (tz : Z)
  (pg : Statements.page) (history : list (gmap string Statements.fin_value))
  (library : outcome (option Statements.yf_frame))
  (Hstatus : Statements.status_code pg = 200%nat)
  (Hjson : Statements.json_match pg
           = Some (Returned (Statements.EmbHistory history)))
  (Hhistory : history <> []) :
  Statements.statement_data k tz (Statements.mkEnv (Returned pg) library)
  = Returned
      (("Breakdown" :: Statements.header_dates tz history)
       :: map (Statements.metric_row (Statements.header_dates tz history) history)
            (Statements.metrics_of k)).
Proof.
  unfold Statements.statement_data. simpl. rewrite Hstatus. simpl.
  unfold Statements.method1. rewrite Hjson.
  unfold Statements.from_json, Statements.process_json_statement.
  destruct history as [|p history]; [contradiction|].
  unfold Statements.method2, Statements.method3. simpl.
  destruct k; reflexivity.
Qed.

Lemma statement_json_tier_wins_witness :
  let history := [sample_period 1696032000 "383.29B"] in
  let pg :=
    Statements.mkPage 200 (Some (Returned (Statements.EmbHistory history)))
      (Some (Statements.mkTable None None)) in
  exists table,
    Statements.statement_data Statements.Income 0
      (Statements.mkEnv (Returned pg) (Raised "no connection"))
    = Returned table
    /\ nth_error table 0 = Some ["Breakdown"; "30-09-2023"]
    /\ nth_error table 1 = Some ["Revenue"; "383.29B"].
Proof.
  intros history pg. eexists. split.
  - apply (statement_json_tier_wins Statements.Income 0 pg history
             (Raised "no connection") eq_refl eq_refl).
    discriminate.
  - split; reflexivity.
Defined.

(** X8: when the page answers with status 200 but holds neither embedded JSON
    nor a statement table, the outcome is decided by the provider library: its
    frame, when it is not empty (it has at least one metric and one date),
    gives the table; its exception is the exception of the scraper; and
    without a frame, or with an empty one, the scraper raises that no source
    had the data. *)
Theorem statement_library_tier_last (k : Statements.kind) (tz : Z)
  (pg : Statements.page) (library : outcome (option Statements.yf_frame))
  (Hstatus : Statements.status_code pg = 200%nat)
  (Hjson : Statements.json_match pg = None)
  (Htable : Statements.statement_table pg = None) :
  Statements.statement_data k tz (Statements.mkEnv (Returned pg) library)
  = match library with
    | Raised err => Raised err
    | Returned (Some df) =>
        match Statements.yf_index df, Statements.yf_metrics df with
        | _ :: _, _ :: _ =>
            Returned (Statements.process_yfinance_statement df)
        | _, _ =>
            Raised ("Could not extract " ++ Statements.name_of k
                    ++ " data from any source")
        end
    | Returned None =>
        Raised ("Could not extract " ++ Statements.name_of k
                ++ " data from any source")
    end.
Proof.
  unfold Statements.statement_data. simpl. rewrite Hstatus. simpl.
  unfold Statements.method1. rewrite Hjson.
  unfold Statements.method2. simpl. rewrite Htable.
  unfold Statements.method3. simpl.
  destruct library as [[df|]|err]; try reflexivity.
  unfold Statements.yf_empty, Statements.enough,
    Statements.process_yfinance_statement.
  destruct (Statements.yf_index df), (Statements.yf_metrics df); reflexivity.
Qed.

Lemma statement_library_tier_last_witness :
  let pg := Statements.mkPage 200 None None in
  let df :=
    Statements.mkYf [1696032000%Z] ["Total Revenue"]
      (fun _ _ => Some (inject_Z 383290000000)) in
  let no_dates :=
    Statements.mkYf [] ["Total Revenue"]
      (fun _ _ => Some (inject_Z 383290000000)) in
  Statements.statement_data Statements.Income 0
    (Statements.mkEnv (Returned pg) (Returned (Some df)))
  = Returned [ ["Breakdown"; "30-09-2023"]; ["Total Revenue"; "383.29B"] ]
  /\ Statements.statement_data Statements.Income 0
       (Statements.mkEnv (Returned pg) (Returned (Some no_dates)))
     = Raised "Could not extract income statement data from any source".
Proof.
  intros pg df no_dates. split.
  - rewrite (statement_library_tier_last Statements.Income 0 pg
               (Returned (Some df)) eq_refl eq_refl eq_refl).
    vm_compute. reflexivity.
  - rewrite (statement_library_tier_last Statements.Income 0 pg
               (Returned (Some no_dates)) eq_refl eq_refl eq_refl).
    reflexivity.
Defined.

Lemma filter_short_rows (rows : list (list string)) :
  Forall (fun r => (length r <= 1)%nat) rows ->
  filter (fun row_data => (1 <? length row_data)%nat = true)
    (map (map PyStr.strip) rows) = [].
Proof.
  induction 1 as [|r rows Hr _ IH]; [reflexivity|].
  cbn [map]. rewrite filter_cons, IH.
  destruct (decide ((1 <? length (map PyStr.strip r))%nat = true)) as [H|H];
    [|reflexivity].
  apply Nat.ltb_lt in H. rewrite List.length_map in H. lia.
Qed.

(** X9: a statement table of the page that has a header but no row of more
    than one cell gives a table of the header alone; such a table counts as
    data for the choice of the next tier, so the provider library is not
    asked, and it does not count as enough, so the scraper raises that no
    source had the data, whatever the library holds. *)
Theorem statement_header_only_table_blocks_library (k : Statements.kind)
  (tz : Z) (pg : Statements.page) (table : Statements.html_table)
  (header_rows : list (list string)) (header_cells : list string)
  (rows : list (list string))
  (library : outcome (option Statements.yf_frame))
  (Hstatus : Statements.status_code pg = 200%nat)
  (Hjson : Statements.json_match pg = None)
  (Htable : Statements.statement_table pg = Some table)
  (Hhead : Statements.thead table = Some header_rows)
  (Hlast : last header_rows = Some header_cells)
  (Hbody : Statements.tbody table = Some rows)
  (Hshort : Forall (fun r => (length r <= 1)%nat) rows) :
  Statements.statement_data k tz (Statements.mkEnv (Returned pg) library)
  = Raised ("Could not extract " ++ Statements.name_of k
            ++ " data from any source").
Proof.
  unfold Statements.statement_data. simpl. rewrite Hstatus. simpl.
  unfold Statements.method1. rewrite Hjson.
  unfold Statements.method2. simpl. rewrite Htable.
  unfold Statements.parse_statement_table. rewrite Hhead, Hlast, Hbody.
  rewrite (filter_short_rows rows Hshort).
  reflexivity.
Qed.

Lemma statement_header_only_table_blocks_library_witness :
  let table :=
    Statements.mkTable (Some [["Breakdown"; "9/30/2023"]]) (Some [["Total Revenue"]]) in
  let pg := Statements.mkPage 200 None (Some table) in
  let df :=
    Statements.mkYf [1696032000%Z] ["Total Revenue"]
      (fun _ _ => Some (inject_Z 383290000000)) in
  Statements.statement_data Statements.Income 0
    (Statements.mkEnv (Returned pg) (Returned (Some df)))
  = Raised "Could not extract income statement data from any source".
Proof.
  intros table pg df.
  apply (statement_header_only_table_blocks_library Statements.Income 0 pg table
           [["Breakdown"; "9/30/2023"]] ["Breakdown"; "9/30/2023"]
           [["Total Revenue"]] (Returned (Some df))
           eq_refl eq_refl eq_refl eq_refl eq_refl eq_refl).
  repeat constructor.
Defined.

(** ** [fetch_financials]: three scrapers, three sheets *)

Lemma sheet_of_inj k1 k2 :
  Statements.sheet_of k1 = Statements.sheet_of k2 -> k1 = k2.
Proof. destruct k1, k2; simpl; intros H; try reflexivity; discriminate H. Qed.

(** X10: [fetch_financials] returns normally and never writes the sheet
    [Financials] of its own handler: each of the three scrapers contains its
    failure.  The sheet of each statement is the one its scraper would leave
    when run alone on the same writer, so a failure of one statement leaves
    the two others as they would be without it; all other sheets are
    untouched. *)
Theorem financials_statements_independent (tz : Z) (e : Run.financial_env)
  (w : Excel.writer) :
  exists w',
    Run.fetch_financials tz e w = (Returned tt, w')
    /\ w' !! "Income Statement"
       = snd (Run._scrape_income_statement tz (Run.income_env e) w)
           !! "Income Statement"
    /\ w' !! "Balance Sheet"
       = snd (Run._scrape_balance_sheet tz (Run.balance_env e) w)
           !! "Balance Sheet"
    /\ w' !! "Cash Flow"
       = snd (Run._scrape_cash_flow tz (Run.cash_flow_env e) w) !! "Cash Flow"
    /\ w' !! "Financials" = w !! "Financials"
    /\ forall name,
         name <> "Income Statement" -> name <> "Balance Sheet" ->
         name <> "Cash Flow" -> w' !! name = w !! name.
Proof.
  unfold Run.fetch_financials, Run.guarded, Excel.try_except, Excel.bind,
    Run._scrape_income_statement, Run._scrape_balance_sheet,
    Run._scrape_cash_flow.
  rewrite !scrape_statement_eq. simpl.
  eexists. split; [reflexivity|].
  repeat split.
  - rewrite !lookup_insert_ne by discriminate. rewrite !lookup_insert_eq.
    reflexivity.
  - rewrite !lookup_insert_ne by discriminate.
    rewrite lookup_insert_eq. rewrite !lookup_insert_ne by discriminate.
    rewrite lookup_insert_eq. reflexivity.
  - rewrite !lookup_insert_eq. rewrite !lookup_insert_ne by discriminate.
    reflexivity.
  - rewrite !lookup_insert_ne by discriminate. reflexivity.
  - intros name H1 H2 H3. rewrite !lookup_insert_ne by congruence.
    reflexivity.
Qed.

(** ** [fetch_esg_data]: the rows of the ESG sheet *)

Definition no_esg_data : string :=
  "Could not fetch ESG data: No ESG data available for this ticker after multiple attempts".

(** X11: when the attempts found no series and no total score, the ESG
    operation writes nothing but the error marker, whatever component scores
    were found: on a new workbook the sheet [ESG Scores] holds the header
    [Error], the index 0 and the message, and no score. *)
Theorem esg_unavailable_marker (e : Esg.env) (w : Excel.writer)
  (Hseries : Esg.acquired_series e = [])
  (Htotal : Esg.totalEsg (Esg.acquired_components e) = None) :
  Run.fetch_esg_data e w
  = (Returned tt,
     Excel.to_excel (Excel.marker_frame "Error" no_esg_data) "ESG Scores" true w)
  /\ Excel.to_excel (Excel.marker_frame "Error" no_esg_data) "ESG Scores" true ∅
     = {[ "ESG Scores" :=
            <[(1%nat, 1%nat) := PyStr no_esg_data]>
              (<[(1%nat, 0%nat) := PyNum 0]>
                 (<[(0%nat, 1%nat) := PyStr "Error"]> ∅)) ]}.
Proof.
  split.
  - unfold Run.fetch_esg_data, Run.guarded, Excel.try_except, Esg.body,
      Excel.bind, Excel.lift, Esg.records, Esg.series_or_placeholder.
    rewrite Hseries, Htotal. reflexivity.
  - unfold Excel.to_excel. rewrite lookup_empty. reflexivity.
Qed.

Lemma esg_unavailable_marker_witness :
  let c := Esg.mkComponents None (Some 5.5%Q) (Some 9%Q) (Some 6.5%Q) (PyNum 2) in
  let e := Esg.mkEnv 1700000000 [] c in
  Run.fetch_esg_data e ∅
  = (Returned tt,
     {[ "ESG Scores" :=
          <[(1%nat, 1%nat) := PyStr no_esg_data]>
            (<[(1%nat, 0%nat) := PyNum 0]>
               (<[(0%nat, 1%nat) := PyStr "Error"]> ∅)) ]}).
Proof.
  intros c e.
  destruct (esg_unavailable_marker e ∅ eq_refl eq_refl) as [Hrun Hcells].
  rewrite Hrun, Hcells. reflexivity.
Defined.

Lemma records_eq now c series rows :
  Esg.records now c series = Returned rows ->
  exists used,
    Esg.series_or_placeholder now c series = Returned used
    /\ rows = map (Esg.make_row c) (PySort.sort_desc Esg.timestamp used).
Proof.
  unfold Esg.records.
  destruct (Esg.series_or_placeholder now c series) as [used|err];
    [|discriminate].
  destruct (forallb _ used); [|discriminate].
  intros [= <-]. exists used. split; reflexivity.
Qed.

Lemma make_row_point c p :
  Esg.r_timestamp (Esg.make_row c p) = Esg.timestamp p
  /\ Esg.r_esgScore (Esg.make_row c p) = Esg.esgScore p
  /\ Esg.r_date (Esg.make_row c p)
     = Calendar.strftime_dmy (Calendar.date_of_instant (Esg.timestamp p)).
Proof. unfold Esg.make_row. destruct (Esg.all_components c); repeat split. Qed.

Lemma make_rows_sorted c (l : list Esg.point) :
  StronglySorted (desc_by Esg.timestamp) l ->
  StronglySorted (fun a b => (Esg.r_timestamp b <= Esg.r_timestamp a)%Z)
    (map (Esg.make_row c) l).
Proof.
  intros Hs. apply StronglySorted_map.
  induction Hs as [|p l Hs IH Hp]; [constructor|].
  constructor; [exact IH|].
  rewrite List.Forall_forall in Hp |- *. intros q Hq.
  destruct (make_row_point c p) as (-> & _).
  destruct (make_row_point c q) as (-> & _). apply Hp, Hq.
Qed.

(** X12: the rows of the ESG sheet are the points of the series used, each
    exactly once with its own score, in an order in which the instants never
    increase; the date of a row is the dd-mm-yyyy date of its instant.  The
    series used is the one found, or, when none was found and the total score
    is known, the single point of the current time with the total as its
    score. *)
Theorem esg_rows_follow_series (now : Z) (c : Esg.components)
  (series : list Esg.point) (rows : list Esg.row)
  (Hrun : Esg.records now c series = Returned rows) :
  let used :=
    match series with
    | [] => [Esg.mkPoint now (Esg.totalEsg c)]
    | _ => series
    end in
  Permutation (map (fun p => (Esg.timestamp p, Esg.esgScore p)) used)
    (map (fun r => (Esg.r_timestamp r, Esg.r_esgScore r)) rows)
  /\ StronglySorted (fun a b => (Esg.r_timestamp b <= Esg.r_timestamp a)%Z) rows
  /\ Forall (fun r => Esg.r_date r
                      = Calendar.strftime_dmy
                          (Calendar.date_of_instant (Esg.r_timestamp r))) rows
  /\ (series = [] -> Esg.totalEsg c <> None).
Proof.
  cbv zeta.
  destruct (records_eq now c series rows Hrun) as (used & Hused & ->).
  assert (Hu : used = match series with
                      | [] => [Esg.mkPoint now (Esg.totalEsg c)]
                      | _ => series
                      end
               /\ (series = [] -> Esg.totalEsg c <> None)).
  { unfold Esg.series_or_placeholder in Hused.
    destruct series as [|p series].
    - destruct (Esg.totalEsg c) as [t|]; [|discriminate].
      injection Hused as <-. split; [reflexivity|discriminate].
    - injection Hused as <-. split; [reflexivity|discriminate]. }
  destruct Hu as [<- Htotal].
  split; [|split; [|split]].
  - rewrite List.map_map.
    erewrite (List.map_ext (fun x => (Esg.r_timestamp (Esg.make_row c x),
                                      Esg.r_esgScore (Esg.make_row c x)))).
    + apply Permutation_map. apply sort_by_perm.
    + intros p. destruct (make_row_point c p) as (-> & -> & _). reflexivity.
  - apply make_rows_sorted, sort_desc_sorted.
  - apply List.Forall_forall. intros r Hr.
    apply List.in_map_iff in Hr. destruct Hr as [q [<- Hq]].
    destruct (make_row_point c q) as (-> & _ & ->). reflexivity.
  - exact Htotal.
Qed.

Lemma esg_rows_follow_series_witness :
  let c := Esg.mkComponents (Some 17%Q) None None None PyNone in
  exists rows,
    Esg.records 1700000000 c [] = Returned rows
    /\ map (fun r => (Esg.r_date r, Esg.r_esgScore r)) rows
       = [("14-11-2023", Some 17%Q)]
    /\ Permutation [(1700000000%Z, Some 17%Q)]
         (map (fun r => (Esg.r_timestamp r, Esg.r_esgScore r)) rows).
Proof.
  intros c. eexists. split; [reflexivity|]. split; [reflexivity|].
  apply (esg_rows_follow_series 1700000000 c [] _ eq_refl).
Defined.

(** *** The note and the summary stand below the table *)

Lemma write_cells_other (cells : list ((nat * nat) * pyval)) : forall sh pos,
  ~ In pos (map fst cells) ->
  Excel.write_cells sh cells !! pos = sh !! pos.
Proof.
  unfold Excel.write_cells.
  induction cells as [|[p v] cells IH]; intros sh pos Hpos; [reflexivity|].
  simpl in *. rewrite IH by tauto.
  apply lookup_insert_ne. intros ->. tauto.
Qed.

Lemma row_cells_rows r : forall vs c pos,
  In pos (map fst (Excel.row_cells r c vs)) -> fst pos = r.
Proof.
  induction vs as [|v vs IH]; intros c pos; simpl; [tauto|].
  intros [<-|H]; [reflexivity|]. apply (IH _ _ H).
Qed.

Lemma body_cells_rows with_index : forall data r idx pos,
  In pos (map fst (Excel.body_cells with_index r idx data)) ->
  (r <= fst pos < r + length data)%nat.
Proof.
  induction data as [|row data IH]; intros r idx pos; simpl; [tauto|].
  rewrite !List.map_app, !List.in_app_iff. intros [H|[H|H]].
  - destruct with_index; [|destruct H].
    destruct idx; [destruct H|]. destruct H as [<-|[]]. simpl. lia.
  - apply row_cells_rows in H. lia.
  - apply IH in H. lia.
Qed.

Lemma frame_cells_rows fr with_index pos :
  In pos (map fst (Excel.frame_cells fr with_index)) ->
  (fst pos <= length (Excel.data fr))%nat.
Proof.
  unfold Excel.frame_cells.
  rewrite !List.map_app, !List.in_app_iff. intros [H|[H|H]].
  - destruct with_index; [|destruct H].
    destruct (Excel.index_name fr); [|destruct H].
    destruct H as [<-|[]]. simpl. lia.
  - apply row_cells_rows in H. lia.
  - apply body_cells_rows in H. lia.
Qed.

(** The cell of a sheet of the writer, [None] when nothing was written
    there. *)
Definition cell (w : Excel.writer) (sheet_name : string) (pos : nat * nat)
  : option pyval :=
  default ∅ (w !! sheet_name) !! pos.

Lemma cell_write_cell sheet_name r c v w pos :
  cell (snd (Esg.write_cell sheet_name r c v w)) sheet_name pos
  = if decide (pos = (r, c)) then Some v else cell w sheet_name pos.
Proof.
  unfold cell, Esg.write_cell. simpl. rewrite lookup_insert_eq. simpl.
  destruct (decide (pos = (r, c))) as [->|Hne].
  - apply lookup_insert_eq.
  - apply lookup_insert_ne. congruence.
Qed.

Lemma write_cell_returns sheet_name r c v w :
  fst (Esg.write_cell sheet_name r c v w) = Returned tt.
Proof. reflexivity. Qed.

Lemma write_summary_spec cells : forall r w,
  fst (Esg.write_summary r cells w) = Returned tt
  /\ forall pos, (fst pos < r)%nat ->
       cell (snd (Esg.write_summary r cells w)) "ESG Scores" pos
       = cell w "ESG Scores" pos.
Proof.
  induction cells as [|[label v] cells IH]; intros r w.
  - split; reflexivity.
  - cbn [Esg.write_summary]. unfold Excel.bind.
    destruct (Esg.write_cell "ESG Scores" r 0 (PyStr label) w) as [o1 w1] eqn:E1.
    pose proof (write_cell_returns "ESG Scores" r 0 (PyStr label) w) as R1.
    rewrite E1 in R1. simpl in R1. subst o1.
    destruct (Esg.write_cell "ESG Scores" r 1 v w1) as [o2 w2] eqn:E2.
    pose proof (write_cell_returns "ESG Scores" r 1 v w1) as R2.
    rewrite E2 in R2. simpl in R2. subst o2.
    destruct (IH (S r) w2) as [Hret Hcells]. split; [exact Hret|].
    intros pos Hpos. rewrite Hcells by lia.
    pose proof (cell_write_cell "ESG Scores" r 1 v w1 pos) as C2.
    rewrite E2 in C2. simpl in C2. rewrite C2.
    destruct (decide (pos = (r, 1%nat))) as [->|_]; [simpl in Hpos; lia|].
    pose proof (cell_write_cell "ESG Scores" r 0 (PyStr label) w pos) as C1.
    rewrite E1 in C1. simpl in C1. rewrite C1.
    destruct (decide (pos = (r, 0%nat))) as [->|_]; [simpl in Hpos; lia|].
    reflexivity.
Qed.

Lemma cell_to_excel_other fr sheet_name with_index w pos :
  (length (Excel.data fr) < fst pos)%nat ->
  cell (Excel.to_excel fr sheet_name with_index w) sheet_name pos
  = cell w sheet_name pos.
Proof.
  intros Hpos. unfold cell, Excel.to_excel. rewrite lookup_insert_eq. simpl.
  apply write_cells_other. intros Hin. apply frame_cells_rows in Hin. lia.
Qed.

(** X13: below the rows of the ESG table one row stays as it was, and the
    note on the source of the components stands in the row after it; neither
    the note nor the summary of the latest scores changes a cell of the header
    or of a data row. *)
Theorem esg_note_below_table (e : Esg.env) (w : Excel.writer)
  (rows : list Esg.row)
  (Hrun : Esg.records (Esg.now e) (Esg.acquired_components e)
            (Esg.acquired_series e) = Returned rows) :
  exists w',
    Run.fetch_esg_data e w = (Returned tt, w')
    /\ (forall pos, (fst pos <= length rows)%nat ->
          cell w' "ESG Scores" pos
          = cell (Excel.to_excel (Esg.esg_frame rows) "ESG Scores" true w)
              "ESG Scores" pos)
    /\ (forall k, cell w' "ESG Scores" (length rows + 1, k)%nat
                  = cell w "ESG Scores" (length rows + 1, k)%nat)
    /\ cell w' "ESG Scores" (length rows + 2, 0)%nat
       = Some (PyStr ("Note: "
                      ++ Esg.data_source (Esg.acquired_components e))).
Proof.
  unfold Run.fetch_esg_data, Run.guarded, Excel.try_except, Esg.body,
    Excel.bind, Excel.lift.
  rewrite Hrun. unfold Excel.write.
  set (w1 := Excel.to_excel (Esg.esg_frame rows) "ESG Scores" true w).
  set (note := PyStr ("Note: " ++ Esg.data_source (Esg.acquired_components e))).
  destruct (Esg.write_cell "ESG Scores" (length rows + 2) 0 note w1)
    as [o2 w2] eqn:E2.
  pose proof (write_cell_returns "ESG Scores" (length rows + 2) 0 note w1) as R2.
  pose proof (fun pos => cell_write_cell "ESG Scores" (length rows + 2) 0 note w1 pos)
    as C2.
  rewrite E2 in R2, C2. simpl in R2, C2. subst o2.
  assert (Hgap : forall k, cell w1 "ESG Scores" (length rows + 1, k)%nat
                           = cell w "ESG Scores" (length rows + 1, k)%nat).
  { intros k. apply cell_to_excel_other. simpl. rewrite List.length_map. lia. }
  destruct (Esg.any_component (Esg.acquired_components e)).
  - destruct (Esg.write_cell "ESG Scores" (length rows + 2 + 2) 0
                (PyStr "Latest ESG Component Scores") w2) as [o3 w3] eqn:E3.
    pose proof (write_cell_returns "ESG Scores" (length rows + 2 + 2) 0
                  (PyStr "Latest ESG Component Scores") w2) as R3.
    pose proof (fun pos => cell_write_cell "ESG Scores" (length rows + 2 + 2) 0
                  (PyStr "Latest ESG Component Scores") w2 pos) as C3.
    rewrite E3 in R3, C3. simpl in R3, C3. subst o3.
    destruct (write_summary_spec
                (Esg.summary_cells (Esg.acquired_components e))
                (length rows + 2 + 3) w3) as [R4 C4].
    destruct (Esg.write_summary (length rows + 2 + 3)
                (Esg.summary_cells (Esg.acquired_components e)) w3)
      as [o4 w4] eqn:E4.
    simpl in R4, C4. subst o4.
    exists w4. split; [reflexivity|].
    assert (Hall : forall pos, (fst pos <= length rows + 2)%nat ->
              cell w4 "ESG Scores" pos = cell w2 "ESG Scores" pos).
    { intros pos Hpos. rewrite C4 by lia. rewrite C3.
      destruct (decide (pos = ((length rows + 2 + 2)%nat, 0%nat))) as [->|_];
        [simpl in Hpos; lia|reflexivity]. }
    split; [|split].
    + intros pos Hpos. rewrite Hall by lia. rewrite C2.
      destruct (decide (pos = ((length rows + 2)%nat, 0%nat))) as [->|_];
        [simpl in Hpos; lia|reflexivity].
    + intros k. rewrite Hall by (simpl; lia). rewrite C2.
      destruct (decide (((length rows + 1)%nat, k) = ((length rows + 2)%nat, 0%nat)))
        as [[= ]|_]; [lia|apply Hgap].
    + rewrite Hall by (simpl; lia). rewrite C2.
      destruct (decide (((length rows + 2)%nat, 0%nat) = ((length rows + 2)%nat, 0%nat)));
        [reflexivity|congruence].
  - exists w2. split; [reflexivity|].
    split; [|split].
    + intros pos Hpos. rewrite C2.
      destruct (decide (pos = ((length rows + 2)%nat, 0%nat))) as [->|_];
        [simpl in Hpos; lia|reflexivity].
    + intros k. rewrite C2.
      destruct (decide (((length rows + 1)%nat, k) = ((length rows + 2)%nat, 0%nat)))
        as [[= ]|_]; [lia|apply Hgap].
    + rewrite C2.
      destruct (decide (((length rows + 2)%nat, 0%nat) = ((length rows + 2)%nat, 0%nat)));
        [reflexivity|congruence].
Qed.

Lemma esg_note_below_table_witness :
  let c := Esg.mkComponents (Some 17%Q) None None None PyNone in
  let e := Esg.mkEnv 1700000000 [] c in
  exists w',
    Run.fetch_esg_data e ∅ = (Returned tt, w')
    /\ cell w' "ESG Scores" (1, 0)%nat = Some (PyStr "14-11-2023")
    /\ cell w' "ESG Scores" (1, 1)%nat = Some (PyNum 17)
    /\ cell w' "ESG Scores" (2, 0)%nat = None
    /\ cell w' "ESG Scores" (3, 0)%nat
       = Some (PyStr "Note: Partially estimated values (some components not available)").
Proof.
  intros c e.
  destruct (esg_note_below_table e ∅ _ eq_refl) as (w' & Hrun & Htab & Hgap & Hnote).
  exists w'. split; [exact Hrun|].
  split; [rewrite Htab by (simpl; lia); reflexivity|].
  split; [rewrite Htab by (simpl; lia); reflexivity|].
  split; [exact (eq_trans (Hgap 0%nat) eq_refl)|exact Hnote].
Defined.

(** ** [fetch_statistics]: the layout and the values of the sheet *)

Lemma format_metrics_rows tz d metrics rows :
  Statistics.format_metrics tz d metrics = Returned rows ->
  Forall2 (fun m r =>
             fst r = fst m
             /\ Statistics.format_value tz (snd m) (dict_get d (snd m))
                = Returned (snd r))
    metrics rows.
Proof.
  revert rows. induction metrics as [|[label key] metrics IH]; intros rows.
  - intros [= <-]. constructor.
  - cbn [Statistics.format_metrics].
    destruct (Statistics.format_value tz key (dict_get d key)) as [v|err] eqn:Ev;
      [|discriminate].
    destruct (Statistics.format_metrics tz d metrics) as [rest|err];
      [|discriminate].
    intros [= <-]. constructor; [split; [reflexivity|exact Ev]|].
    apply IH. reflexivity.
Qed.

Lemma format_metrics_raises tz d metrics :
  (exists err, Statistics.format_metrics tz d metrics = Raised err)
  <-> exists label key err,
        In (label, key) metrics
        /\ Statistics.format_value tz key (dict_get d key) = Raised err.
Proof.
  induction metrics as [|[label key] metrics IH].
  - split; [intros [err H]; discriminate|intros (? & ? & ? & [] & _)].
  - cbn [Statistics.format_metrics].
    destruct (Statistics.format_value tz key (dict_get d key)) as [v|err] eqn:Ev.
    + destruct (Statistics.format_metrics tz d metrics) as [rest|err] eqn:Er.
      * split; [intros [err H]; discriminate|].
        intros (l & k & err & [[= -> ->]|Hin] & Hraise); [congruence|].
        destruct IH as [_ IH]. destruct IH as [err' H]; [|discriminate].
        exists l, k, err. split; assumption.
      * split; [|intros _; exists err; reflexivity].
        intros _. destruct IH as [IH _].
        destruct IH as (l & k & err' & Hin & Hraise); [exists err; reflexivity|].
        exists l, k, err'. split; [right; exact Hin|exact Hraise].
    + split; [|intros _; exists err; reflexivity].
      intros _. exists label, key, err. split; [left; reflexivity|exact Ev].
Qed.

Lemma format_categories_raises tz d cats :
  (exists err, Statistics.format_categories tz d cats = Raised err)
  <-> exists category metrics label key err,
        In (category, metrics) cats /\ In (label, key) metrics
        /\ Statistics.format_value tz key (dict_get d key) = Raised err.
Proof.
  induction cats as [|[category metrics] cats IH].
  - split; [intros [err H]; discriminate|intros (? & ? & ? & ? & ? & [] & _)].
  - cbn [Statistics.format_categories].
    destruct (Statistics.format_metrics tz d metrics) as [rows|err] eqn:Em.
    + assert (Hno : ~ exists label key err,
                In (label, key) metrics
                /\ Statistics.format_value tz key (dict_get d key) = Raised err).
      { intros H. apply format_metrics_raises in H. destruct H as [err H].
        congruence. }
      destruct (Statistics.format_categories tz d cats) as [more|err] eqn:Ec.
      * split; [intros [err H]; discriminate|].
        intros (c & m & l & k & err & [[= -> ->]|Hin] & Hl & Hraise).
        -- exfalso. apply Hno. exists l, k, err. split; assumption.
        -- destruct IH as [_ IH]. destruct IH as [err' H]; [|discriminate].
           exists c, m, l, k, err. repeat split; assumption.
      * split; [|intros _; exists err; reflexivity].
        intros _. destruct IH as [IH _].
        destruct IH as (c & m & l & k & err' & Hin & Hl & Hraise);
          [exists err; reflexivity|].
        exists c, m, l, k, err'. split; [right; exact Hin|split; assumption].
    + split; [|intros _; exists err; reflexivity].
      intros _.
      destruct (proj1 (format_metrics_raises tz d metrics)) as (l & k & err' & Hl & Hraise);
        [exists err; exact Em|].
      exists category, metrics, l, k, err'.
      split; [left; reflexivity|split; assumption].
Qed.

Lemma format_categories_labels tz d1 d2 cats : forall rows1 rows2,
  Statistics.format_categories tz d1 cats = Returned rows1 ->
  Statistics.format_categories tz d2 cats = Returned rows2 ->
  map fst rows1 = map fst rows2.
Proof.
  induction cats as [|[category metrics] cats IH]; intros rows1 rows2.
  - intros [= <-] [= <-]. reflexivity.
  - cbn [Statistics.format_categories].
    destruct (Statistics.format_metrics tz d1 metrics) as [r1|] eqn:E1; [|discriminate].
    destruct (Statistics.format_metrics tz d2 metrics) as [r2|] eqn:E2; [|discriminate].
    destruct (Statistics.format_categories tz d1 cats) as [m1|]; [|discriminate].
    destruct (Statistics.format_categories tz d2 cats) as [m2|]; [|discriminate].
    intros [= <-] [= <-]. cbn [map fst]. f_equal.
    rewrite !List.map_app. f_equal; [|f_equal; apply IH; reflexivity].
    apply format_metrics_rows in E1, E2.
    clear -E1 E2. revert r1 r2 E1 E2.
    induction metrics as [|m metrics IHm]; intros r1 r2 E1 E2;
      inversion E1; inversion E2; subst; [reflexivity|].
    cbn [map]. f_equal; [|apply IHm; assumption].
    destruct H1 as [-> _], H6 as [-> _]. reflexivity.
Qed.

Lemma format_categories_length tz d cats : forall rows,
  Statistics.format_categories tz d cats = Returned rows ->
  length rows
  = (fold_right (fun cm n => S (length (snd cm)) + n) 0 cats
     + (length cats - 1))%nat.
Proof.
  induction cats as [|[category metrics] cats IH]; intros rows.
  - intros [= <-]. reflexivity.
  - cbn [Statistics.format_categories].
    destruct (Statistics.format_metrics tz d metrics) as [r|] eqn:E; [|discriminate].
    destruct (Statistics.format_categories tz d cats) as [m|]; [|discriminate].
    intros [= <-]. cbn [length fold_right snd].
    rewrite !length_app, (IH m eq_refl).
    apply format_metrics_rows, Forall2_length in E. rewrite <- E.
    destruct cats; simpl; lia.
Qed.

(** X14: the layout of the Statistics sheet does not depend on the data: any
    two runs that format their values without an exception give the same
    column of labels, made of 52 rows (6 category headers, 41 metrics and 5
    empty rows between the categories). *)
Theorem statistics_layout_fixed (tz1 tz2 : Z) (d1 d2 : gmap string pyval)
  (rows1 rows2 : list (string * pyval))
  (H1 : Statistics.format_categories tz1 d1 Statistics.categories = Returned rows1)
  (H2 : Statistics.format_categories tz2 d2 Statistics.categories = Returned rows2) :
  map fst rows1 = map fst rows2
  /\ length rows1 = 52%nat
  /\ Excel.columns (Statistics.statistics_frame rows1) = ["Metric"; "Value"]
  /\ length (Excel.data (Statistics.statistics_frame rows1)) = 52%nat.
Proof.
  assert (Hlen : length rows1 = 52%nat).
  { rewrite (format_categories_length tz1 d1 _ rows1 H1). reflexivity. }
  split; [|split; [exact Hlen|split; [reflexivity|]]].
  - destruct (Statistics.format_categories tz1 ∅ Statistics.categories)
      as [rows0|err] eqn:E0; [|vm_compute in E0; discriminate].
    rewrite (format_categories_labels tz1 d1 ∅ _ rows1 rows0 H1 E0).
    assert (E0' : Statistics.format_categories tz2 ∅ Statistics.categories
                  = Returned rows0).
    { rewrite <- E0. vm_compute. reflexivity. }
    symmetry. apply (format_categories_labels tz2 d2 ∅ _ rows2 rows0 H2 E0').
  - simpl. rewrite List.length_map. exact Hlen.
Qed.

Lemma statistics_layout_fixed_witness :
  let d : gmap string pyval := <["marketCap" := PyNum 2500000000]> ∅ in
  exists rows1 rows2,
    Statistics.format_categories 0 d Statistics.categories = Returned rows1
    /\ Statistics.format_categories 0 ∅ Statistics.categories = Returned rows2
    /\ nth_error rows1 1 = Some ("Market Cap", PyStr "$2.50B")
    /\ nth_error rows2 1 = Some ("Market Cap", PyStr "N/A")
    /\ map fst rows1 = map fst rows2
    /\ length rows1 = 52%nat.
Proof.
  intros d.
  destruct (Statistics.format_categories 0 d Statistics.categories)
    as [rows1|err] eqn:E1; [|vm_compute in E1; discriminate].
  destruct (Statistics.format_categories 0 ∅ Statistics.categories)
    as [rows2|err] eqn:E2; [|vm_compute in E2; discriminate].
  exists rows1, rows2. split; [reflexivity|]. split; [reflexivity|].
  split; [vm_compute in E1; injection E1 as <-; reflexivity|].
  split; [vm_compute in E2; injection E2 as <-; reflexivity|].
  destruct (statistics_layout_fixed 0 0 d ∅ rows1 rows2 E1 E2) as (Hl & Hn & _).
  split; assumption.
Defined.

Lemma format_metrics_values tz d metrics rows label key :
  Statistics.format_metrics tz d metrics = Returned rows ->
  In (label, key) metrics ->
  exists v,
    Statistics.format_value tz key (dict_get d key) = Returned v
    /\ In (label, v) rows.
Proof.
  intros H Hin. apply format_metrics_rows in H.
  induction H as [|[l k] [l' v] metrics rows [Hl Hv] _ IH]; [destruct Hin|].
  simpl in Hl, Hv. subst l'.
  destruct Hin as [[= -> ->]|Hin].
  - exists v. split; [exact Hv|left; reflexivity].
  - destruct (IH Hin) as (v' & Hv' & Hin'). exists v'.
    split; [exact Hv'|right; exact Hin'].
Qed.

Lemma format_categories_values tz d cats : forall rows category metrics label key,
  Statistics.format_categories tz d cats = Returned rows ->
  In (category, metrics) cats -> In (label, key) metrics ->
  exists v,
    Statistics.format_value tz key (dict_get d key) = Returned v
    /\ In (label, v) rows.
Proof.
  induction cats as [|[c m] cats IH]; intros rows category metrics label key;
    [intros _ []|].
  cbn [Statistics.format_categories].
  destruct (Statistics.format_metrics tz d m) as [r|] eqn:E; [|discriminate].
  destruct (Statistics.format_categories tz d cats) as [more|] eqn:Ec;
    [|discriminate].
  intros [= <-] [[= -> ->]|Hin] Hl.
  - destruct (format_metrics_values tz d metrics r label key E Hl) as (v & Hv & Hr).
    exists v. split; [exact Hv|]. right. apply List.in_app_iff. left. exact Hr.
  - destruct (IH more category metrics label key eq_refl Hin Hl) as (v & Hv & Hr).
    exists v. split; [exact Hv|]. right.
    apply List.in_app_iff. right. apply List.in_app_iff. right. exact Hr.
Qed.

Lemma dict_get_union (info scraped : gmap string pyval) key :
  dict_get (info ∪ scraped) key
  = match info !! key with
    | Some v => v
    | None => dict_get scraped key
    end.
Proof.
  unfold dict_get. rewrite lookup_union.
  destruct (info !! key), (scraped !! key); reflexivity.
Qed.

(** X15: in the Statistics sheet every metric of every category stands with
    the formatted value of its key, taken from the provider's [info] when
    [info] has the key and from the scraped data otherwise; a key that
    neither has, or a key that [info] holds as [None] (even when the scraped
    data has a value for it), is shown as [N/A]. *)
Theorem statistics_values (tz : Z) (info scraped : gmap string pyval)
  (rows : list (string * pyval)) (category : string)
  (metrics : list (string * string)) (label key : string)
  (Hrun : Statistics.format_categories tz (info ∪ scraped) Statistics.categories
          = Returned rows)
  (Hcat : In (category, metrics) Statistics.categories)
  (Hmetric : In (label, key) metrics) :
  let value :=
    match info !! key with
    | Some v => v
    | None => dict_get scraped key
    end in
  exists v,
    Statistics.format_value tz key value = Returned v
    /\ In (label, v) rows
    /\ (value = PyNone -> v = PyStr "N/A").
Proof.
  cbv zeta.
  destruct (format_categories_values tz _ _ rows category metrics label key
              Hrun Hcat Hmetric) as (v & Hv & Hin).
  rewrite dict_get_union in Hv. exists v. split; [exact Hv|].
  split; [exact Hin|].
  intros Hnone. rewrite Hnone in Hv. simpl in Hv. congruence.
Qed.

Lemma statistics_values_witness :
  let info : gmap string pyval := <["trailingPE" := PyNone]> ∅ in
  let scraped : gmap string pyval := <["trailingPE" := PyNum 28.5]> ∅ in
  exists rows v,
    Statistics.format_categories 0 (info ∪ scraped) Statistics.categories
    = Returned rows
    /\ Statistics.format_value 0 "trailingPE" PyNone = Returned v
    /\ In ("Trailing P/E", v) rows
    /\ v = PyStr "N/A".
Proof.
  intros info scraped.
  destruct (Statistics.format_categories 0 (info ∪ scraped) Statistics.categories)
    as [rows|err] eqn:E; [|vm_compute in E; discriminate].
  destruct (statistics_values 0 info scraped rows "Valuation Measures"
              (snd (hd ("", []) Statistics.categories))
              "Trailing P/E" "trailingPE" E
              ltac:(left; reflexivity)
              ltac:(simpl; tauto)) as (v & Hv & Hin & Hna).
  exists rows, v. split; [reflexivity|].
  split; [exact Hv|]. split; [exact Hin|]. apply Hna. reflexivity.
Defined.

(** The values that the chain of formats cannot take: text under a key that
    is formatted as money or as a ratio; an [int] too large for a float
    under a key formatted as money, as a percentage or as a ratio; and a
    number under a date key that [fromtimestamp] cannot convert. *)
Definition unformattable (tz : Z) (key : string) (value : pyval) : Prop :=
  match value with
  | PyNone => False
  | PyStr _ => In key (Statistics.money_keys ++ Statistics.ratio_keys)
  | PyNum v =>
      (In key Statistics.money_keys
       /\ (PyNum.e9 <= Qabs v)%Q /\ PyNum.finite (v / PyNum.e9) = false)
      \/ (In key Statistics.percent_keys
          /\ ((1 <= Qabs v)%Q \/ key = "payoutRatio")
          /\ PyNum.finite v = false)
      \/ (In key Statistics.ratio_keys /\ PyNum.finite v = false)
      \/ (In key Statistics.date_keys
          /\ Calendar.fromtimestamp tz (Calendar.timestamp_seconds v) = None)
  end.

Lemma returned_text_raises (o : outcome string) :
  (exists err, Statistics.returned_text o = Raised err)
  <-> exists err, o = Raised err.
Proof.
  destruct o as [text|e]; cbn [Statistics.returned_text].
  - split; intros [err H]; discriminate.
  - split; intros _; exists e; reflexivity.
Qed.

Lemma format_2f_raises (v : Q) :
  (exists err, Statistics.format_2f v = Raised err)
  <-> PyNum.finite v = false.
Proof.
  unfold Statistics.format_2f, PyNum.to_float.
  destruct (PyNum.finite v).
  - split; [intros [err H]; discriminate|discriminate].
  - split; [reflexivity|]. intros _. eexists. reflexivity.
Qed.

Lemma format_money_raises (v : Q) :
  (exists err, Statistics.format_money v = Raised err)
  <-> (PyNum.e9 <= Qabs v)%Q /\ PyNum.finite (v / PyNum.e9) = false.
Proof.
  unfold Statistics.format_money.
  destruct (Qle_bool PyNum.e9 (Qabs v)) eqn:E9.
  - apply Qle_bool_iff in E9.
    destruct (PyNum.finite (v / PyNum.e9)).
    + split; [intros [err H]; discriminate|intros [_ H]; discriminate].
    + split; [intros _; split; [exact E9|reflexivity]|].
      intros _. eexists. reflexivity.
  - apply Qle_bool_false in E9.
    split.
    + intros [err H].
      destruct (Qle_bool PyNum.e6 (Qabs v)); discriminate.
    + intros [H _]. exfalso. exact (Qlt_not_le _ _ E9 H).
Qed.

Lemma format_percent_raises (key : string) (v : Q) :
  (exists err, Statistics.format_percent key v = Raised err)
  <-> ((1 <= Qabs v)%Q \/ key = "payoutRatio") /\ PyNum.finite v = false.
Proof.
  unfold Statistics.format_percent.
  destruct (Qlt_bool (Qabs v) 1) eqn:E1; cbn [andb].
  - apply Qlt_bool_iff in E1.
    destruct (String.eqb_spec key "payoutRatio") as [Ek|Ek]; cbn [negb].
    + destruct (Statistics.format_2f v) as [text|e] eqn:Ef.
      * split; [intros [err H]; discriminate|].
        intros [_ Hfin]. apply format_2f_raises in Hfin.
        destruct Hfin as [err Hfin]. congruence.
      * split; [|intros _; eexists; reflexivity].
        intros _. split; [right; exact Ek|].
        apply format_2f_raises. exists e. exact Ef.
    + split; [intros [err H]; discriminate|].
      intros [[Hge|Hk] _]; [|contradiction].
      exfalso. exact (Qlt_not_le _ _ E1 Hge).
  - assert (Hge : (1 <= Qabs v)%Q).
    { unfold Qlt_bool in E1. apply negb_false_iff in E1.
      apply Qle_bool_iff. exact E1. }
    destruct (Statistics.format_2f v) as [text|e] eqn:Ef.
    + split; [intros [err H]; discriminate|].
      intros [_ Hfin]. apply format_2f_raises in Hfin.
      destruct Hfin as [err Hfin]. congruence.
    + split; [|intros _; eexists; reflexivity].
      intros _. split; [left; exact Hge|].
      apply format_2f_raises. exists e. exact Ef.
Qed.

(** The lists of keys of the chain have no key in common. *)
Lemma keys_apart key :
  (if mem key Statistics.money_keys then 1 else 0)
  + (if mem key Statistics.percent_keys then 1 else 0)
  + (if mem key Statistics.ratio_keys then 1 else 0)
  + (if mem key ["lastSplitFactor"] then 1 else 0)
  + (if mem key Statistics.date_keys then 1 else 0) <= 1.
Proof.
  destruct (mem key (Statistics.money_keys ++ Statistics.percent_keys
                     ++ Statistics.ratio_keys ++ ["lastSplitFactor"]
                     ++ Statistics.date_keys)) eqn:E.
  - apply mem_In in E. cbn in E.
    repeat (destruct E as [<-|E]; [vm_compute; lia|]). destruct E.
  - unfold mem in *. rewrite !existsb_app in E.
    repeat (apply orb_false_iff in E; destruct E as [? E]).
    repeat match goal with H : existsb _ _ = false |- _ => rewrite H; clear H end.
    cbn. repeat match goal with |- context [if ?b then _ else _] => destruct b end; lia.
Qed.

Lemma format_value_raises tz key value :
  (exists err, Statistics.format_value tz key value = Raised err)
  <-> unformattable tz key value.
Proof.
  pose proof (keys_apart key) as Hkeys.
  unfold unformattable, Statistics.format_value.
  destruct value as [|v|s].
  - split; [intros [err H]; discriminate|intros []].
  - rewrite <- !mem_In.
    destruct (mem key Statistics.money_keys) eqn:Em.
    { destruct (mem key Statistics.percent_keys), (mem key Statistics.ratio_keys),
        (mem key Statistics.date_keys); try (exfalso; cbn in Hkeys; lia).
      rewrite returned_text_raises, format_money_raises.
      intuition discriminate. }
    destruct (mem key Statistics.percent_keys) eqn:Ep.
    { destruct (mem key Statistics.ratio_keys),
        (mem key Statistics.date_keys); try (exfalso; cbn in Hkeys; lia).
      rewrite returned_text_raises, format_percent_raises.
      intuition discriminate. }
    destruct (mem key Statistics.ratio_keys) eqn:Er.
    { destruct (mem key Statistics.date_keys); try (exfalso; cbn in Hkeys; lia).
      rewrite returned_text_raises, format_2f_raises.
      intuition discriminate. }
    destruct (mem key ["lastSplitFactor"]) eqn:El.
    { destruct (mem key Statistics.date_keys); try (exfalso; cbn in Hkeys; lia).
      split; [intros [err H]; discriminate|intuition discriminate]. }
    destruct (mem key Statistics.date_keys) eqn:Ed.
    + cbv zeta.
      destruct (Calendar.fromtimestamp tz (Calendar.timestamp_seconds v)).
      * split; [intros [err H]; discriminate|intuition discriminate].
      * split; [intros _; do 3 right; split; reflexivity|].
        intros _. eexists. reflexivity.
    + split; [intros [err H]; discriminate|intuition discriminate].
  - destruct (mem key Statistics.money_keys) eqn:Em.
    { split; [|intros _; eexists; reflexivity].
      intros _. apply List.in_app_iff. left. apply mem_In, Em. }
    destruct (mem key Statistics.percent_keys) eqn:Ep.
    { split; [intros [err H]; discriminate|].
      intros H. apply List.in_app_iff in H.
      destruct H as [H|H]; apply mem_In in H; [congruence|].
      rewrite H in Hkeys. exfalso. cbn in Hkeys.
      destruct (mem key Statistics.date_keys); lia. }
    destruct (mem key Statistics.ratio_keys) eqn:Er.
    { split; [|intros _; eexists; reflexivity].
      intros _. apply List.in_app_iff. right. apply mem_In, Er. }
    split.
    + intros [err H].
      destruct (mem key ["lastSplitFactor"]); [discriminate|].
      destruct (mem key Statistics.date_keys); discriminate.
    + intros H. apply List.in_app_iff in H.
      destruct H as [H|H]; apply mem_In in H; congruence.
Qed.

(** X16: the values of the Statistics sheet cannot be formatted exactly when
    some metric of the sheet holds text under a key formatted as money or as
    a ratio, an [int] too large for a float under a key formatted as money,
    as a percentage or as a ratio, or a number under a date key whose date
    cannot be converted (the date, or the date one day earlier, lies
    outside the years 1 to 9999 of [datetime]); one such value is enough to
    lose the whole sheet: the operation then writes the error marker with
    the text of the exception and nothing else.  A date of the year 987 is
    formatted, and one of the year 10000 gives the text of [datetime]. *)
Theorem statistics_fails_iff (tz : Z) (e : Statistics.env)
  (info : gmap string pyval) (w : Excel.writer)
  (Hinfo : Statistics.ticker_info e = Returned info) :
  let d := info ∪ Statistics.scraped_data e in
  ((exists err,
       Statistics.format_categories tz d Statistics.categories = Raised err)
   <-> exists category metrics label key,
         In (category, metrics) Statistics.categories
         /\ In (label, key) metrics
         /\ unformattable tz key (dict_get d key))
  /\ (forall err,
       Statistics.format_categories tz d Statistics.categories = Raised err ->
       Run.fetch_statistics tz e w
       = (Returned tt,
          Excel.to_excel (Excel.marker_frame "Error" err) "Statistics" true w))
  /\ Statistics.format_value 0 "exDividendDate" (PyNum (- 31000000000))
     = Returned (PyStr "987-08-25")
  /\ Statistics.format_value 0 "exDividendDate" (PyNum 253402300799)
     = Returned (PyStr "9999-12-31")
  /\ Statistics.format_value 0 "exDividendDate" (PyNum 253402300800)
     = Raised "year 10000 is out of range"
  /\ Statistics.format_value 0 "lastSplitDate" (PyNum (- 62135510400))
     = Returned (PyStr "1-01-02")
  /\ Statistics.format_value 0 "lastSplitDate" (PyNum (- 62135510401))
     = Raised "year 0 is out of range".
Proof.
  cbv zeta. split; [|split].
  - rewrite format_categories_raises. split.
    + intros (c & m & l & k & err & Hc & Hm & Hraise).
      exists c, m, l, k. split; [exact Hc|]. split; [exact Hm|].
      apply format_value_raises. exists err. exact Hraise.
    + intros (c & m & l & k & Hc & Hm & Hbad).
      apply format_value_raises in Hbad. destruct Hbad as [err Hraise].
      exists c, m, l, k, err. repeat split; assumption.
  - intros err Hraise.
    unfold Run.fetch_statistics, Run.guarded, Excel.try_except,
      Statistics.body, Excel.bind, Excel.lift.
    rewrite Hinfo, Hraise. reflexivity.
  - repeat split; vm_compute; reflexivity.
Qed.

Lemma statistics_fails_iff_witness :
  let info : gmap string pyval :=
    <["exDividendDate" := PyNum 253402300800]> ∅ in
  let e := Statistics.mkEnv (Returned info) ∅ in
  Run.fetch_statistics 0 e ∅
  = (Returned tt,
     Excel.to_excel
       (Excel.marker_frame "Error" "year 10000 is out of range")
       "Statistics" true ∅).
Proof.
  intros info e.
  apply (proj1 (proj2 (statistics_fails_iff 0 e info ∅ eq_refl))).
  vm_compute. reflexivity.
Defined.

(** ** [fetch_company_summary]: which source a value comes from *)

Lemma fill_missing_lookup (base extra : gmap string pyval) (key : string) :
  SummaryInfo.fill_missing base extra !! key
  = if SummaryInfo.absent base key
    then match extra !! key with
         | Some v => Some v
         | None => base !! key
         end
    else base !! key.
Proof.
  unfold SummaryInfo.fill_missing. revert key.
  apply (map_fold_weak_ind
    (fun acc m => forall key,
       acc !! key
       = if SummaryInfo.absent base key
         then match m !! key with Some v => Some v | None => base !! key end
         else base !! key)).
  - intros key. rewrite lookup_empty. destruct (SummaryInfo.absent base key); reflexivity.
  - intros i x m r Hi IH key.
    assert (Hri : SummaryInfo.absent r i = SummaryInfo.absent base i).
    { unfold SummaryInfo.absent, dict_get. rewrite (IH i), Hi.
      destruct (SummaryInfo.absent base i); reflexivity. }
    rewrite Hri.
    destruct (decide (key = i)) as [->|Hne].
    + rewrite lookup_insert_eq.
      destruct (SummaryInfo.absent base i) eqn:Ea.
      * apply lookup_insert_eq.
      * rewrite IH, Ea. reflexivity.
    + rewrite (lookup_insert_ne m) by congruence.
      destruct (SummaryInfo.absent base i).
      * rewrite lookup_insert_ne by congruence. apply IH.
      * apply IH.
Qed.

Lemma fill_missing_present base extra key :
  SummaryInfo.absent base key = false ->
  SummaryInfo.fill_missing base extra !! key = base !! key.
Proof. intros H. rewrite fill_missing_lookup, H. reflexivity. Qed.

Lemma fill_missing_dict_get base extra key :
  dict_get (SummaryInfo.fill_missing base extra) key
  = if SummaryInfo.absent base key
    then match extra !! key with
         | Some v => v
         | None => PyNone
         end
    else dict_get base key.
Proof.
  unfold dict_get at 1. rewrite fill_missing_lookup.
  destruct (SummaryInfo.absent base key) eqn:Ea; [|reflexivity].
  destruct (extra !! key); [reflexivity|].
  unfold SummaryInfo.absent, dict_get in Ea.
  destruct (base !! key) as [[| |]|]; simpl in *; try discriminate; reflexivity.
Qed.

(** The first value that is not [None] under [key] in a list of
    dictionaries, [None] when there is none. *)
Fixpoint first_present (ds : list (gmap string pyval)) (key : string) : pyval :=
  match ds with
  | [] => PyNone
  | d :: rest =>
      if is_not_none (dict_get d key) then dict_get d key
      else first_present rest key
  end.

Lemma absent_false_has d key :
  SummaryInfo.absent d key = false <-> is_not_none (dict_get d key) = true.
Proof. unfold SummaryInfo.absent. destruct (is_not_none _); intuition. Qed.

Lemma existsb_absent_key d key :
  In key SummaryInfo.missing_keys ->
  SummaryInfo.absent d key = true ->
  existsb (SummaryInfo.absent d) SummaryInfo.missing_keys = true.
Proof. intros Hin Ha. apply existsb_exists. exists key. split; assumption. Qed.

Lemma merged_info_dict_get info s key :
  In key SummaryInfo.missing_keys ->
  dict_get (SummaryInfo.merged_info info s) key
  = first_present
      [info; SummaryInfo.scraped_data info s; SummaryInfo.fallback_values s] key.
Proof.
  intros Hkey. unfold SummaryInfo.merged_info. cbn [first_present].
  destruct (is_not_none (dict_get info key)) eqn:Hi.
  - assert (Ha : SummaryInfo.absent info key = false) by (apply absent_false_has, Hi).
    destruct (SummaryInfo.has_missing_data info); [|reflexivity].
    cbv zeta.
    assert (Ha1 : SummaryInfo.absent
                    (SummaryInfo.fill_missing info (SummaryInfo.scraped_data info s))
                    key = false).
    { apply absent_false_has. rewrite fill_missing_dict_get, Ha. exact Hi. }
    destruct (existsb _ SummaryInfo.missing_keys).
    + rewrite fill_missing_dict_get, Ha1, fill_missing_dict_get, Ha. reflexivity.
    + rewrite fill_missing_dict_get, Ha. reflexivity.
  - assert (Ha : SummaryInfo.absent info key = true)
      by (unfold SummaryInfo.absent; rewrite Hi; reflexivity).
    assert (Hm : SummaryInfo.has_missing_data info = true).
    { unfold SummaryInfo.has_missing_data.
      rewrite (existsb_absent_key info key Hkey Ha). apply orb_true_r. }
    rewrite Hm. cbv zeta.
    set (scraped := SummaryInfo.scraped_data info s).
    assert (H1 : dict_get (SummaryInfo.fill_missing info scraped) key
                 = dict_get scraped key).
    { rewrite fill_missing_dict_get, Ha. unfold dict_get.
      destruct (scraped !! key); reflexivity. }
    destruct (is_not_none (dict_get scraped key)) eqn:Hs.
    + assert (Ha1 : SummaryInfo.absent (SummaryInfo.fill_missing info scraped) key
                    = false).
      { apply absent_false_has. rewrite H1. exact Hs. }
      destruct (existsb _ SummaryInfo.missing_keys).
      * rewrite fill_missing_dict_get, Ha1. exact H1.
      * exact H1.
    + assert (Ha1 : SummaryInfo.absent (SummaryInfo.fill_missing info scraped) key
                    = true).
      { unfold SummaryInfo.absent. rewrite H1, Hs. reflexivity. }
      rewrite (existsb_absent_key _ key Hkey Ha1).
      rewrite fill_missing_dict_get, Ha1.
      unfold dict_get.
      destruct (SummaryInfo.fallback_values s !! key) as [v|]; [|reflexivity].
      destruct v; reflexivity.
Qed.

(** X17: in the company summary a value that the provider's [info] holds
    (other than [None]) is never replaced by scraped or generated data, and
    nothing is scraped when none of the four critical keys is missing.  For
    each critical key ([beta], [trailingPE], [trailingEps],
    [targetMeanPrice]) the value used afterwards is the first one that is not
    [None] among [info], the scraped data and the generated fallback values,
    in this order. *)
Theorem summary_source_priority (info : gmap string pyval)
  (s : SummaryInfo.sources) :
  (forall key v,
     info !! key = Some v -> v <> PyNone ->
     SummaryInfo.merged_info info s !! key = Some v)
  /\ (SummaryInfo.has_missing_data info = false ->
      SummaryInfo.merged_info info s = info
      /\ SummaryInfo.scraped_data info s = ∅)
  /\ (forall key, In key SummaryInfo.missing_keys ->
      dict_get (SummaryInfo.merged_info info s) key
      = first_present
          [info; SummaryInfo.scraped_data info s;
           SummaryInfo.fallback_values s] key).
Proof.
  split; [|split].
  - intros key v Hv Hnone.
    assert (Ha : SummaryInfo.absent info key = false).
    { unfold SummaryInfo.absent, dict_get. rewrite Hv. destruct v; [congruence| |];
        reflexivity. }
    unfold SummaryInfo.merged_info.
    destruct (SummaryInfo.has_missing_data info); [|exact Hv].
    cbv zeta.
    assert (H1 : SummaryInfo.fill_missing info (SummaryInfo.scraped_data info s) !! key
                 = Some v).
    { rewrite fill_missing_present by exact Ha. exact Hv. }
    destruct (existsb _ SummaryInfo.missing_keys); [|exact H1].
    rewrite fill_missing_present; [exact H1|].
    unfold SummaryInfo.absent, dict_get. rewrite H1.
    destruct v; [congruence| |]; reflexivity.
  - intros Hm. unfold SummaryInfo.merged_info, SummaryInfo.scraped_data.
    rewrite Hm. split; reflexivity.
  - intros key Hkey. apply merged_info_dict_get, Hkey.
Qed.

Lemma ratio_cell_sources key info s placeholder :
  In key SummaryInfo.missing_keys ->
  SummaryInfo.ratio_cell key (SummaryInfo.merged_info info s)
    (SummaryInfo.scraped_data info s) placeholder
  = match first_present
            [info; SummaryInfo.scraped_data info s;
             SummaryInfo.fallback_values s] key with
    | PyNone => Returned (PyNum (PyNum.round_to 2 placeholder))
    | v => SummaryInfo.round2 v
    end.
Proof.
  intros Hkey. unfold SummaryInfo.ratio_cell.
  pose proof (merged_info_dict_get info s key Hkey) as Hm.
  unfold SummaryInfo.absent. rewrite Hm. cbn [first_present].
  destruct (is_not_none (dict_get info key)) eqn:Hi.
  - rewrite Hi. destruct (dict_get info key); [discriminate| |]; reflexivity.
  - destruct (is_not_none (dict_get (SummaryInfo.scraped_data info s) key)) eqn:Hs.
    + rewrite Hs.
      destruct (dict_get (SummaryInfo.scraped_data info s) key);
        [discriminate| |]; reflexivity.
    + destruct (is_not_none (dict_get (SummaryInfo.fallback_values s) key)) eqn:Hf.
      * destruct (dict_get (SummaryInfo.fallback_values s) key);
          [discriminate| |]; reflexivity.
      * simpl. rewrite ?Hs. reflexivity.
Qed.

(** X18: the cells [Beta (5Y Monthly)] and [PE Ratio (TTM)] of the company
    summary hold the first value that is not [None] among the provider's
    [info], the scraped data and the generated fallback values, rounded to two
    decimals (rounding text raises), and otherwise the rounded number drawn at
    random; the text [N/A] of the source is never written, and these cells do
    not tell a drawn number from a found one. *)
Theorem ratio_cells_sources (info : gmap string pyval) (s : SummaryInfo.sources)
  (r : Q) :
  let found key :=
    first_present
      [info; SummaryInfo.scraped_data info s; SummaryInfo.fallback_values s]
      key in
  SummaryInfo.beta_cell (SummaryInfo.merged_info info s)
    (SummaryInfo.scraped_data info s) r
  = match found "beta" with
    | PyNone =>
        Returned (PyNum (PyNum.round_to 2 (SummaryInfo.beta_placeholder r)))
    | v => SummaryInfo.round2 v
    end
  /\ SummaryInfo.pe_cell (SummaryInfo.merged_info info s)
       (SummaryInfo.scraped_data info s) r
     = match found "trailingPE" with
       | PyNone =>
           Returned (PyNum (PyNum.round_to 2 (SummaryInfo.pe_placeholder r)))
       | v => SummaryInfo.round2 v
       end.
Proof.
  cbv zeta. split; apply ratio_cell_sources; simpl; tauto.
Qed.

Lemma ratio_cells_sources_witness :
  let s := SummaryInfo.mkSources ∅ ∅ ∅ in
  SummaryInfo.beta_cell (SummaryInfo.merged_info ∅ s)
    (SummaryInfo.scraped_data ∅ s) 0.46
  = Returned (PyNum 1.23)
  /\ SummaryInfo.pe_cell (SummaryInfo.merged_info ∅ s)
       (SummaryInfo.scraped_data ∅ s) 0.5
     = Returned (PyNum 25).
Proof.
  intros s.
  destruct (ratio_cells_sources ∅ s 0.46) as [Hb _].
  destruct (ratio_cells_sources ∅ s 0.5) as [_ Hp].
  rewrite Hb, Hp. split; reflexivity.
Defined.

(** *** A drawn number is written like a found one *)




(** ** Rounding keeps a number between two bounds it can represent *)

(** [round(x, 2)] of a number that is not negative stays between two bounds
    given in hundredths. *)
Lemma round_to_2_bounds (lo hi : Z) (x : Q) :
  (0 <= x)%Q -> (lo # 100 <= x)%Q -> (x <= hi # 100)%Q ->
  (lo # 100 <= PyNum.round_to 2 x)%Q /\ (PyNum.round_to 2 x <= hi # 100)%Q.
Proof.
  intros H0 Hlo Hhi. unfold PyNum.round_to, PyNum.scaled.
  assert (Hneg : PyNum.is_neg x = false).
  { unfold PyNum.is_neg. apply Z.ltb_ge. unfold Qle in H0. simpl in H0. lia. }
  rewrite Hneg. rewrite Qred_correct.
  assert (Habs : Qabs x = x).
  { destruct x as [n d]. unfold Qabs. unfold Qle in H0. simpl in H0.
    rewrite Z.abs_eq by lia. reflexivity. }
  rewrite Habs.
  change (Z.to_pos (10 ^ 2)) with 100%positive.
  change (inject_Z (10 ^ 2)) with (inject_Z 100).
  assert (Hl : (lo <= PyNum.round_half_even (x * inject_Z 100))%Z).
  { apply round_half_even_lower. unfold Qle in *. simpl in *. nia. }
  assert (Hh : (PyNum.round_half_even (x * inject_Z 100) <= hi)%Z).
  { apply round_half_even_upper. unfold Qle in *. simpl in *. nia. }
  unfold Qle. simpl. lia.
Qed.

(** X19: the numbers drawn for a missing beta and a missing P/E lie, after
    rounding, between 1.00 and 1.50 and between 20.00 and 30.00, for every
    draw of [random.random()] (a number from 0 up to, not including, 1). *)
Theorem placeholder_ranges (r : Q) (Hlo : (0 <= r)%Q) (Hhi : (r < 1)%Q) :
  (1 <= PyNum.round_to 2 (SummaryInfo.beta_placeholder r))%Q
  /\ (PyNum.round_to 2 (SummaryInfo.beta_placeholder r) <= 1.5)%Q
  /\ (20 <= PyNum.round_to 2 (SummaryInfo.pe_placeholder r))%Q
  /\ (PyNum.round_to 2 (SummaryInfo.pe_placeholder r) <= 30)%Q.
Proof.
  assert (Hb : (100 # 100 <= PyNum.round_to 2 (SummaryInfo.beta_placeholder r))%Q
               /\ (PyNum.round_to 2 (SummaryInfo.beta_placeholder r) <= 150 # 100)%Q).
  { apply round_to_2_bounds; unfold SummaryInfo.beta_placeholder;
      unfold Qle, Qlt in *; simpl in *; nia. }
  assert (Hp : (2000 # 100 <= PyNum.round_to 2 (SummaryInfo.pe_placeholder r))%Q
               /\ (PyNum.round_to 2 (SummaryInfo.pe_placeholder r) <= 3000 # 100)%Q).
  { apply round_to_2_bounds; unfold SummaryInfo.pe_placeholder;
      unfold Qle, Qlt in *; simpl in *; nia. }
  destruct Hb as [Hb1 Hb2], Hp as [Hp1 Hp2].
  repeat split.
  - eapply Qle_trans; [|exact Hb1]. unfold Qle. simpl. lia.
  - eapply Qle_trans; [exact Hb2|]. unfold Qle. simpl. lia.
  - eapply Qle_trans; [|exact Hp1]. unfold Qle. simpl. lia.
  - eapply Qle_trans; [exact Hp2|]. unfold Qle. simpl. lia.
Qed.

Lemma placeholder_ranges_witness :
  PyNum.round_to 2 (SummaryInfo.beta_placeholder 0.999) = (3 # 2)%Q
  /\ (1 <= PyNum.round_to 2 (SummaryInfo.beta_placeholder 0.999))%Q
  /\ (PyNum.round_to 2 (SummaryInfo.beta_placeholder 0.999) <= 1.5)%Q
  /\ (20 <= PyNum.round_to 2 (SummaryInfo.pe_placeholder 0.999))%Q
  /\ (PyNum.round_to 2 (SummaryInfo.pe_placeholder 0.999) <= 30)%Q.
Proof.
  split; [reflexivity|].
  apply (placeholder_ranges 0.999); [unfold Qle|unfold Qlt]; simpl; lia.
Defined.

(** ** Generated values stay within their bounds *)

Lemma Qlt_bool_false x y : Qlt_bool x y = false <-> (y <= x)%Q.
Proof.
  unfold Qlt_bool. rewrite negb_false_iff. apply Qle_bool_iff.
Qed.

Lemma py_clamp_bounds (lo hi x : Q) :
  (lo <= hi)%Q ->
  (lo <= Generated.py_max lo (Generated.py_min hi x))%Q
  /\ (Generated.py_max lo (Generated.py_min hi x) <= hi)%Q.
Proof.
  intros Hlh. unfold Generated.py_max, Generated.py_min.
  destruct (Qlt_bool x hi) eqn:E1.
  - apply Qlt_bool_iff in E1.
    destruct (Qlt_bool lo x) eqn:E2.
    + apply Qlt_bool_iff in E2. split; apply Qlt_le_weak; assumption.
    + split; [apply Qle_refl|exact Hlh].
  - destruct (Qlt_bool lo hi) eqn:E2.
    + split; [exact Hlh|apply Qle_refl].
    + split; [apply Qle_refl|exact Hlh].
Qed.

Lemma clamp_bounds x :
  (0 <= Generated.clamp x)%Q /\ (Generated.clamp x <= 100)%Q.
Proof. apply py_clamp_bounds. unfold Qle. simpl. lia. Qed.

Lemma adjusted_bounds score factor noise_value :
  (0 <= Generated.adjusted score factor noise_value)%Q
  /\ (Generated.adjusted score factor noise_value <= 100)%Q.
Proof.
  unfold Generated.adjusted.
  destruct (clamp_bounds (Generated.clamp (score * (1 - factor)) + noise_value))
    as [Hlo Hhi].
  destruct (round_to_2_bounds 0 10000 _ Hlo) as [H1 H2].
  - eapply Qle_trans; [|exact Hlo]. unfold Qle. simpl. lia.
  - eapply Qle_trans; [exact Hhi|]. unfold Qle. simpl. lia.
  - split.
    + eapply Qle_trans; [|exact H1]. unfold Qle. simpl. lia.
    + eapply Qle_trans; [exact H2|]. unfold Qle. simpl. lia.
Qed.

Definition in_score_range (x : Q) : Prop := (0 <= x)%Q /\ (x <= 100)%Q.

(** X20: the scores that [_adjust_historical_scores] returns lie between 0
    and 100, all four of them, for every current score, age in years, noise
    and industry, on the normal path and on the path taken after an
    exception. *)
Theorem adjusted_scores_in_range (ticker_info : outcome (gmap string pyval))
  (current_scores : Generated.scores) (years_ago : Q) (n : Generated.noise) :
  let result :=
    Generated._adjust_historical_scores ticker_info current_scores years_ago n in
  in_score_range (Generated.total_esg result)
  /\ in_score_range (Generated.environmental result)
  /\ in_score_range (Generated.social result)
  /\ in_score_range (Generated.governance result).
Proof.
  cbv zeta. unfold Generated._adjust_historical_scores, Generated.adjust_body.
  destruct ticker_info as [info|err].
  - destruct (Generated.lowered info "industry") as [industry|err];
      destruct (Generated.lowered info "sector") as [sector|err'];
      simpl; repeat split;
      try apply adjusted_bounds; apply clamp_bounds.
  - simpl. repeat split; apply clamp_bounds.
Qed.

Lemma Qdiv_le_denominator (p a b : Q) :
  (0 <= p)%Q -> (0 < a)%Q -> (a <= b)%Q -> (p / b <= p / a)%Q.
Proof.
  intros Hp Ha Hab.
  assert (Hb : (0 < b)%Q) by (eapply Qlt_le_trans; eassumption).
  unfold Qdiv. rewrite !(Qmult_comm p).
  apply Qmult_le_compat_r; [|exact Hp].
  apply Qle_shift_inv_r; [exact Hb|].
  rewrite Qmult_comm.
  apply (Qle_shift_div_l 1 b a Ha).
  rewrite Qmult_1_l. exact Hab.
Qed.

Lemma Qmult_le_nonneg_l (p x y : Q) :
  (0 <= p)%Q -> (x <= y)%Q -> (p * x <= p * y)%Q.
Proof.
  intros Hp Hxy. rewrite !(Qmult_comm p).
  apply Qmult_le_compat_r; assumption.
Qed.

(** The float of a sum of a constant and a float between two bounds. *)
Lemma fl_offset_bounds (c lo hi x : Q) :
  (0 <= c + lo)%Q -> (lo <= x)%Q -> (x <= hi)%Q ->
  (PyNum.fl (c + lo) <= PyNum.fl (c + x))%Q
  /\ (PyNum.fl (c + x) <= PyNum.fl (c + hi))%Q.
Proof.
  intros H0 Hlo Hhi. split; apply fl_mono.
  - exact H0.
  - apply Qplus_le_r. exact Hlo.
  - eapply Qle_trans; [exact H0|]. apply Qplus_le_r. exact Hlo.
  - apply Qplus_le_r. exact Hhi.
Qed.

(** The float of a draw of [random.random()] multiplied by a positive
    float. *)
Lemma fl_draw_bounds (r c : Q) :
  (0 <= r)%Q -> (r < 1)%Q -> (0 <= c)%Q ->
  (0 <= PyNum.fl (r * c))%Q /\ (PyNum.fl (r * c) <= PyNum.fl c)%Q.
Proof.
  intros Hr0 Hr1 Hc.
  assert (H0 : (0 <= r * c)%Q) by (apply Qmult_le_0_compat; assumption).
  split; [apply fl_nonneg; exact H0|].
  apply fl_mono; [exact H0|].
  rewrite <- (Qmult_1_l c) at 2.
  apply Qmult_le_compat_r; [apply Qlt_le_weak; exact Hr1|exact Hc].
Qed.

(** The largest draw of [random.random()]. *)
Definition top_draw : Q := (1 - (1 # Z.to_pos (2 ^ 53)))%Q.

(** X21: the values that [_get_fallback_values] generates are bounded: the
    beta estimated from the range of the year lies between 0.5 and 2.5; the
    P/E lies between 25 and 35 for a symbol that contains the letter T or
    AAPL, and between 15 and 25 otherwise, and the upper bound is reached by
    the largest draw; the EPS lies between the floats of the price divided
    by those two bounds; the target price lies between the floats of the
    price multiplied by the floats 1.05 and 1.05 + 0.1, which for a price
    of 160 is above 184. *)
Theorem fallback_values_bounded (ticker_symbol : string)
  (year_low year_high last_price : option Q) (recent_price r r' : Q)
  (Hr : (0 <= r)%Q /\ (r < 1)%Q) (Hr' : (0 <= r')%Q /\ (r' < 1)%Q)
  (Hprice : (0 <= recent_price)%Q) :
  (forall beta,
     Generated.estimated_beta year_low year_high last_price = Some beta ->
     (0.5 <= beta)%Q /\ (beta <= 2.5)%Q)
  /\ (let pe := Generated.fallback_pe ticker_symbol r in
      let eps := Generated.fallback_eps recent_price pe in
      if Generated.tech_like ticker_symbol
      then (25 <= pe)%Q /\ (pe <= 35)%Q
           /\ (PyNum.fl (recent_price / 35) <= eps)%Q
           /\ (eps <= PyNum.fl (recent_price / 25))%Q
      else (15 <= pe)%Q /\ (pe <= 25)%Q
           /\ (PyNum.fl (recent_price / 25) <= eps)%Q
           /\ (eps <= PyNum.fl (recent_price / 15))%Q)
  /\ (PyNum.fl (recent_price * PyNum.fl 1.05)
      <= Generated.fallback_target recent_price r')%Q
  /\ (Generated.fallback_target recent_price r'
      <= PyNum.fl (recent_price * PyNum.fl (PyNum.fl 1.05 + PyNum.fl 0.1)))%Q
  /\ Generated.fallback_pe "TSLA" top_draw = 35%Q
  /\ Generated.fallback_pe "IBM" top_draw = 25%Q
  /\ (184 < Generated.fallback_target 160 top_draw)%Q
  /\ Generated.fallback_target 160 top_draw
     = PyNum.fl (160 * PyNum.fl (PyNum.fl 1.05 + PyNum.fl 0.1)).
Proof.
  destruct Hr as [Hr0 Hr1], Hr' as [Hr0' Hr1'].
  assert (Hten : (0 <= PyNum.fl (r * 10))%Q /\ (PyNum.fl (r * 10) <= 10)%Q).
  { destruct (fl_draw_bounds r 10 Hr0 Hr1 ltac:(discriminate)) as [H1 H2].
    split; [exact H1|]. exact H2. }
  destruct Hten as [Ht0 Ht1].
  assert (Hpe : forall c : Q,
            (0 <= c)%Q -> PyNum.fl c = c -> PyNum.fl (c + 10) = (c + 10)%Q ->
            (c <= PyNum.fl (c + PyNum.fl (r * 10)))%Q
            /\ (PyNum.fl (c + PyNum.fl (r * 10)) <= c + 10)%Q).
  { intros c Hc E1 E2.
    destruct (fl_offset_bounds c 0 10 (PyNum.fl (r * 10))) as [H1 H2];
      [rewrite Qplus_0_r; exact Hc|exact Ht0|exact Ht1|].
    split.
    - eapply Qle_trans; [|exact H1].
      rewrite <- E1 at 1. apply fl_mono; [exact Hc|].
      rewrite Qplus_0_r. apply Qle_refl.
    - rewrite E2 in H2. exact H2. }
  assert (Heps : forall lo hi pe : Q,
            (0 < lo)%Q -> (lo <= pe)%Q -> (pe <= hi)%Q ->
            (PyNum.fl (recent_price / hi)
             <= Generated.fallback_eps recent_price pe)%Q
            /\ (Generated.fallback_eps recent_price pe
                <= PyNum.fl (recent_price / lo))%Q).
  { intros lo hi pe Hlo H1 H2.
    assert (Hpos : (0 < pe)%Q) by (eapply Qlt_le_trans; eassumption).
    assert (Hhi : (0 < hi)%Q) by (eapply Qlt_le_trans; eassumption).
    unfold Generated.fallback_eps. split; apply fl_mono.
    - apply Qle_shift_div_l; [exact Hhi|]. rewrite Qmult_0_l. exact Hprice.
    - apply Qdiv_le_denominator; assumption.
    - apply Qle_shift_div_l; [exact Hpos|]. rewrite Qmult_0_l. exact Hprice.
    - apply Qdiv_le_denominator; assumption. }
  split; [|split; [|split; [|split]]].
  - intros beta. unfold Generated.estimated_beta.
    destruct (_ && _ && _); [|discriminate].
    destruct year_low as [lo|], year_high as [hi|], last_price as [price|];
      try discriminate.
    intros [= <-]. apply py_clamp_bounds. unfold Qle. simpl. lia.
  - cbv zeta. unfold Generated.fallback_pe.
    destruct (Generated.tech_like ticker_symbol).
    + destruct (Hpe 25%Q ltac:(discriminate) ltac:(vm_compute; reflexivity)
                  ltac:(vm_compute; reflexivity)) as [H1 H2].
      split; [exact H1|]. split; [exact H2|].
      apply (Heps 25%Q 35%Q); [reflexivity|exact H1|exact H2].
    + destruct (Hpe 15%Q ltac:(discriminate) ltac:(vm_compute; reflexivity)
                  ltac:(vm_compute; reflexivity)) as [H1 H2].
      split; [exact H1|]. split; [exact H2|].
      apply (Heps 15%Q 25%Q); [reflexivity|exact H1|exact H2].
  - unfold Generated.fallback_target.
    assert (Hc : (0 <= PyNum.fl 0.1)%Q) by (apply fl_nonneg; discriminate).
    destruct (fl_draw_bounds r' (PyNum.fl 0.1) Hr0' Hr1' Hc) as [H1 H2].
    assert (Ha : (0 <= PyNum.fl 1.05)%Q) by (apply fl_nonneg; discriminate).
    destruct (fl_offset_bounds (PyNum.fl 1.05) 0 (PyNum.fl (PyNum.fl 0.1))
                (PyNum.fl (r' * PyNum.fl 0.1))) as [H3 _];
      [rewrite Qplus_0_r; exact Ha|exact H1|exact H2|].
    apply fl_mono; [apply Qmult_le_0_compat; assumption|].
    apply Qmult_le_nonneg_l; [exact Hprice|].
    eapply Qle_trans; [|exact H3].
    replace (PyNum.fl 1.05) with (PyNum.fl (PyNum.fl 1.05)) at 1
      by (vm_compute; reflexivity).
    apply fl_mono; [exact Ha|].
    rewrite Qplus_0_r. apply Qle_refl.
  - unfold Generated.fallback_target.
    assert (Hc : (0 <= PyNum.fl 0.1)%Q) by (apply fl_nonneg; discriminate).
    destruct (fl_draw_bounds r' (PyNum.fl 0.1) Hr0' Hr1' Hc) as [H1 H2].
    assert (Ha : (0 <= PyNum.fl 1.05)%Q) by (apply fl_nonneg; discriminate).
    destruct (fl_offset_bounds (PyNum.fl 1.05) 0 (PyNum.fl (PyNum.fl 0.1))
                (PyNum.fl (r' * PyNum.fl 0.1))) as [H3 H4];
      [rewrite Qplus_0_r; exact Ha|exact H1|exact H2|].
    replace (PyNum.fl (PyNum.fl 0.1)) with (PyNum.fl 0.1) in H4
      by (vm_compute; reflexivity).
    apply fl_mono.
    + apply Qmult_le_0_compat; [exact Hprice|].
      eapply Qle_trans; [|exact H3]. apply fl_nonneg.
      rewrite Qplus_0_r. exact Ha.
    + apply Qmult_le_nonneg_l; [exact Hprice|exact H4].
  - repeat split; vm_compute; reflexivity.
Qed.

Lemma fallback_values_bounded_witness :
  (exists beta,
     Generated.estimated_beta (Some 120%Q) (Some 200%Q) (Some 160%Q) = Some beta
     /\ (0.5 <= beta)%Q /\ (beta <= 2.5)%Q)
  /\ (25 <= Generated.fallback_pe "TSLA" 0.5)%Q
  /\ (Generated.fallback_pe "TSLA" 0.5 <= 35)%Q
  /\ Generated.fallback_pe "TSLA" 0.5 = 30%Q.
Proof.
  assert (Hr : (0 <= 0.5)%Q /\ (0.5 < 1)%Q)
    by (split; [unfold Qle|unfold Qlt]; simpl; lia).
  assert (Hprice : (0 <= 160)%Q) by (unfold Qle; simpl; lia).
  pose proof (fallback_values_bounded "TSLA" (Some 120%Q) (Some 200%Q)
                (Some 160%Q) 160 0.5 0.5 Hr Hr Hprice) as (Hbeta & Hpe & _).
  split.
  - eexists. split; [reflexivity|]. apply Hbeta. reflexivity.
  - cbv zeta in Hpe.
    change (Generated.tech_like "TSLA") with true in Hpe.
    destruct Hpe as (H1 & H2 & _).
    split; [exact H1|]. split; [exact H2|]. vm_compute. reflexivity.
Defined.

(** ** [fetch_peers_esg]: which tickers can be gathered *)

(** A ticker that is neither an index ([^] in front) nor a future or a
    currency pair ([=] inside). *)
Definition company_ticker (ticker : string) : Prop :=
  PyStr.startswith ticker "^" = false /\ PyStr.contains ticker "=" = false.

Definition company_entries (l : list Peers.entry) : Prop :=
  Forall (fun p => company_ticker (Peers.Ticker p)) l.

Lemma company_entries_app l1 l2 :
  company_entries l1 -> company_entries l2 -> company_entries (l1 ++ l2)%list.
Proof. intros H1 H2. apply List.Forall_app. split; assumption. Qed.

Lemma index_like_false ticker :
  Peers.index_like ticker = false -> company_ticker ticker.
Proof.
  unfold Peers.index_like, company_ticker. intros H.
  repeat (apply orb_false_iff in H; destruct H as [H ?]). split; assumption.
Qed.

Lemma process_anchor_company subject pd a pd' :
  Peers.process_anchor subject pd a = Returned pd' ->
  company_entries pd -> company_entries pd'.
Proof.
  unfold Peers.process_anchor.
  destruct (Peers.href_ticker (Peers.href a)) as [ticker|]; [|intros [= <-]; tauto].
  destruct (_ || _ || _); [intros [= <-]; tauto|].
  destruct (Peers.index_like ticker) eqn:Ei; [intros [= <-]; tauto|].
  destruct (Peers.row a) as [r|err]; [|discriminate].
  cbv zeta. destruct (_ && _); intros [= <-] H; [exact H|].
  apply company_entries_app; [exact H|].
  constructor; [|constructor]. simpl. apply index_like_false, Ei.
Qed.

Lemma process_anchors_company subject anchors : forall pd,
  company_entries pd ->
  company_entries (fst (Peers.process_anchors subject pd anchors)).
Proof.
  induction anchors as [|a anchors IH]; intros pd H; simpl; [exact H|].
  destruct (Peers.process_anchor subject pd a) as [pd'|err] eqn:E; [|exact H].
  apply IH. eapply process_anchor_company; eassumption.
Qed.

Lemma process_raw_peer_company pd p pd' :
  Peers.process_raw_peer pd p = Returned pd' ->
  company_entries pd -> company_entries pd'.
Proof.
  unfold Peers.process_raw_peer.
  destruct p as [|symbol name s1 s2 s3 s4 s5 s6 s7 s8]; [intros [= <-]; tauto|].
  destruct symbol as [|x|ticker]; try discriminate.
  destruct (Peers.index_like ticker) eqn:Ei; [intros [= <-]; tauto|].
  cbv zeta. destruct (Peers.flagged _) as [[|]|err]; try discriminate;
    intros [= <-] H; [exact H|].
  apply company_entries_app; [exact H|].
  constructor; [|constructor]. simpl. apply index_like_false, Ei.
Qed.

Lemma process_raw_peers_company peers : forall pd,
  company_entries pd ->
  company_entries (fst (Peers.process_raw_peers pd peers)).
Proof.
  induction peers as [|p peers IH]; intros pd H; simpl; [exact H|].
  destruct (Peers.process_raw_peer pd p) as [pd'|err] eqn:E; [|exact H].
  apply IH. eapply process_raw_peer_company; eassumption.
Qed.

Lemma process_matches_company matches : forall pd,
  company_entries pd -> company_entries (Peers.process_matches pd matches).
Proof.
  induction matches as [|m matches IH]; intros pd H; simpl; [exact H|].
  destruct m as [[peers|]|err]; [|exact H|apply IH, H].
  pose proof (process_raw_peers_company peers pd H) as Hp.
  destruct (Peers.process_raw_peers pd peers) as [pd' finished]. simpl in Hp.
  destruct finished; [exact Hp|apply IH, Hp].
Qed.

Lemma process_scripts_company scripts :
  company_entries (Peers.process_scripts scripts).
Proof.
  unfold Peers.process_scripts.
  assert (H : forall pd, company_entries pd ->
                company_entries (fold_left Peers.process_matches scripts pd)).
  { induction scripts as [|s scripts IH]; intros pd Hpd; simpl; [exact Hpd|].
    apply IH, process_matches_company, Hpd. }
  apply H. constructor.
Qed.

(** The filter keeps entries of its argument, in their order, and only
    company tickers. *)
Lemma filter_entries_spec pd : forall kept,
  Peers.filter_entries pd = Returned kept ->
  company_entries kept
  /\ sublist kept pd
  /\ Forall (fun p => Peers.has_score p = true) kept.
Proof.
  induction pd as [|p pd IH]; intros kept; simpl.
  - intros [= <-]. repeat split; constructor.
  - destruct (_ || _ || _ || _) eqn:Ex.
    + intros H. destruct (IH kept H) as (H1 & H2 & H3).
      repeat split; [exact H1|apply sublist_cons, H2|exact H3].
    + destruct (Peers.flagged (Peers.Company_Name p)) as [[|]|err];
        [| |discriminate].
      * intros H. destruct (IH kept H) as (H1 & H2 & H3).
        repeat split; [exact H1|apply sublist_cons, H2|exact H3].
      * destruct (Peers.filter_entries pd) as [rest|err]; [|discriminate].
        destruct (IH rest eq_refl) as (H1 & H2 & H3).
        destruct (Peers.has_score p) eqn:Es; intros [= <-].
        -- repeat split.
           ++ constructor; [|exact H1].
              repeat (apply orb_false_iff in Ex; destruct Ex as [Ex ?]).
              split; assumption.
           ++ apply sublist_skip, H2.
           ++ constructor; assumption.
        -- repeat split; [exact H1|apply sublist_cons, H2|exact H3].
Qed.

Lemma keep_companies_spec l : forall kept,
  Peers.keep_companies l = Returned kept -> Forall company_ticker kept.
Proof.
  induction l as [|v l IH]; intros kept; simpl.
  - intros [= <-]. constructor.
  - destruct v as [|x|p]; try discriminate.
    destruct (Peers.keep_companies l) as [rest|err]; [|discriminate].
    specialize (IH rest eq_refl).
    destruct (negb _ && negb _ && negb _) eqn:E; intros [= <-]; [|exact IH].
    constructor; [|exact IH].
    apply andb_true_iff in E. destruct E as [E _].
    apply andb_true_iff in E. destruct E as [E1 E2].
    apply negb_true_iff in E1, E2. split; assumption.
Qed.

Lemma fallback_entry_ticker peer info p :
  Peers.fallback_entry peer info = Some p -> Peers.Ticker p = peer.
Proof.
  unfold Peers.fallback_entry.
  destruct info as [[pr|]|err]; try discriminate.
  cbv zeta. destruct (Peers.flagged _) as [[|]|err]; try discriminate.
  intros [= <-]. reflexivity.
Qed.

Lemma fallback_entries_company (f : string -> outcome (option Peers.profile))
  (peers : list string) :
  Forall company_ticker peers ->
  company_entries (omap (fun peer => Peers.fallback_entry peer (f peer)) peers).
Proof.
  induction 1 as [|peer peers Hp _ IH]; simpl; [constructor|].
  destruct (Peers.fallback_entry peer (f peer)) as [p|] eqn:E; [|exact IH].
  constructor; [|exact IH].
  rewrite (fallback_entry_ticker _ _ _ E). exact Hp.
Qed.

Lemma Forall_take_list {A} (P : A -> Prop) n (l : list A) :
  Forall P l -> Forall P (take n l).
Proof.
  revert n. induction l as [|x l IH]; intros [|n] H; simpl; try constructor.
  - inversion H; assumption.
  - apply IH. inversion H; assumption.
Qed.

Lemma yfinance_fallback_company e pd pd' :
  Peers.yfinance_fallback e pd = Returned pd' ->
  company_entries pd -> company_entries pd'.
Proof.
  unfold Peers.yfinance_fallback.
  destruct (Peers.ticker_info e) as [[info|]|err]; try discriminate;
    [|intros [= <-]; tauto].
  destruct (Peers.keep_companies (Peers.recommended info)) as [peers|err] eqn:E;
    [|discriminate].
  intros [= <-] H. apply company_entries_app; [exact H|].
  apply fallback_entries_company, Forall_take_list.
  eapply keep_companies_spec, E.
Qed.

Lemma after_exception_company e pd :
  company_entries pd -> company_entries (Peers.after_exception e pd).
Proof.
  intros H. unfold Peers.after_exception.
  destruct (Peers.yfinance_fallback e pd) as [pd'|err] eqn:E; [|exact H].
  eapply yfinance_fallback_company; eassumption.
Qed.

Lemma gathered_company (subject : string) (e : Peers.env) :
  company_entries (Peers.gathered subject e).
Proof.
  unfold Peers.gathered.
  destruct (Peers.response e) as [pg|err];
    [|apply after_exception_company; constructor].
  assert (Ha : company_entries
                 (fst (if (Peers.status_code pg =? 200)%nat
                       then match Peers.esg_section pg with
                            | Some anchors => Peers.process_anchors subject [] anchors
                            | None => ([], None)
                            end
                       else ([], None)))).
  { destruct (Peers.status_code pg =? 200)%nat; [|constructor].
    destruct (Peers.esg_section pg) as [anchors|]; [|constructor].
    apply process_anchors_company. constructor. }
  destruct (if (Peers.status_code pg =? 200)%nat then _ else _)
    as [from_anchors failure].
  simpl in Ha.
  destruct failure as [err|]; [apply after_exception_company, Ha|].
  set (pd := match from_anchors with [] => _ | _ => _ end).
  assert (Hpd : company_entries pd).
  { subst pd. destruct from_anchors; [|exact Ha].
    destruct (Peers.status_code pg =? 200)%nat; [|constructor].
    apply process_scripts_company. }
  destruct (Peers.filter_entries pd) as [filtered|err] eqn:Ef;
    [|apply after_exception_company, Hpd].
  destruct (filter_entries_spec pd filtered Ef) as (Hf & _).
  destruct filtered as [|p filtered]; [|exact Hf].
  destruct (Peers.yfinance_fallback e []) as [pd'|err] eqn:Ey.
  - eapply yfinance_fallback_company; [exact Ey|constructor].
  - apply after_exception_company. constructor.
Qed.

(** X22: no entry that [fetch_peers_esg] gathers for the ticker has a symbol
    that starts with [^] or contains [=], whichever source it came from (the
    anchors of the page, the scripts of the page, the provider library) and
    whether or not an exception interrupted the gathering. *)
Theorem peers_exclude_index_symbols (subject : string) (e : Peers.env) :
  Forall (fun p => PyStr.startswith (Peers.Ticker p) "^" = false
                   /\ PyStr.contains (Peers.Ticker p) "=" = false)
    (Peers.gathered subject e).
Proof. exact (gathered_company subject e). Qed.

(** *** The anchors of the page give each ticker once *)

Definition distinct_peers (subject : string) (l : list Peers.entry) : Prop :=
  List.NoDup (map Peers.Ticker l)
  /\ ~ In subject (map Peers.Ticker l)
  /\ ~ In "" (map Peers.Ticker l).

Lemma sublist_map_In {A B} (f : A -> B) (l1 l2 : list A) :
  sublist l1 l2 -> forall y, In y (map f l1) -> In y (map f l2).
Proof.
  induction 1 as [|x l1 l2 _ IH|x l1 l2 _ IH]; intros y; simpl; [tauto| |].
  - intros [H|H]; [left; exact H|right; apply IH, H].
  - intros H. right. apply IH, H.
Qed.

Lemma sublist_map_NoDup {A B} (f : A -> B) (l1 l2 : list A) :
  sublist l1 l2 -> List.NoDup (map f l2) -> List.NoDup (map f l1).
Proof.
  induction 1 as [|x l1 l2 Hs IH|x l1 l2 _ IH]; simpl; intros H; [constructor| |].
  - apply List.NoDup_cons_iff in H. destruct H as [Hx Hl].
    apply List.NoDup_cons_iff. split; [|apply IH, Hl].
    intros Hin. apply Hx. eapply sublist_map_In; eassumption.
  - apply List.NoDup_cons_iff in H. apply IH, H.
Qed.

Lemma distinct_peers_sublist subject l1 l2 :
  sublist l1 l2 -> distinct_peers subject l2 -> distinct_peers subject l1.
Proof.
  intros Hs (H1 & H2 & H3). split; [|split].
  - eapply sublist_map_NoDup; eassumption.
  - intros H. apply H2. eapply sublist_map_In; eassumption.
  - intros H. apply H3. eapply sublist_map_In; eassumption.
Qed.

Lemma NoDup_snoc {A} (l : list A) (x : A) :
  List.NoDup l -> ~ In x l -> List.NoDup (l ++ [x])%list.
Proof.
  induction l as [|y l IH]; simpl; intros Hl Hx; [repeat constructor; tauto|].
  apply List.NoDup_cons_iff in Hl. destruct Hl as [Hy Hl].
  apply List.NoDup_cons_iff. split; [|apply IH; tauto].
  rewrite List.in_app_iff. simpl. intros [H|[H|[]]]; [tauto|].
  subst. tauto.
Qed.

Lemma process_anchor_distinct subject pd a pd' :
  Peers.process_anchor subject pd a = Returned pd' ->
  distinct_peers subject pd -> distinct_peers subject pd'.
Proof.
  unfold Peers.process_anchor.
  destruct (Peers.href_ticker (Peers.href a)) as [ticker|]; [|intros [= <-]; tauto].
  destruct (_ || _ || _) eqn:Es; [intros [= <-]; tauto|].
  destruct (Peers.index_like ticker); [intros [= <-]; tauto|].
  destruct (Peers.row a) as [r|err]; [|discriminate].
  cbv zeta. destruct (_ && _); intros [= <-] (H1 & H2 & H3);
    [repeat split; assumption|].
  apply orb_false_iff in Es. destruct Es as [Es Em].
  apply orb_false_iff in Es. destruct Es as [Et Eq].
  apply negb_false_iff in Et. apply String.eqb_neq in Eq.
  assert (Hnew : ~ In ticker (map Peers.Ticker pd)).
  { intros Hin. apply mem_In in Hin. congruence. }
  unfold distinct_peers. rewrite !List.map_app. simpl.
  split; [|split].
  - apply NoDup_snoc; assumption.
  - rewrite List.in_app_iff. simpl. intros [H|[H|[]]]; [tauto|congruence].
  - rewrite List.in_app_iff. simpl. intros [H|[H|[]]]; [tauto|].
    subst ticker. discriminate Et.
Qed.

Lemma process_anchors_distinct subject anchors : forall pd,
  distinct_peers subject pd ->
  distinct_peers subject (fst (Peers.process_anchors subject pd anchors)).
Proof.
  induction anchors as [|a anchors IH]; intros pd H; simpl; [exact H|].
  destruct (Peers.process_anchor subject pd a) as [pd'|err] eqn:E; [|exact H].
  apply IH. eapply process_anchor_distinct; eassumption.
Qed.

(** X23: the peers taken from the anchors of the page have pairwise
    different tickers, none of them is the ticker itself and none is empty;
    the same holds for what the filter keeps of them, which is a part of them
    in the same order in which every entry has at least one score. *)
Theorem peers_page_tier_distinct (subject : string) (anchors : list Peers.anchor) :
  let from_anchors := fst (Peers.process_anchors subject [] anchors) in
  List.NoDup (map Peers.Ticker from_anchors)
  /\ ~ In subject (map Peers.Ticker from_anchors)
  /\ ~ In "" (map Peers.Ticker from_anchors)
  /\ forall kept,
       Peers.filter_entries from_anchors = Returned kept ->
       sublist kept from_anchors
       /\ List.NoDup (map Peers.Ticker kept)
       /\ ~ In subject (map Peers.Ticker kept)
       /\ Forall (fun p => Peers.has_score p = true) kept.
Proof.
  cbv zeta.
  assert (H : distinct_peers subject
                (fst (Peers.process_anchors subject [] anchors))).
  { apply process_anchors_distinct. repeat split; simpl; [constructor|tauto..]. }
  destruct H as (H1 & H2 & H3).
  split; [exact H1|]. split; [exact H2|]. split; [exact H3|].
  intros kept Hk.
  destruct (filter_entries_spec _ kept Hk) as (_ & Hs & Hsc).
  destruct (distinct_peers_sublist subject kept _ Hs (conj H1 (conj H2 H3)))
    as (K1 & K2 & _).
  repeat split; assumption.
Qed.

(** *** The peers recommended by the provider library *)

Lemma keep_companies_from l : forall kept,
  Peers.keep_companies l = Returned kept ->
  Forall (fun p => In (PyStr p) l) kept.
Proof.
  induction l as [|v l IH]; intros kept; simpl.
  - intros [= <-]. constructor.
  - destruct v as [|x|p]; try discriminate.
    destruct (Peers.keep_companies l) as [rest|err]; [|discriminate].
    specialize (IH rest eq_refl).
    assert (Hrest : Forall (fun q => PyStr p = PyStr q \/ In (PyStr q) l) rest).
    { eapply List.Forall_impl; [|exact IH]. simpl. tauto. }
    destruct (negb _ && negb _ && negb _); intros [= <-]; [|exact Hrest].
    constructor; [left; reflexivity|exact Hrest].
Qed.

Lemma fallback_entries_from (f : string -> outcome (option Peers.profile))
  (P : string -> Prop) (peers : list string) :
  Forall P peers ->
  Forall (fun p => P (Peers.Ticker p))
    (omap (fun peer => Peers.fallback_entry peer (f peer)) peers).
Proof.
  induction 1 as [|peer peers Hp _ IH]; simpl; [constructor|].
  destruct (Peers.fallback_entry peer (f peer)) as [p|] eqn:E; [|exact IH].
  constructor; [|exact IH].
  rewrite (fallback_entry_ticker _ _ _ E). exact Hp.
Qed.

Lemma omap_length_le {A B} (f : A -> option B) (l : list A) :
  (length (omap f l) <= length l)%nat.
Proof.
  unfold omap. induction l as [|x l IH]; simpl; [lia|].
  destruct (f x); simpl; lia.
Qed.

Lemma yfinance_fallback_nil e pd' :
  Peers.yfinance_fallback e [] = Returned pd' ->
  (length pd' <= 10)%nat
  /\ Forall (fun p => exists info,
               Peers.ticker_info e = Returned (Some info)
               /\ In (PyStr (Peers.Ticker p)) (Peers.recommended info)) pd'.
Proof.
  unfold Peers.yfinance_fallback.
  destruct (Peers.ticker_info e) as [[info|]|err]; try discriminate.
  - destruct (Peers.keep_companies (Peers.recommended info)) as [peers|err] eqn:E;
      [|discriminate].
    intros [= <-]. simpl. split.
    + etransitivity; [apply omap_length_le|]. rewrite length_take. lia.
    + apply (fallback_entries_from (Peers.peer_info e)
               (fun t => exists info0,
                  Returned (Some info) = Returned (Some info0)
                  /\ In (PyStr t) (Peers.recommended info0))).
      apply Forall_take_list.
      eapply List.Forall_impl; [|apply (keep_companies_from _ _ E)].
      intros t Ht. exists info. split; [reflexivity|exact Ht].
  - intros [= <-]. split; [simpl; lia|constructor].
Qed.

Lemma gathered_without_page subject e :
  match Peers.response e with
  | Raised _ => True
  | Returned pg => Peers.status_code pg <> 200%nat
  end ->
  Peers.gathered subject e = Peers.after_exception e [].
Proof.
  intros Hpage. unfold Peers.gathered.
  destruct (Peers.response e) as [pg|err]; [|reflexivity].
  apply Nat.eqb_neq in Hpage. rewrite Hpage. simpl.
  unfold Peers.after_exception.
  destruct (Peers.yfinance_fallback e []); reflexivity.
Qed.

Lemma peers_without_page_gathered subject e :
  match Peers.response e with
  | Raised _ => True
  | Returned pg => Peers.status_code pg <> 200%nat
  end ->
  (forall info, Peers.ticker_info e <> Returned (Some info)) ->
  Peers.gathered subject e = [].
Proof.
  intros Hpage H. rewrite (gathered_without_page subject e Hpage).
  unfold Peers.after_exception, Peers.yfinance_fallback.
  destruct (Peers.ticker_info e) as [[info|]|err']; try reflexivity.
  exfalso. apply (H info). reflexivity.
Qed.

(** X24: when the page cannot be read (the request raises, or the status is
    not 200), the peers are those recommended by the provider library: at
    most 10 entries, each with a symbol of the list of recommended symbols of
    the ticker; nothing is gathered when the library gives no usable [info]
    or raises. *)
Theorem peers_without_page (subject : string) (e : Peers.env)
  (Hpage : match Peers.response e with
           | Raised _ => True
           | Returned pg => Peers.status_code pg <> 200%nat
           end) :
  (length (Peers.gathered subject e) <= 10)%nat
  /\ Forall (fun p => exists info,
               Peers.ticker_info e = Returned (Some info)
               /\ In (PyStr (Peers.Ticker p)) (Peers.recommended info))
       (Peers.gathered subject e)
  /\ ((forall info, Peers.ticker_info e <> Returned (Some info)) ->
      Peers.gathered subject e = []).
Proof.
  assert (Hg : Peers.gathered subject e = Peers.after_exception e []).
  { unfold Peers.gathered.
    destruct (Peers.response e) as [pg|err]; [|reflexivity].
    apply Nat.eqb_neq in Hpage. rewrite Hpage. simpl.
    unfold Peers.after_exception.
    destruct (Peers.yfinance_fallback e []); reflexivity. }
  rewrite Hg. unfold Peers.after_exception.
  destruct (Peers.yfinance_fallback e []) as [pd'|err] eqn:E.
  - destruct (yfinance_fallback_nil e pd' E) as [Hl Hf].
    split; [exact Hl|]. split; [exact Hf|].
    intros H. unfold Peers.yfinance_fallback in E.
    destruct (Peers.ticker_info e) as [[info|]|err']; try congruence.
    exfalso. apply (H info). reflexivity.
  - split; [simpl; lia|]. split; [constructor|reflexivity].
Qed.

Definition sample_profile (name : string) (recommended : list pyval)
  : Peers.profile :=
  Peers.mkProfile (Some (PyStr name)) None (PyNum 17) PyNone PyNone PyNone
    (Some recommended) None.

Definition sample_peers_env : Peers.env :=
  Peers.mkEnv (Raised "timeout")
    (Returned (Some (sample_profile "Apple Inc."
                       [PyStr "MSFT"; PyStr "^GSPC"; PyStr "GOOG"])))
    (fun peer => Returned (Some (sample_profile (peer ++ " Corp") []))).

Lemma peers_without_page_witness :
  map Peers.Ticker (Peers.gathered "AAPL" sample_peers_env) = ["MSFT"; "GOOG"]
  /\ (length (Peers.gathered "AAPL" sample_peers_env) <= 10)%nat.
Proof.
  split; [reflexivity|].
  exact (proj1 (peers_without_page "AAPL" sample_peers_env I)).
Defined.

Definition sample_anchor (href : string) (text : string) : Peers.anchor :=
  Peers.mkAnchor href text
    (Returned (Peers.mkRow [text; "Some Company"] ["21.5"; "7"; "--"; "x"])).

Lemma peers_page_tier_distinct_witness :
  let anchors :=
    [ sample_anchor "/quote/MSFT?p=MSFT" "MSFT";
      sample_anchor "https://finance.yahoo.com/quote/MSFT/" "Microsoft";
      sample_anchor "/quote/%5EGSPC" "S&P 500";
      sample_anchor "/quote/^GSPC" "^GSPC";
      sample_anchor "/quote/AAPL" "AAPL";
      sample_anchor "/quote/GOOG/sustainability" "GOOG" ] in
  fst (Peers.process_anchors "AAPL" [] anchors)
  = [ Peers.mkEntry "MSFT" (PyStr "Some Company") (PyStr "21.5") (PyStr "7")
        PyNone PyNone;
      Peers.mkEntry "GOOG" (PyStr "Some Company") (PyStr "21.5") (PyStr "7")
        PyNone PyNone ]
  /\ List.NoDup (map Peers.Ticker (fst (Peers.process_anchors "AAPL" [] anchors))).
Proof.
  intros anchors. split; [vm_compute; reflexivity|].
  exact (proj1 (peers_page_tier_distinct "AAPL" anchors)).
Defined.

(** *** The layout of the sheet *)

Lemma write_row_spec values : forall r c w,
  fst (Peers.write_row r c values w) = Returned tt
  /\ forall pos,
       cell (snd (Peers.write_row r c values w)) "Peers" pos
       = if decide (fst pos = r /\ (c <= snd pos < c + length values)%nat)
         then nth_error values (snd pos - c)
         else cell w "Peers" pos.
Proof.
  induction values as [|v values IH]; intros r c w.
  - split; [reflexivity|]. intros pos. simpl.
    rewrite decide_False by lia. reflexivity.
  - cbn [Peers.write_row]. unfold Excel.bind.
    pose proof (write_cell_returns "Peers" r c v w) as R1.
    pose proof (fun pos => cell_write_cell "Peers" r c v w pos) as C1.
    destruct (Esg.write_cell "Peers" r c v w) as [o1 w1].
    simpl in R1, C1. subst o1.
    destruct (IH r (S c) w1) as [R2 C2]. split; [exact R2|].
    intros [pr pc]. rewrite C2, C1. cbn [fst snd length].
    destruct (decide (pr = r /\ (S c <= pc < S c + length values)%nat)) as [H|H].
    + rewrite decide_True by lia.
      replace (pc - c)%nat with (S (pc - S c)) by lia. reflexivity.
    + destruct (decide ((pr, pc) = (r, c))) as [[= -> ->]|Hne].
      * rewrite decide_True by lia. rewrite Nat.sub_diag. reflexivity.
      * rewrite decide_False; [reflexivity|].
        intros [-> Hc]. assert (pc = c) by lia. subst. congruence.
Qed.

Lemma write_rows_spec peers : forall r w,
  fst (Peers.write_rows r peers w) = Returned (r + length peers)%nat
  /\ forall pos,
       cell (snd (Peers.write_rows r peers w)) "Peers" pos
       = if decide ((r <= fst pos < r + length peers)%nat /\ (snd pos < 6)%nat)
         then match nth_error peers (fst pos - r) with
              | Some p => nth_error (Peers.cells_of p) (snd pos)
              | None => None
              end
         else cell w "Peers" pos.
Proof.
  induction peers as [|p peers IH]; intros r w.
  - split; [simpl; unfold Excel.ret; simpl; f_equal; lia|].
    intros pos. simpl. rewrite decide_False by lia. reflexivity.
  - cbn [Peers.write_rows]. unfold Excel.bind.
    destruct (write_row_spec (Peers.cells_of p) r 0 w) as [R1 C1].
    destruct (Peers.write_row r 0 (Peers.cells_of p) w) as [o1 w1].
    simpl in R1, C1. subst o1.
    destruct (IH (S r) w1) as [R2 C2]. split.
    + rewrite R2. cbn [length]. f_equal. lia.
    + intros [pr pc]. rewrite C2, C1. cbn [fst snd length].
      destruct (decide ((S r <= pr < S r + length peers)%nat /\ (pc < 6)%nat))
        as [H|H].
      * rewrite decide_True by lia.
        replace (pr - r)%nat with (S (pr - S r)) by lia. reflexivity.
      * destruct (decide (pr = r /\ (0 <= pc < 6)%nat)) as [[-> Hc]|Hne].
        -- rewrite decide_True by lia. rewrite Nat.sub_diag, Nat.sub_0_r.
           reflexivity.
        -- rewrite decide_False by lia. reflexivity.
Qed.

Lemma cell_new_sheet (w : Excel.writer) name pos :
  cell (<[name := ∅]> w) name pos = None.
Proof. unfold cell. rewrite lookup_insert_eq. simpl. apply lookup_empty. Qed.

Lemma nth_error_take_lt {A} (l : list A) n i :
  (i < n)%nat -> nth_error (take n l) i = nth_error l i.
Proof.
  revert n i. induction l as [|x l IH]; intros [|n] [|i] H; simpl;
    try reflexivity; try lia.
  apply IH. lia.
Qed.

Lemma nth_error_drop_add {A} (l : list A) n i :
  nth_error (drop n l) i = nth_error l (n + i).
Proof.
  revert n. induction l as [|x l IH]; intros [|n]; simpl; try reflexivity.
  - destruct i; reflexivity.
  - apply IH.
Qed.

(** X25: when the [info] of the ticker can be read, the ticker itself is the
    first entry, with its symbol as it is (no filter is applied to it), and on
    a workbook without a sheet [Peers] the sheet is laid out as follows: the
    title [Peers] in row 0, the column headers in row 1, the first five
    entries from row 2 on with the ticker itself in row 2; when there are
    more than five entries, the title [Related Tickers] stands in row 7,
    directly below the fifth entry, row 8 is empty, the column headers are
    repeated in row 9 and the other entries follow from row 10 on. *)
Theorem peers_sheet_layout (subject : string) (e : Peers.env)
  (info : option Peers.profile) (w : Excel.writer)
  (Hinfo : Peers.ticker_info e = Returned info)
  (Hnew : w !! "Peers" = None) :
  let data := Peers.peer_data subject e in
  exists w',
    Peers.fetch_peers_esg subject e w = (Returned tt, w')
    /\ data = Peers.current_ticker_data subject info :: Peers.gathered subject e
    /\ cell w' "Peers" (0, 0)%nat = Some (PyStr "Peers")
    /\ cell w' "Peers" (1, 0)%nat = Some (PyStr "Ticker")
    /\ cell w' "Peers" (2, 0)%nat = Some (PyStr subject)
    /\ (forall i p, (i < 5)%nat -> nth_error data i = Some p ->
          cell w' "Peers" (2 + i, 0)%nat = Some (PyStr (Peers.Ticker p)))
    /\ ((5 < length data)%nat ->
        cell w' "Peers" (7, 0)%nat = Some (PyStr "Related Tickers")
        /\ (forall c, cell w' "Peers" (8, c)%nat = None)
        /\ cell w' "Peers" (9, 0)%nat = Some (PyStr "Ticker")
        /\ forall i p, nth_error data (5 + i) = Some p ->
             cell w' "Peers" (10 + i, 0)%nat = Some (PyStr (Peers.Ticker p))).
Proof.
  cbv zeta.
  assert (Hdata : Peers.peer_data subject e
                  = Peers.current_ticker_data subject info
                    :: Peers.gathered subject e).
  { unfold Peers.peer_data. rewrite Hinfo. reflexivity. }
  unfold Peers.fetch_peers_esg, Run.guarded, Excel.try_except, Peers.body.
  rewrite Hdata.
  set (d := Peers.current_ticker_data subject info :: Peers.gathered subject e).
  assert (Hd0 : nth_error d 0 = Some (Peers.current_ticker_data subject info))
    by reflexivity.
  assert (Hsubject : Peers.Ticker (Peers.current_ticker_data subject info) = subject)
    by (destruct info; reflexivity).
  change (match d with [] => _ | _ => Peers.write_sheet d end)
    with (Peers.write_sheet d).
  unfold Peers.write_sheet, Excel.bind, Peers.add_worksheet, Peers.merge_range.
  rewrite Hnew.
  pose proof (fun pos => cell_new_sheet w "Peers" pos) as C1.
  set (w1 := <["Peers" := ∅]> w) in *.
  destruct (write_row_spec
              [PyStr "Peers"; PyNone; PyNone; PyNone; PyNone; PyNone]
              (Peers.a1_row 1) 0 w1) as [R2 C2].
  destruct (Peers.write_row (Peers.a1_row 1) 0 _ w1) as [o2 w2].
  unfold Peers.a1_row in R2, C2. simpl in R2, C2. subst o2.
  destruct (write_row_spec (map PyStr Peers.columns) 1 0 w2) as [R3 C3].
  destruct (Peers.write_row 1 0 (map PyStr Peers.columns) w2) as [o3 w3].
  simpl in R3, C3. subst o3.
  destruct (write_rows_spec (take 5 d) 2 w3) as [R4 C4].
  destruct (Peers.write_rows 2 (take 5 d) w3) as [o4 w4].
  cbn [fst snd] in R4, C4. subst o4.
  assert (Hbase : forall i p, (i < 5)%nat -> nth_error d i = Some p ->
            forall c, (c < 6)%nat ->
            cell w4 "Peers" (2 + i, c)%nat = nth_error (Peers.cells_of p) c).
  { intros i p Hi Hp c Hc. rewrite C4. cbn [fst snd].
    assert (Hlen : (i < length (take 5 d))%nat).
    { apply nth_error_Some. rewrite nth_error_take_lt by exact Hi. congruence. }
    rewrite decide_True by lia.
    replace (2 + i - 2)%nat with i by lia.
    rewrite nth_error_take_lt by exact Hi. rewrite Hp. reflexivity. }
  assert (Htop : cell w4 "Peers" (0, 0)%nat = Some (PyStr "Peers")
                 /\ cell w4 "Peers" (1, 0)%nat = Some (PyStr "Ticker")).
  { split.
    - rewrite C4. cbn [fst snd]. rewrite decide_False by lia.
      rewrite C3. cbn [fst snd]. rewrite decide_False by lia.
      rewrite C2. cbn [fst snd]. reflexivity.
    - rewrite C4. cbn [fst snd]. rewrite decide_False by lia.
      rewrite C3. cbn [fst snd]. reflexivity. }
  destruct Htop as [Ht0 Ht1].
  destruct (drop 5 d) as [|q related] eqn:Edrop.
  - exists w4. split; [reflexivity|]. split; [reflexivity|].
    split; [exact Ht0|]. split; [exact Ht1|].
    split; [rewrite <- Hsubject; apply (Hbase 0%nat _ ltac:(lia) Hd0 0%nat); lia|].
    split.
    + intros i p Hi Hp. apply (Hbase i p Hi Hp 0%nat). lia.
    + intros Hlen. exfalso.
      apply (f_equal length) in Edrop. rewrite length_drop in Edrop.
      cbn [length] in Edrop. lia.
  - assert (Hfive : length (take 5 d) = 5%nat).
    { rewrite length_take. apply (f_equal length) in Edrop.
      rewrite length_drop in Edrop. cbn [length] in Edrop. lia. }
    rewrite Hfive.
    destruct (write_row_spec
                [PyStr "Related Tickers"; PyNone; PyNone; PyNone; PyNone; PyNone]
                (Peers.a1_row (2 + 5 + 1)) 0 w4) as [R5 C5].
    destruct (Peers.write_row (Peers.a1_row (2 + 5 + 1)) 0 _ w4) as [o5 w5].
    unfold Peers.a1_row in R5, C5. simpl in R5, C5. subst o5.
    destruct (write_row_spec (map PyStr Peers.columns) (2 + 5 + 1 + 1) 0 w5)
      as [R6 C6].
    destruct (Peers.write_row (2 + 5 + 1 + 1) 0 (map PyStr Peers.columns) w5)
      as [o6 w6].
    simpl in R6, C6. subst o6.
    destruct (write_rows_spec (q :: related) (2 + 5 + 1 + 1 + 1) w6) as [R7 C7].
    destruct (Peers.write_rows (2 + 5 + 1 + 1 + 1) (q :: related) w6) as [o7 w7].
    cbn [fst snd] in R7, C7. subst o7.
    exists w7. split; [reflexivity|]. split; [reflexivity|].
    assert (Hkeep : forall r c, (r < 7)%nat ->
              cell w7 "Peers" (r, c) = cell w4 "Peers" (r, c)).
    { intros r c Hr. rewrite C7. cbn [fst snd]. rewrite decide_False by lia.
      rewrite C6. cbn [fst snd]. rewrite decide_False by lia.
      rewrite C5. cbn [fst snd]. rewrite decide_False by lia. reflexivity. }
    split; [rewrite Hkeep by lia; exact Ht0|].
    split; [rewrite Hkeep by lia; exact Ht1|].
    split; [rewrite Hkeep by lia; rewrite <- Hsubject;
            apply (Hbase 0%nat _ ltac:(lia) Hd0 0%nat); lia|].
    split.
    + intros i p Hi Hp. rewrite Hkeep by lia. apply (Hbase i p Hi Hp 0%nat). lia.
    + intros _. split; [|split; [|split]].
      * rewrite C7. cbn [fst snd]. rewrite decide_False by lia.
        rewrite C6. cbn [fst snd]. rewrite decide_False by lia.
        rewrite C5. cbn [fst snd]. reflexivity.
      * intros c. rewrite C7. cbn [fst snd]. rewrite decide_False by lia.
        rewrite C6. cbn [fst snd]. rewrite decide_False by lia.
        rewrite C5. cbn [fst snd]. rewrite decide_False by lia.
        rewrite C4. cbn [fst snd]. rewrite decide_False by lia.
        rewrite C3. cbn [fst snd]. rewrite decide_False by lia.
        rewrite C2. cbn [fst snd]. rewrite decide_False by lia.
        apply C1.
      * rewrite C7. cbn [fst snd]. rewrite decide_False by lia.
        rewrite C6. cbn [fst snd]. reflexivity.
      * intros i p Hp. rewrite C7. cbn [fst snd].
        assert (Hq : nth_error (q :: related) i = Some p).
        { rewrite <- Edrop, nth_error_drop_add. exact Hp. }
        assert (Hi : (i < length (q :: related))%nat).
        { apply nth_error_Some. congruence. }
        rewrite decide_True by (cbn [length] in *; lia).
        match goal with
        | |- context [nth_error (q :: related) ?k] => replace k with i by lia
        end.
        rewrite Hq. reflexivity.
Qed.

Definition sample_index_env : Peers.env :=
  Peers.mkEnv (Raised "timeout")
    (Returned (Some (sample_profile "S&P 500"
                       [PyStr "AAA"; PyStr "BBB"; PyStr "CCC"; PyStr "DDD";
                        PyStr "EEE"; PyStr "FFF"])))
    (fun peer => Returned (Some (sample_profile (peer ++ " Corp") []))).

Lemma peers_sheet_layout_witness :
  exists w',
    Peers.fetch_peers_esg "^GSPC" sample_index_env ∅ = (Returned tt, w')
    /\ map Peers.Ticker (Peers.peer_data "^GSPC" sample_index_env)
       = ["^GSPC"; "AAA"; "BBB"; "CCC"; "DDD"; "EEE"; "FFF"]
    /\ cell w' "Peers" (2, 0)%nat = Some (PyStr "^GSPC")
    /\ cell w' "Peers" (6, 0)%nat = Some (PyStr "DDD")
    /\ cell w' "Peers" (7, 0)%nat = Some (PyStr "Related Tickers")
    /\ cell w' "Peers" (8, 0)%nat = None
    /\ cell w' "Peers" (9, 0)%nat = Some (PyStr "Ticker")
    /\ cell w' "Peers" (10, 0)%nat = Some (PyStr "EEE").
Proof.
  assert (Hnew : (∅ : Excel.writer) !! "Peers" = None) by reflexivity.
  destruct (peers_sheet_layout "^GSPC" sample_index_env _ ∅ eq_refl Hnew)
    as (w' & Hrun & Hdata & _ & _ & H2 & Hpeers & Hrelated).
  exists w'. split; [exact Hrun|]. split; [reflexivity|]. split; [exact H2|].
  split; [exact (Hpeers 4%nat _ ltac:(lia) eq_refl)|].
  destruct Hrelated as (H7 & H8 & H9 & H10); [simpl; lia|].
  split; [exact H7|]. split; [apply H8|]. split; [exact H9|].
  exact (H10 0%nat _ eq_refl).
Defined.

(** X26: when the page cannot be read and the [info] of the ticker raises,
    nothing is gathered and the ticker itself is not put in front, so the
    sheet [Peers] holds the header [Message] and, below it, the text that no
    peer companies were found for the ticker; no exception leaves the
    operation. *)
Theorem peers_none_found (subject : string) (e : Peers.env) (err : string)
  (w : Excel.writer)
  (Hpage : match Peers.response e with
           | Raised _ => True
           | Returned pg => Peers.status_code pg <> 200%nat
           end)
  (Hinfo : Peers.ticker_info e = Raised err) :
  Peers.peer_data subject e = []
  /\ Peers.fetch_peers_esg subject e w
     = (Returned tt,
        Excel.to_excel
          (Excel.marker_frame "Message"
             ("No ESG Risk Score peer companies found for " ++ subject
              ++ " in Yahoo Finance Sustainability tab."))
          "Peers" false w).
Proof.
  assert (Hg : Peers.gathered subject e = []).
  { apply (peers_without_page_gathered subject e Hpage).
    intros info. rewrite Hinfo. discriminate. }
  assert (Hd : Peers.peer_data subject e = []).
  { unfold Peers.peer_data. rewrite Hinfo. exact Hg. }
  split; [exact Hd|].
  unfold Peers.fetch_peers_esg, Run.guarded, Excel.try_except, Peers.body.
  rewrite Hd. reflexivity.
Qed.

Lemma peers_none_found_witness :
  let e :=
    Peers.mkEnv (Returned (Peers.mkPage 404 None [])) (Raised "no connection")
      (fun _ => Raised "no connection") in
  Peers.fetch_peers_esg "AAPL" e ∅
  = (Returned tt,
     Excel.to_excel
       (Excel.marker_frame "Message"
          "No ESG Risk Score peer companies found for AAPL in Yahoo Finance Sustainability tab.")
       "Peers" false ∅).
Proof.
  intros e.
  assert (Hpage : match Peers.response e with
                  | Raised _ => True
                  | Returned pg => Peers.status_code pg <> 200%nat
                  end) by (simpl; lia).
  exact (proj2 (peers_none_found "AAPL" e "no connection" ∅ Hpage eq_refl)).
Defined.
(** *** The list with the ticker itself in front *)









(** ** The details of the company in [fetch_company_summary] *)

Lemma scrape_row_sector_closed d r :
  Details.open_text (Details.sector d) = false ->
  Details.sector (Details.scrape_row d r) = Details.sector d.
Proof.
  intros Hd. destruct r as [label value]. unfold Details.scrape_row.
  rewrite Hd, andb_false_r.
  repeat match goal with
         | |- context [if ?b then _ else _] => destruct b
         end; reflexivity.
Qed.

Lemma scrape_row_sector_other d label value :
  PyStr.contains label "Sector" = false ->
  Details.sector (Details.scrape_row d (label, value)) = Details.sector d.
Proof.
  intros Hl. unfold Details.scrape_row. rewrite Hl. cbn [andb].
  repeat match goal with
         | |- context [if ?b then _ else _] => destruct b
         end; reflexivity.
Qed.

Lemma scrape_rows_sector_closed rows : forall d,
  Details.open_text (Details.sector d) = false ->
  Details.sector (fold_left Details.scrape_row rows d) = Details.sector d.
Proof.
  induction rows as [|r rows IH]; intros d Hd; [reflexivity|].
  cbn [fold_left]. rewrite IH; rewrite scrape_row_sector_closed; auto.
Qed.

Lemma scrape_rows_sector_other rows : forall d,
  List.Forall (fun r => PyStr.contains (fst r) "Sector" = false) rows ->
  Details.sector (fold_left Details.scrape_row rows d) = Details.sector d.
Proof.
  induction rows as [|[label value] rows IH]; intros d Hrows; [reflexivity|].
  inversion Hrows as [|? ? Hr Hrest]; subst. cbn [fold_left].
  rewrite (IH _ Hrest). apply scrape_row_sector_other. exact Hr.
Qed.

(** No label of the rows holds one of the four words looked for. *)
Definition no_detail_label (r : string * string) : bool :=
  negb (PyStr.contains (fst r) "Sector"
        || PyStr.contains (fst r) "Industry"
        || PyStr.contains (fst r) "Full Time Employees"
        || PyStr.contains (fst r) "Fiscal Year End").

Lemma scrape_rows_no_label rows : forall d,
  forallb no_detail_label rows = true ->
  fold_left Details.scrape_row rows d = d.
Proof.
  induction rows as [|[label value] rows IH]; intros d Hrows; [reflexivity|].
  cbn [forallb] in Hrows. apply andb_true_iff in Hrows as [Hr Hrest].
  cbn [fold_left]. rewrite <- (IH d Hrest) at 2. f_equal.
  unfold no_detail_label in Hr. cbn [fst] in Hr.
  apply negb_true_iff in Hr.
  apply orb_false_iff in Hr as [Hr H4].
  apply orb_false_iff in Hr as [Hr H3].
  apply orb_false_iff in Hr as [H1 H2].
  unfold Details.scrape_row. rewrite H1, H2, H3, H4. reflexivity.
Qed.

(** The profile page contributes nothing: the request raised, the status is
not 200, or no row has a label with one of the four words. *)
Definition page_silent (profile : outcome Details.profile_page) : bool :=
  match profile with
  | Raised _ => true
  | Returned pg =>
      negb (Details.status_code pg =? 200)%nat
      || forallb no_detail_label (Details.table_rows pg)
  end.

Definition sample_details_info : Details.info :=
  Details.mkInfo (PyStr "164000") Details.FiscalNone PyNone PyNone
    (Some (PyStr "Makes things.")).

Definition sample_profile_page : Details.profile_page :=
  Details.mkProfilePage 200
    [("Full Time Employees", "12,000"); ("Sector(s)", "Energy");
     ("Sector", "Utilities"); ("Industry", "Oil & Gas")].

(** X27. [fetch_company_summary], details of the company: the four details
are always set on the sheet.  When [info] gives none of them (an employee
count that is not a positive number counts as none) and the profile page
contributes nothing (the request raised, the status is not 200, or no row has
one of the four labels), the sheet shows 150,000 employees, a fiscal year end
of December 31, the sector Technology and the industry Consumer Electronics,
whatever the company. *)
Theorem details_defaults_any_company (i : Details.info)
    (profile : outcome Details.profile_page) :
  Details.format_employees (Details.fullTimeEmployees i) = None ->
  Details.format_fiscal_year_end (Details.fiscalYearEnd i) = Details.FiscalNone ->
  Details.info_sector i = PyNone ->
  Details.info_industry i = PyNone ->
  page_silent profile = true ->
  Details.company_details i profile
  = Details.mkDetails (Some "150,000") (Details.FiscalStr "December 31")
      (PyStr "Technology") (PyStr "Consumer Electronics").
Proof.
  intros He Hf Hs Hi Hp.
  assert (Hd : Details.from_info i
               = Details.mkDetails None Details.FiscalNone PyNone PyNone).
  { unfold Details.from_info. rewrite He, Hf, Hs, Hi. reflexivity. }
  assert (Ha : Details.after_profile i profile = Details.from_info i).
  { unfold Details.after_profile.
    destruct (Details.needs_profile i (Details.from_info i)); [|reflexivity].
    destruct profile as [pg|e]; [|reflexivity].
    cbn [page_silent] in Hp.
    destruct (Details.status_code pg =? 200)%nat; [|reflexivity].
    cbn [negb orb] in Hp. apply scrape_rows_no_label. exact Hp. }
  unfold Details.company_details. rewrite Ha, Hd. reflexivity.
Qed.

Lemma details_defaults_any_company_witness :
  Details.company_details sample_details_info (Raised "timeout")
  = Details.mkDetails (Some "150,000") (Details.FiscalStr "December 31")
      (PyStr "Technology") (PyStr "Consumer Electronics").
Proof.
  apply (details_defaults_any_company sample_details_info (Raised "timeout"));
    reflexivity.
Defined.

(** X28. [fetch_company_summary], sector of the company: a sector that
[info] gives (anything but [None] and the text N/A) is the one shown, whatever
the profile page holds.  When [info] has no sector and the page answers with
status 200, the sector shown is the value of the first row whose label
contains the word Sector, provided that value is not N/A; later rows do not
replace it. *)
Theorem details_sector_source (i : Details.info)
    (profile : outcome Details.profile_page) :
  (Details.open_text (Details.info_sector i) = false ->
   Details.sector (Details.company_details i profile) = Details.info_sector i)
  /\ (forall pg pre label value post,
        Details.info_sector i = PyNone ->
        profile = Returned pg ->
        Details.status_code pg = 200%nat ->
        Details.table_rows pg = (pre ++ (label, value) :: post)%list ->
        List.Forall (fun r => PyStr.contains (fst r) "Sector" = false) pre ->
        PyStr.contains label "Sector" = true ->
        value <> "N/A" ->
        Details.sector (Details.company_details i profile) = PyStr value).
Proof.
  split.
  - intros Hopen.
    assert (Ha : Details.sector (Details.after_profile i profile)
                 = Details.info_sector i).
    { unfold Details.after_profile.
      destruct (Details.needs_profile i (Details.from_info i)); [|reflexivity].
      destruct profile as [pg|e]; [|reflexivity].
      destruct (Details.status_code pg =? 200)%nat; [|reflexivity].
      rewrite scrape_rows_sector_closed; [reflexivity|exact Hopen]. }
    unfold Details.company_details, Details.with_defaults.
    cbn [Details.sector]. rewrite Ha.
    destruct (Details.info_sector i); [discriminate Hopen|reflexivity..].
  - intros pg pre label value post Hnone -> Hstatus Hrows Hpre Hlabel Hvalue.
    assert (Hneed : Details.needs_profile i (Details.from_info i) = true).
    { unfold Details.needs_profile, Details.from_info. cbn [Details.sector].
      rewrite Hnone. cbn [Details.is_none].
      rewrite !orb_true_r. reflexivity. }
    assert (Ha : Details.sector (Details.after_profile i (Returned pg))
                 = PyStr value).
    { unfold Details.after_profile. rewrite Hneed, Hstatus, Hrows.
      cbn [Nat.eqb]. rewrite fold_left_app. cbn [fold_left].
      set (d := fold_left Details.scrape_row pre (Details.from_info i)).
      assert (Hd : Details.sector d = PyNone).
      { unfold d. rewrite scrape_rows_sector_other by exact Hpre.
        exact Hnone. }
      assert (Hrow : Details.sector (Details.scrape_row d (label, value))
                     = PyStr value).
      { unfold Details.scrape_row. rewrite Hlabel, Hd. reflexivity. }
      rewrite scrape_rows_sector_closed; [exact Hrow|].
      rewrite Hrow. cbn [Details.open_text].
      apply String.eqb_neq. exact Hvalue. }
    unfold Details.company_details, Details.with_defaults.
    cbn [Details.sector]. rewrite Ha. reflexivity.
Qed.

Lemma details_sector_source_witness :
  Details.sector
    (Details.company_details sample_details_info (Returned sample_profile_page))
  = PyStr "Energy".
Proof.
  apply (proj2 (details_sector_source sample_details_info
                  (Returned sample_profile_page))
           sample_profile_page [("Full Time Employees", "12,000")]
           "Sector(s)" "Energy"
           [("Sector", "Utilities"); ("Industry", "Oil & Gas")]);
    try reflexivity.
  - repeat constructor.
  - discriminate.
Defined.


(** ** The controversy level of [fetch_sustainability] *)

Lemma level_in_level text level :
  Sustainability.level_in text = Some level ->
  In level Sustainability.levels /\ level <> "Not Available".
Proof.
  intros H. apply find_some in H as [Hin _]. split; [exact Hin|].
  cbn [Sustainability.levels In] in Hin.
  intuition (subst; discriminate).
Qed.

(** A level, once set, stays set. *)
Lemma match_level_set text current :
  current <> "Not Available" ->
  Sustainability.match_level text current <> "Not Available".
Proof.
  intros Hc. unfold Sustainability.match_level.
  destruct (Sustainability.level_in text) as [l|] eqn:E; [|exact Hc].
  apply (level_in_level _ _ E).
Qed.

Definition is_level (s : string) : Prop :=
  s = "Not Available" \/ In s Sustainability.levels.

Lemma match_level_is_level text current :
  is_level current -> is_level (Sustainability.match_level text current).
Proof.
  intros Hc. unfold Sustainability.match_level.
  destruct (Sustainability.level_in text) as [l|] eqn:E; [|exact Hc].
  right. apply (level_in_level _ _ E).
Qed.

Lemma scan_siblings_is_level siblings : forall current,
  is_level current -> is_level (Sustainability.scan_siblings siblings current).
Proof.
  induction siblings as [|s rest IH]; intros current Hc; [exact Hc|].
  cbn [Sustainability.scan_siblings].
  destruct (PyStr.truthy (PyStr.strip s)); [|apply IH, Hc].
  destruct (negb _); [|apply IH]; apply match_level_is_level, Hc.
Qed.

Lemma scan_siblings_set siblings : forall current,
  current <> "Not Available" ->
  Sustainability.scan_siblings siblings current <> "Not Available".
Proof.
  induction siblings as [|s rest IH]; intros current Hc; [exact Hc|].
  cbn [Sustainability.scan_siblings].
  destruct (PyStr.truthy (PyStr.strip s)); [|apply IH, Hc].
  destruct (negb _); [|apply IH]; apply match_level_set, Hc.
Qed.

(** No text among the siblings names a level. *)
Definition silent (siblings : list string) : Prop :=
  List.Forall (fun t => Sustainability.level_in (PyStr.strip t) = None)
    siblings.

Lemma scan_siblings_silent siblings :
  Sustainability.scan_siblings siblings "Not Available" = "Not Available"
  <-> silent siblings.
Proof.
  induction siblings as [|s rest IH].
  - split; [constructor|reflexivity].
  - cbn [Sustainability.scan_siblings].
    destruct (PyStr.truthy (PyStr.strip s)) eqn:Et.
    + unfold Sustainability.match_level.
      destruct (Sustainability.level_in (PyStr.strip s)) as [l|] eqn:El.
      * cbn [default from_option id].
        destruct (level_in_level _ _ El) as [_ Hl].
        apply String.eqb_neq in Hl. rewrite Hl. cbn [negb].
        apply String.eqb_neq in Hl.
        split; [intros H; contradiction|].
        intros H. inversion H as [|? ? Hs _]; subst. congruence.
      * cbn [default from_option id String.eqb Ascii.eqb Bool.eqb negb]. rewrite IH.
        split; [intros H; constructor; assumption|].
        intros H. inversion H; assumption.
    + rewrite IH.
      assert (El : Sustainability.level_in (PyStr.strip s) = None).
      { destruct (PyStr.strip s); [reflexivity|discriminate Et]. }
      split; [intros H; constructor; assumption|].
      intros H. inversion H; assumption.
Qed.

Lemma scan_sections_from sections : forall current,
  (is_level current ->
   is_level (fold_left (fun level next_siblings =>
               Sustainability.scan_siblings (take 5 next_siblings) level)
               sections current))
  /\ (current <> "Not Available" ->
      fold_left (fun level next_siblings =>
                   Sustainability.scan_siblings (take 5 next_siblings) level)
        sections current <> "Not Available")
  /\ (fold_left (fun level next_siblings =>
                   Sustainability.scan_siblings (take 5 next_siblings) level)
        sections "Not Available" = "Not Available"
      <-> List.Forall (fun next_siblings => silent (take 5 next_siblings))
            sections).
Proof.
  induction sections as [|s rest IH]; intros current.
  - cbn [fold_left]. repeat split; auto.
  - cbn [fold_left]. split; [|split].
    + intros Hc. apply IH, scan_siblings_is_level, Hc.
    + intros Hc. apply IH, scan_siblings_set, Hc.
    + split.
      * intros H.
        destruct (String.eqb_spec
                    (Sustainability.scan_siblings (take 5 s) "Not Available")
                    "Not Available") as [E|E].
        -- rewrite E in H. constructor.
           ++ apply scan_siblings_silent, E.
           ++ apply (IH "Not Available"), H.
        -- exfalso. revert H.
           apply (proj1 (proj2 (IH _))), E.
      * intros H. inversion H as [|? ? Hs Hrest]; subst.
        apply scan_siblings_silent in Hs. rewrite Hs.
        apply (IH "Not Available"), Hrest.
Qed.

Lemma scan_elements_from elements : forall current,
  (is_level current ->
   is_level (Sustainability.scan_elements elements current))
  /\ (current <> "Not Available" ->
      Sustainability.scan_elements elements current <> "Not Available")
  /\ (Sustainability.scan_elements elements "Not Available" = "Not Available"
      <-> silent elements).
Proof.
  unfold Sustainability.scan_elements.
  induction elements as [|e rest IH]; intros current.
  - cbn [fold_left]. repeat split; auto. constructor.
  - cbn [fold_left]. split; [|split].
    + intros Hc. apply IH, match_level_is_level, Hc.
    + intros Hc. apply IH, match_level_set, Hc.
    + destruct (Sustainability.level_in (PyStr.strip e)) as [l|] eqn:El.
      * assert (Hm : Sustainability.match_level (PyStr.strip e) "Not Available"
                     = l).
        { unfold Sustainability.match_level. rewrite El. reflexivity. }
        rewrite Hm. destruct (level_in_level _ _ El) as [_ Hl].
        split.
        -- intros H. exfalso. revert H. apply (proj1 (proj2 (IH _))), Hl.
        -- intros H. inversion H; subst. congruence.
      * assert (Hm : Sustainability.match_level (PyStr.strip e) "Not Available"
                     = "Not Available").
        { unfold Sustainability.match_level. rewrite El. reflexivity. }
        rewrite Hm, (proj2 (proj2 (IH "Not Available"))).
        split; [intros H; constructor; assumption|].
        intros H. inversion H; assumption.
Qed.

(** A level named by the first sibling that has text decides one section,
whatever was set before. *)
Lemma scan_siblings_first blanks text rest level current :
  List.Forall (fun b => PyStr.truthy (PyStr.strip b) = false) blanks ->
  PyStr.truthy (PyStr.strip text) = true ->
  Sustainability.level_in (PyStr.strip text) = Some level ->
  Sustainability.scan_siblings (blanks ++ text :: rest)%list current = level.
Proof.
  intros Hb Ht Hl. induction Hb as [|b blanks Hb _ IH].
  - cbn [app Sustainability.scan_siblings]. rewrite Ht.
    unfold Sustainability.match_level. rewrite Hl. cbn [default from_option id].
    destruct (level_in_level _ _ Hl) as [_ Hne].
    apply String.eqb_neq in Hne. rewrite Hne. reflexivity.
  - cbn [app Sustainability.scan_siblings]. rewrite Hb. exact IH.
Qed.

Definition sample_sections : list (list string) :=
  [["Severe"]; [" "; "Not allowed"; "High"]].

(** X30. [fetch_sustainability], controversy level: the level is one of
Negligible, Low, Moderate, Significant, High and Severe, or the text Not
Available, and it is Not Available exactly when none of the texts looked at
(the first five siblings of each section, and the labelled elements) names a
level.  Names are matched inside the text without regard to case.  A level
named by the first sibling with text of the last section replaces what
earlier sections gave. *)
Theorem controversy_level_found (sections : list (list string))
    (elements : list string) :
  let level := Sustainability.controversy_level sections elements in
  (level = "Not Available" \/ In level Sustainability.levels)
  /\ (level = "Not Available"
      <-> List.Forall (fun next_siblings =>
            List.Forall
              (fun t => Sustainability.level_in (PyStr.strip t) = None)
              (take 5 next_siblings)) sections
          /\ List.Forall
               (fun t => Sustainability.level_in (PyStr.strip t) = None)
               elements)
  /\ (forall earlier last blanks text rest found,
        sections = (earlier ++ [last])%list ->
        take 5 last = (blanks ++ text :: rest)%list ->
        List.Forall (fun b => PyStr.truthy (PyStr.strip b) = false) blanks ->
        PyStr.truthy (PyStr.strip text) = true ->
        Sustainability.level_in (PyStr.strip text) = Some found ->
        level = found).
Proof.
  cbn zeta. unfold Sustainability.controversy_level.
  pose proof (scan_sections_from sections "Not Available") as [Hs1 [_ Hs3]].
  fold (Sustainability.scan_sections sections) in Hs1, Hs3.
  pose proof (scan_elements_from elements "Not Available") as [He1 [_ He3]].
  destruct (String.eqb_spec (Sustainability.scan_sections sections)
              "Not Available") as [E|E].
  - rewrite E. split; [|split].
    + apply He1. left; reflexivity.
    + rewrite He3. apply Hs3 in E. unfold silent in *. tauto.
    + intros earlier last blanks text rest found -> Htake Hb Ht Hl.
      exfalso.
      unfold Sustainability.scan_sections in E.
      rewrite fold_left_app in E. cbn [fold_left] in E.
      rewrite Htake in E.
      rewrite (scan_siblings_first _ _ _ _ _ Hb Ht Hl) in E.
      apply (level_in_level _ _ Hl). exact E.
  - split; [|split].
    + apply Hs1. left; reflexivity.
    + split; [intros H; contradiction|].
      intros [H _]. exfalso. apply E, Hs3. exact H.
    + intros earlier last blanks text rest found -> Htake Hb Ht Hl.
      unfold Sustainability.scan_sections.
      rewrite fold_left_app. cbn [fold_left]. rewrite Htake.
      apply (scan_siblings_first _ _ _ _ _ Hb Ht Hl).
Qed.

Lemma controversy_level_found_witness :
  Sustainability.controversy_level sample_sections [] = "Low".
Proof.
  apply (proj2 (proj2 (controversy_level_found sample_sections []))
           [["Severe"]] [" "; "Not allowed"; "High"] [" "] "Not allowed"
           ["High"] "Low"); try reflexivity.
  repeat constructor.
Defined.
